(** * data-viz-project: the column profiler and the chart recommendation engine

    A shallow embedding of [analyze_column] and [recommend_charts_from_data]
    of [backend_python/main.py], and the properties of the design document
    that are settled on it.

    Conventions of the embedding.
    - A Python call either returns a value or raises: [res A].
    - A [float] score is one of the two-digit decimal literals of the source
      (or the integer [0]); it is kept as the rational the literal denotes.
      Distinct two-digit decimals round to distinct doubles in the same
      order, so comparing the rationals is comparing the floats.
    - [str] is a byte string (UTF-8, as the source file is encoded);
      [str.lower] acts on the letters A-Z.  The keywords the source looks
      for are ASCII, and no other character lowers to one of their letters
      in a way that would create a match.
    - [list.sort] is Python's stable sort; [reverse=True] keeps stability. *)

From Stdlib Require Import String Ascii List Bool Arith ZArith QArith Lia.
From Stdlib Require Import DecimalString Permutation.
Import ListNotations.

Close Scope Q_scope.
Open Scope string_scope.
Open Scope list_scope.
Open Scope nat_scope.

(** ** Python results *)

Inductive exn : Type :=
| KeyError (key : string)
| IndexError
| OtherError (msg : string).

Inductive res (A : Type) : Type :=
| Ok (a : A)
| Raise (e : exn).

Arguments Ok {A} a.
Arguments Raise {A} e.

Definition bind {A B : Type} (m : res A) (k : A -> res B) : res B :=
  match m with
  | Ok a => k a
  | Raise e => Raise e
  end.

Notation "x <- m ;; k" := (bind m (fun x => k))
  (at level 61, m at next level, right associativity).

Definition is_ok {A : Type} (m : res A) : bool :=
  match m with Ok _ => true | Raise _ => false end.

(** [l[i]]: raises IndexError out of range. *)
Definition idx {A : Type} (l : list A) (i : nat) : res A :=
  match nth_error l i with
  | Some x => Ok x
  | None => Raise IndexError
  end.

(** [for x in l: f(x)] collected in a list; the first exception wins. *)
Fixpoint map_res {A B : Type} (f : A -> res B) (l : list A) : res (list B) :=
  match l with
  | [] => Ok []
  | x :: l' => y <- f x ;; ys <- map_res f l' ;; Ok (y :: ys)
  end.

(** [[x for x in l if p(x)]] where the test itself may raise. *)
Fixpoint filter_res {A : Type} (p : A -> res bool) (l : list A) : res (list A) :=
  match l with
  | [] => Ok []
  | x :: l' =>
      b <- p x ;; xs <- filter_res p l' ;; Ok (if b then x :: xs else xs)
  end.

(** ** Strings *)

Definition lower_ascii (c : ascii) : ascii :=
  let n := nat_of_ascii c in
  if (65 <=? n) && (n <=? 90) then ascii_of_nat (n + 32) else c.

Fixpoint lower (s : string) : string :=
  match s with
  | EmptyString => EmptyString
  | String c s' => String (lower_ascii c) (lower s')
  end.

(** [sub in s] *)
Fixpoint contains (sub s : string) : bool :=
  if String.prefix sub s then true
  else match s with
       | EmptyString => false
       | String _ s' => contains sub s'
       end.

(** [str(n)] for a length *)
Definition str_of_nat (n : nat) : string :=
  NilEmpty.string_of_uint (Nat.to_uint n).

(** What an f-string prints for a value that is a name or [None]. *)
Definition fmt (o : option string) : string :=
  match o with
  | Some s => s
  | None => "None"
  end.

(** ** Data model of the recommendation boundary *)

(** A profile record as the engine receives it: a dict of which the engine
    reads the keys ["type"] and ["name"] only.  The endpoint passes the
    request's dicts on unchecked, so either key may be absent; the other
    keys of a [ColumnInfo] are carried along and never read. *)
Record column : Type := mk_column {
  c_type : option string;
  c_name : option string;
  c_unique_count : option Z;
  c_na_count : option Z
}.

(** [c[key]] for the two keys read. *)
Definition get_type (c : column) : res string :=
  match c_type c with Some t => Ok t | None => Raise (KeyError "type") end.

Definition get_name (c : column) : res string :=
  match c_name c with Some n => Ok n | None => Raise (KeyError "name") end.

(** A value of a [variables] dict: [None], a column name (or ["count"], or
    the suggestion text), or a list of column names. *)
Inductive value : Type :=
| VNone
| VStr (s : string)
| VList (l : list string).

Definition of_opt (o : option string) : value :=
  match o with Some s => VStr s | None => VNone end.

(** A recommendation dict; [variables] keeps the insertion order of its keys. *)
Record recommendation : Type := mk_rec {
  r_type : string;
  r_score : Q;
  r_reason : string;
  r_priority : string;
  r_title : string;
  r_description : string;
  r_use_case : string;
  r_variables : list (string * value)
}.

(** [d.get(key)] on a [variables] dict. *)
Fixpoint lookup (key : string) (d : list (string * value)) : option value :=
  match d with
  | [] => None
  | (k, v) :: d' => if String.eqb k key then Some v else lookup key d'
  end.

(** ** [recommendations.sort(key=lambda x: x["score"], reverse=True)] *)

(** Stable insertion by descending score: the new element, which comes
    first in the input, goes before every element that does not have a
    strictly greater score. *)
Fixpoint insert_desc (x : recommendation) (l : list recommendation)
  : list recommendation :=
  match l with
  | [] => [x]
  | y :: l' =>
      if Qle_bool (r_score y) (r_score x) then x :: l
      else y :: insert_desc x l'
  end.

Fixpoint sort_by_score_desc (l : list recommendation) : list recommendation :=
  match l with
  | [] => []
  | x :: l' => insert_desc x (sort_by_score_desc l')
  end.

(** ** The rule blocks of [recommend_charts_from_data]

    The local variables of the function are the variables of the section;
    each block takes the list built so far and returns it extended, the way
    the source mutates [recommendations]. *)

Section Rules.

Variables numeric_names categorical_names date_names : list string.
Variables n_numeric n_categorical : nat.
Variable date_cols : list column.
Variable has_time_series : bool.

Definition recs : Type := list recommendation.

(** [names[0] if names else None] *)
Definition first_or_none (names : list string) : value :=
  of_opt (hd_error names).

(** [numeric_names[0] if numeric_names else "count"] *)
Definition first_numeric_or_count : value :=
  VStr (hd "count" numeric_names).

(** 1 numeric column: distribution charts. *)
Definition distribution_charts (recommendations : recs) : res recs :=
  if 1 <=? n_numeric then
    Ok (recommendations ++ [
      {| r_type := "box";
         r_score := 0.90%Q;
         r_reason := "Medyan, çeyrekler ve aykırı değerleri gösterir";
         r_priority := "best";
         r_title := "Box Plot (Kutu Grafiği)";
         r_description := "İstatistiksel özet";
         r_use_case := "Veri dağılımını ve aykırı değerleri tespit etmek için";
         r_variables := [
           ("y_axis", first_or_none numeric_names);
           ("group_by", first_or_none categorical_names);
           ("numeric_options", VList numeric_names);
           ("group_options", VList categorical_names) ] |};
      {| r_type := "violin";
         r_score := 0.85%Q;
         r_reason := "Dağılım yoğunluğunu detaylı gösterir";
         r_priority := "good";
         r_title := "Violin Plot";
         r_description := "Yoğunluk dağılımı";
         r_use_case := "Box plot'tan daha detaylı dağılım analizi için";
         r_variables := [
           ("y_axis", first_or_none numeric_names);
           ("options", VList numeric_names) ] |} ])
  else Ok recommendations.

(** Time series data. *)
Definition time_series_charts (recommendations : recs) : res recs :=
  if has_time_series || (0 <? length date_cols) then
    let date_col := hd_error date_names in
    Ok (recommendations ++ [
      {| r_type := "line";
         r_score := 0.98%Q;
         r_reason := "Zaman içindeki (" ++ fmt date_col ++ ") trendi gösterir";
         r_priority := "best";
         r_title := "Line Chart (Çizgi Grafiği)";
         r_description := "Zaman serisi trendi";
         r_use_case := "Zaman içindeki değişimi ve trendi görmek için";
         r_variables := [
           ("x_axis", of_opt date_col);
           ("y_axis", first_or_none numeric_names);
           ("y_options", VList numeric_names) ] |};
      {| r_type := "area";
         r_score := 0.92%Q;
         r_reason := "Hacimsel değişimi vurgular";
         r_priority := "best";
         r_title := "Area Chart (Alan Grafiği)";
         r_description := "Kümülatif trend";
         r_use_case := "Zaman içindeki hacimsel değişimi göstermek için";
         r_variables := [
           ("x_axis", of_opt date_col);
           ("y_axis", first_or_none numeric_names);
           ("y_options", VList numeric_names) ] |};
      {| r_type := "multi-line";
         r_score := 0.88%Q;
         r_reason := "Birden fazla zaman serisini karşılaştırır";
         r_priority := "good";
         r_title := "Multi-Line Chart";
         r_description := "Çoklu trend karşılaştırması";
         r_use_case := "Birden fazla değişkenin zaman içindeki değişimini karşılaştırmak için";
         r_variables := [
           ("x_axis", of_opt date_col);
           ("y_axes", VList (firstn 3 numeric_names));
           ("group_by", first_or_none categorical_names);
           ("y_options", VList numeric_names);
           ("group_options", VList categorical_names) ] |} ])
  else Ok recommendations.

(** 2+ numeric columns: correlation.  The bubble chart sits between the
    scatter plot and the heatmap. *)
Definition correlation_charts (recommendations : recs) : res recs :=
  if 2 <=? n_numeric then
    x0 <- idx numeric_names 0 ;;
    x1 <- idx numeric_names 1 ;;
    let recommendations := recommendations ++ [
      {| r_type := "scatter";
         r_score := 0.95%Q;
         r_reason := "İki değişken (" ++ x0 ++ " vs " ++ x1 ++ ") arasındaki ilişkiyi gösterir";
         r_priority := "best";
         r_title := "Scatter Plot (Dağılım Grafiği)";
         r_description := "Korelasyon analizi";
         r_use_case := "İki sayısal değişken arasındaki ilişkiyi keşfetmek için";
         r_variables := [
           ("x_axis", VStr x0);
           ("y_axis", VStr x1);
           ("color_by", first_or_none categorical_names);
           ("x_options", VList numeric_names);
           ("y_options", VList numeric_names);
           ("color_options", VList categorical_names) ] |} ] in
    recommendations <-
      (if 3 <=? n_numeric then
         x2 <- idx numeric_names 2 ;;
         Ok (recommendations ++ [
           {| r_type := "bubble";
              r_score := 0.85%Q;
              r_reason := "Üç boyutlu ilişkiyi gösterir (" ++ x0 ++ ", " ++ x1 ++ ", " ++ x2 ++ ")";
              r_priority := "good";
              r_title := "Bubble Chart (Balon Grafiği)";
              r_description := "3D korelasyon";
              r_use_case := "Üç değişken arasındaki ilişkiyi göstermek için";
              r_variables := [
                ("x_axis", VStr x0);
                ("y_axis", VStr x1);
                ("size", VStr x2);
                ("color_by", first_or_none categorical_names);
                ("x_options", VList numeric_names);
                ("y_options", VList numeric_names);
                ("size_options", VList numeric_names);
                ("color_options", VList categorical_names) ] |} ])
       else Ok recommendations) ;;
    Ok (recommendations ++ [
      {| r_type := "heatmap";
         r_score := 0.88%Q;
         r_reason := "Tüm sayısal değişkenler arası korelasyonu gösterir";
         r_priority := "good";
         r_title := "Heatmap (Isı Haritası)";
         r_description := "Korelasyon matrisi";
         r_use_case := "Tüm değişkenler arası korelasyonu görmek için";
         r_variables := [
           ("columns", VList (firstn 10 numeric_names));
           ("all_options", VList numeric_names) ] |} ])
  else Ok recommendations.

(** Categorical data. *)
Definition categorical_charts (recommendations : recs) : res recs :=
  if 1 <=? n_categorical then
    cat_col <- idx categorical_names 0 ;;
    Ok (recommendations ++ [
      {| r_type := "bar";
         r_score := 0.95%Q;
         r_reason := "Kategorileri (" ++ cat_col ++ ") karşılaştırır";
         r_priority := "best";
         r_title := "Bar Chart (Çubuk Grafiği)";
         r_description := "Kategorik karşılaştırma";
         r_use_case := "Kategoriler arası farkları görmek için";
         r_variables := [
           ("x_axis", VStr cat_col);
           ("y_axis", first_numeric_or_count);
           ("x_options", VList categorical_names);
           ("y_options", VList ("count" :: numeric_names)) ] |};
      {| r_type := "horizontal-bar";
         r_score := 0.90%Q;
         r_reason := "Uzun kategori isimleri için ideal";
         r_priority := "good";
         r_title := "Horizontal Bar Chart";
         r_description := "Yatay çubuk grafiği";
         r_use_case := "Çok sayıda kategori veya uzun isimler için";
         r_variables := [
           ("y_axis", VStr cat_col);
           ("x_axis", first_numeric_or_count);
           ("y_options", VList categorical_names);
           ("x_options", VList ("count" :: numeric_names)) ] |};
      {| r_type := "pie";
         r_score := 0.82%Q;
         r_reason := "Kategorilerin (" ++ cat_col ++ ") oransal dağılımı";
         r_priority := "good";
         r_title := "Pie Chart (Pasta Grafiği)";
         r_description := "Yüzdesel dağılım";
         r_use_case := "Kategorilerin toplam içindeki payını görmek için (max 7 kategori)";
         r_variables := [
           ("category", VStr cat_col);
           ("value", first_numeric_or_count);
           ("category_options", VList categorical_names);
           ("value_options", VList ("count" :: numeric_names)) ] |};
      {| r_type := "donut";
         r_score := 0.80%Q;
         r_reason := "Pie chart'ın modern versiyonu";
         r_priority := "alternative";
         r_title := "Donut Chart (Halka Grafiği)";
         r_description := "Modern pasta grafiği";
         r_use_case := "Oransal dağılımı daha şık göstermek için";
         r_variables := [
           ("category", VStr cat_col);
           ("value", first_numeric_or_count);
           ("category_options", VList categorical_names);
           ("value_options", VList ("count" :: numeric_names)) ] |} ])
  else Ok recommendations.

(** [categorical_names[1] if n_categorical >= 2 else None] *)
Definition second_categorical : res (option string) :=
  if 2 <=? n_categorical then
    x <- idx categorical_names 1 ;; Ok (Some x)
  else Ok None.

(** Categorical + numeric. *)
Definition categorical_numeric_charts (recommendations : recs) : res recs :=
  if (1 <=? n_categorical) && (1 <=? n_numeric) then
    cat_col <- idx categorical_names 0 ;;
    subcat_col <- second_categorical ;;
    y0 <- idx numeric_names 0 ;;
    Ok (recommendations ++ [
      {| r_type := "grouped-bar";
         r_score := 0.92%Q;
         r_reason := "Kategorilere (" ++ cat_col ++ ") göre gruplu karşılaştırma";
         r_priority := "best";
         r_title := "Grouped Bar Chart";
         r_description := "Gruplu çubuk grafiği";
         r_use_case := "Alt kategorilere göre karşılaştırma yapmak için";
         r_variables := [
           ("x_axis", VStr cat_col);
           ("y_axis", VStr y0);
           ("group_by", of_opt subcat_col);
           ("x_options", VList categorical_names);
           ("y_options", VList numeric_names);
           ("group_options", VList categorical_names) ] |};
      {| r_type := "stacked-bar";
         r_score := 0.88%Q;
         r_reason := "Kümülatif değerleri gösterir";
         r_priority := "good";
         r_title := "Stacked Bar Chart";
         r_description := "Yığılmış çubuk grafiği";
         r_use_case := "Kategorilerin toplam içindeki katkısını görmek için";
         r_variables := [
           ("x_axis", VStr cat_col);
           ("y_axis", VStr y0);
           ("stack_by", of_opt subcat_col);
           ("x_options", VList categorical_names);
           ("y_options", VList numeric_names);
           ("stack_options", VList categorical_names) ] |};
      {| r_type := "boxplot-grouped";
         r_score := 0.85%Q;
         r_reason := "Kategorilere (" ++ cat_col ++ ") göre dağılım karşılaştırması";
         r_priority := "good";
         r_title := "Grouped Box Plot";
         r_description := "Gruplu kutu grafiği";
         r_use_case := "Farklı kategorilerdeki dağılımları karşılaştırmak için";
         r_variables := [
           ("x_axis", VStr cat_col);
           ("y_axis", VStr y0);
           ("x_options", VList categorical_names);
           ("y_options", VList numeric_names) ] |} ])
  else Ok recommendations.

(** [[c for c in numeric_names if 'score' in c.lower() or 'rating' in c.lower()]] *)
Definition score_cols : list string :=
  filter (fun c => contains "score" (lower c) || contains "rating" (lower c))
         numeric_names.

(** [score_cols[:k] if score_cols else numeric_names[:k]] *)
Definition score_cols_or_numeric (k : nat) : list string :=
  match score_cols with
  | [] => firstn k numeric_names
  | _ :: _ => firstn k score_cols
  end.

(** Multiple numeric columns (3+): advanced charts. *)
Definition advanced_charts (recommendations : recs) : res recs :=
  if 3 <=? n_numeric then
    Ok (recommendations ++ [
      {| r_type := "radar";
         r_score := 0.80%Q;
         r_reason := "Çok boyutlu karşılaştırma ("
                     ++ String.concat ", " (score_cols_or_numeric 5) ++ ")";
         r_priority := "alternative";
         r_title := "Radar Chart (Örümcek Ağı)";
         r_description := "Çok değişkenli profil";
         r_use_case := "Birden fazla metriği aynı anda karşılaştırmak için";
         r_variables := [
           ("metrics", VList (score_cols_or_numeric 6));
           ("group_by", first_or_none categorical_names);
           ("metric_options", VList numeric_names);
           ("group_options", VList categorical_names) ] |};
      {| r_type := "parallel";
         r_score := 0.75%Q;
         r_reason := "Çok değişkenli ilişkileri gösterir";
         r_priority := "alternative";
         r_title := "Parallel Coordinates";
         r_description := "Paralel koordinatlar";
         r_use_case := "Çok boyutlu veri setlerinde pattern keşfi için";
         r_variables := [
           ("axes", VList (firstn 8 numeric_names));
           ("color_by", first_or_none categorical_names);
           ("axis_options", VList numeric_names);
           ("color_options", VList categorical_names) ] |} ])
  else Ok recommendations.

(** Additional chart types for rich datasets: density plot. *)
Definition density_chart (recommendations : recs) : res recs :=
  if 1 <=? n_numeric then
    x0 <- idx numeric_names 0 ;;
    Ok (recommendations ++ [
      {| r_type := "density";
         r_score := 0.78%Q;
         r_reason := "Sürekli dağılım yoğunluğunu gösterir";
         r_priority := "alternative";
         r_title := "Density Plot (Yoğunluk Grafiği)";
         r_description := "Kernel yoğunluk tahmini";
         r_use_case := "Histogram'dan daha pürüzsüz dağılım analizi için";
         r_variables := [
           ("x_axis", VStr x0);
           ("group_by", first_or_none categorical_names);
           ("x_options", VList numeric_names);
           ("group_options", VList categorical_names) ] |} ])
  else Ok recommendations.

(** Ridgeline plot (for multiple categories). *)
Definition ridgeline_chart (recommendations : recs) : res recs :=
  if (1 <=? n_categorical) && (1 <=? n_numeric) then
    c0 <- idx categorical_names 0 ;;
    x0 <- idx numeric_names 0 ;;
    Ok (recommendations ++ [
      {| r_type := "ridgeline";
         r_score := 0.76%Q;
         r_reason := "Kategorilere (" ++ c0 ++ ") göre dağılım karşılaştırması";
         r_priority := "alternative";
         r_title := "Ridgeline Plot (Sırt Çizgisi)";
         r_description := "Çoklu yoğunluk dağılımları";
         r_use_case := "Birden fazla grubun dağılımını aynı anda görmek için";
         r_variables := [
           ("x_axis", VStr x0);
           ("category", VStr c0);
           ("x_options", VList numeric_names);
           ("category_options", VList categorical_names) ] |} ])
  else Ok recommendations.

(** Treemap (for hierarchical categorical data). *)
Definition treemap_chart (recommendations : recs) : res recs :=
  if 1 <=? n_categorical then
    c0 <- idx categorical_names 0 ;;
    c1 <- second_categorical ;;
    Ok (recommendations ++ [
      {| r_type := "treemap";
         r_score := 0.74%Q;
         r_reason := "Hiyerarşik kategorik yapıyı gösterir";
         r_priority := "alternative";
         r_title := "Treemap (Ağaç Haritası)";
         r_description := "Hiyerarşik dikdörtgen harita";
         r_use_case := "Kategorilerin oransal büyüklüğünü alan olarak göstermek için";
         r_variables := [
           ("category", VStr c0);
           ("subcategory", of_opt c1);
           ("value", first_numeric_or_count);
           ("category_options", VList categorical_names);
           ("value_options", VList ("count" :: numeric_names)) ] |} ])
  else Ok recommendations.

(** [categorical_names[2] if n_categorical >= 3 else None] *)
Definition third_categorical : res (option string) :=
  if 3 <=? n_categorical then
    x <- idx categorical_names 2 ;; Ok (Some x)
  else Ok None.

(** Sunburst (hierarchical pie chart). *)
Definition sunburst_chart (recommendations : recs) : res recs :=
  if 2 <=? n_categorical then
    c0 <- idx categorical_names 0 ;;
    c1 <- idx categorical_names 1 ;;
    c2 <- third_categorical ;;
    Ok (recommendations ++ [
      {| r_type := "sunburst";
         r_score := 0.72%Q;
         r_reason := "Çok seviyeli kategori yapısı (" ++ c0 ++ ", " ++ c1 ++ ")";
         r_priority := "alternative";
         r_title := "Sunburst Chart (Güneş Patlaması)";
         r_description := "Hiyerarşik pasta grafiği";
         r_use_case := "İç içe kategorilerin oranlarını göstermek için";
         r_variables := [
           ("level1", VStr c0);
           ("level2", VStr c1);
           ("level3", of_opt c2);
           ("value", first_numeric_or_count);
           ("category_options", VList categorical_names);
           ("value_options", VList ("count" :: numeric_names)) ] |} ])
  else Ok recommendations.

(** [categorical_names[0] if categorical_names else date_names[0] if date_names else None] *)
Definition first_categorical_or_date : value :=
  match categorical_names with
  | c :: _ => VStr c
  | [] => first_or_none date_names
  end.

(** Waterfall chart (for cumulative changes). *)
Definition waterfall_chart (recommendations : recs) : res recs :=
  if (1 <=? n_numeric) && (has_time_series || (1 <=? n_categorical)) then
    x0 <- idx numeric_names 0 ;;
    Ok (recommendations ++ [
      {| r_type := "waterfall";
         r_score := 0.70%Q;
         r_reason := "Kümülatif değişimleri adım adım gösterir";
         r_priority := "alternative";
         r_title := "Waterfall Chart (Şelale Grafiği)";
         r_description := "Kümülatif değişim analizi";
         r_use_case := "Başlangıçtan sona toplam değişimi görmek için";
         r_variables := [
           ("category", first_categorical_or_date);
           ("value", VStr x0);
           ("category_options", VList (categorical_names ++ date_names));
           ("value_options", VList numeric_names) ] |} ])
  else Ok recommendations.

(** Funnel chart (for conversion/process data). *)
Definition funnel_chart (recommendations : recs) : res recs :=
  if (1 <=? n_categorical) && (1 <=? n_numeric) then
    c0 <- idx categorical_names 0 ;;
    x0 <- idx numeric_names 0 ;;
    Ok (recommendations ++ [
      {| r_type := "funnel";
         r_score := 0.68%Q;
         r_reason := "Aşamalı süreç veya dönüşüm hunisini gösterir";
         r_priority := "alternative";
         r_title := "Funnel Chart (Huni Grafiği)";
         r_description := "Süreç aşamaları";
         r_use_case := "Satış hunisi, kullanıcı akışı gibi aşamalı süreçler için";
         r_variables := [
           ("stage", VStr c0);
           ("value", VStr x0);
           ("stage_options", VList categorical_names);
           ("value_options", VList numeric_names) ] |} ])
  else Ok recommendations.

(** [[c for c in numeric_names
      if any(x in c.lower() for x in ['open', 'high', 'low', 'close', 'value'])]] *)
Definition ohlc_candidates : list string :=
  filter (fun c => existsb (fun x => contains x (lower c))
                           ["open"; "high"; "low"; "close"; "value"])
         numeric_names.

(** [names[i] if len(names) > i else None] *)
Definition nth_or_none (names : list string) (i : nat) : value :=
  if i <? length names then of_opt (nth_error names i) else VNone.

(** The candlestick entry: the four roles are bound by position. *)
Definition candlestick_entry : recommendation :=
  {| r_type := "candlestick";
     r_score := 0.66%Q;
     r_reason := "Açılış, en yüksek, en düşük, kapanış değerlerini gösterir";
     r_priority := "alternative";
     r_title := "Candlestick Chart (Mum Grafiği)";
     r_description := "OHLC finansal grafik";
     r_use_case := "Finansal veriler ve fiyat hareketleri için";
     r_variables := [
       ("date", first_or_none date_names);
       ("open", nth_or_none numeric_names 0);
       ("high", nth_or_none numeric_names 1);
       ("low", nth_or_none numeric_names 2);
       ("close", nth_or_none numeric_names 3);
       ("numeric_options", VList numeric_names) ] |}.

(** Candlestick (for OHLC data). *)
Definition candlestick_chart (recommendations : recs) : res recs :=
  if (4 <=? n_numeric) && has_time_series then
    if (4 <=? length ohlc_candidates) || (4 <=? n_numeric) then
      Ok (recommendations ++ [candlestick_entry])
    else Ok recommendations
  else Ok recommendations.

(** 3D scatter (for 3 numeric variables). *)
Definition scatter_3d_chart (recommendations : recs) : res recs :=
  if 3 <=? n_numeric then
    x0 <- idx numeric_names 0 ;;
    x1 <- idx numeric_names 1 ;;
    x2 <- idx numeric_names 2 ;;
    Ok (recommendations ++ [
      {| r_type := "scatter-3d";
         r_score := 0.64%Q;
         r_reason := "Üç boyutlu ilişki (" ++ x0 ++ ", " ++ x1 ++ ", " ++ x2 ++ ")";
         r_priority := "alternative";
         r_title := "3D Scatter Plot";
         r_description := "Üç boyutlu dağılım";
         r_use_case := "Üç sayısal değişken arasındaki ilişkiyi 3D'de görmek için";
         r_variables := [
           ("x_axis", VStr x0);
           ("y_axis", VStr x1);
           ("z_axis", VStr x2);
           ("color_by", first_or_none categorical_names);
           ("x_options", VList numeric_names);
           ("y_options", VList numeric_names);
           ("z_options", VList numeric_names);
           ("color_options", VList categorical_names) ] |} ])
  else Ok recommendations.

(** The rule blocks in source order, starting from the empty list. *)
Definition emit_rules : res recs :=
  recommendations <- distribution_charts [] ;;
  recommendations <- time_series_charts recommendations ;;
  recommendations <- correlation_charts recommendations ;;
  recommendations <- categorical_charts recommendations ;;
  recommendations <- categorical_numeric_charts recommendations ;;
  recommendations <- advanced_charts recommendations ;;
  recommendations <- density_chart recommendations ;;
  recommendations <- ridgeline_chart recommendations ;;
  recommendations <- treemap_chart recommendations ;;
  recommendations <- sunburst_chart recommendations ;;
  recommendations <- waterfall_chart recommendations ;;
  recommendations <- funnel_chart recommendations ;;
  recommendations <- candlestick_chart recommendations ;;
  scatter_3d_chart recommendations.

(** The info message added when the options are limited. *)
Definition info_entry : recommendation :=
  {| r_type := "info";
     r_score := 0%Q;
     r_reason := "Veri seti yapısı (" ++ str_of_nat n_numeric ++ " sayısal, "
                 ++ str_of_nat n_categorical
                 ++ " kategorik sütun) sınırlı görselleştirme seçeneği sunuyor";
     r_priority := "info";
     r_title := "Bilgi";
     r_description := "Daha fazla grafik için veri setinize farklı tipte sütunlar ekleyin";
     r_use_case := "Örnek: Tarih sütunu ekleyerek zaman serisi grafikleri oluşturabilirsiniz";
     r_variables := [
       ("suggestion", VStr "Veri setinize daha fazla sayısal veya kategorik sütun ekleyin") ] |}.

(** Sort by score, add the info message, keep at most 20. *)
Definition rank_and_cap (recommendations : recs) : recs :=
  let recommendations := sort_by_score_desc recommendations in
  let recommendations :=
    if length recommendations <? 5 then recommendations ++ [info_entry]
    else recommendations in
  firstn 20 recommendations.

End Rules.

(** The single entry returned for a dataset without columns. *)
Definition error_entry : recommendation :=
  {| r_type := "error";
     r_score := 0%Q;
     r_reason := "Veri seti boş - görselleştirme yapılamaz";
     r_priority := "error";
     r_title := "Hata";
     r_description := "Veri bulunamadı";
     r_use_case := "Lütfen geçerli bir veri dosyası yükleyin";
     r_variables := [] |}.

(** [[c for c in columns if c["type"] == t]] *)
Definition cols_of_type (t : string) (columns : list column) : res (list column) :=
  filter_res (fun c => ty <- get_type c ;; Ok (String.eqb ty t)) columns.

(** [get_col_names(cols)]: [[c["name"] for c in cols]] *)
Definition get_col_names (cols : list column) : res (list string) :=
  map_res get_name cols.

Definition recommend_charts_from_data
  (columns : list column) (has_time_series : bool) : res recs :=
  numeric_cols <- cols_of_type "numeric" columns ;;
  categorical_cols <- cols_of_type "categorical" columns ;;
  date_cols <- cols_of_type "date" columns ;;
  let n_numeric := length numeric_cols in
  let n_categorical := length categorical_cols in
  let n_total := length columns in
  if n_total =? 0 then Ok [error_entry]
  else
    numeric_names <- get_col_names numeric_cols ;;
    categorical_names <- get_col_names categorical_cols ;;
    date_names <- get_col_names date_cols ;;
    recommendations <-
      emit_rules numeric_names categorical_names date_names
                 n_numeric n_categorical date_cols has_time_series ;;
    Ok (rank_and_cap n_numeric n_categorical recommendations).

(** A profile record with a recognised or unrecognised type and a name. *)
Definition col (t name : string) : column :=
  {| c_type := Some t; c_name := Some name;
     c_unique_count := None; c_na_count := None |}.

(** ** Profile lists: which records the engine can read *)

(** [c["type"] == t], for a record that has the key. *)
Definition type_is (t : string) (c : column) : bool :=
  match c_type c with
  | Some ty => String.eqb ty t
  | None => false
  end.

Definition has_type (c : column) : bool :=
  match c_type c with Some _ => true | None => false end.

Definition has_name (c : column) : bool :=
  match c_name c with Some _ => true | None => false end.

(** The three type values that put a record in a bucket. *)
Definition in_bucket (c : column) : bool :=
  type_is "numeric" c || type_is "categorical" c || type_is "date" c.

(** A record the engine reads without a KeyError: it has a type, and a name
    if its type puts it in a bucket. *)
Definition readable (c : column) : bool :=
  has_type c && (negb (in_bucket c) || has_name c).

(** The names of the records of one type, in column order. *)
Definition names_of_type (t : string) (columns : list column) : list (option string) :=
  map c_name (filter (type_is t) columns).

Definition count_of_type (t : string) (columns : list column) : nat :=
  length (filter (type_is t) columns).

(** The function after its empty-dataset return, on the three name lists. *)
Definition pipeline (numeric_names categorical_names date_names : list string)
  (date_cols : list column) (has_time_series : bool) : res recs :=
  recommendations <-
    emit_rules numeric_names categorical_names date_names
               (length numeric_names) (length categorical_names)
               date_cols has_time_series ;;
  Ok (rank_and_cap (length numeric_names) (length categorical_names)
                   recommendations).

(** [map_res] over the optional names of a column list. *)
Definition names_res (names : list (option string)) : res (list string) :=
  map_res (fun o => match o with
                    | Some n => Ok n
                    | None => Raise (KeyError "name")
                    end) names.

(** ** Rule order: the source and the design document *)

(** The chart types in the order in which the blocks of the source append
    them to [recommendations]. *)
Definition emission_order : list string :=
  [ "box"; "violin";
    "line"; "area"; "multi-line";
    "scatter"; "bubble"; "heatmap";
    "bar"; "horizontal-bar"; "pie"; "donut";
    "grouped-bar"; "stacked-bar"; "boxplot-grouped";
    "radar"; "parallel";
    "density"; "ridgeline"; "treemap"; "sunburst"; "waterfall"; "funnel";
    "candlestick"; "scatter-3d"; "info" ].

Fixpoint index_of (t : string) (l : list string) : nat :=
  match l with
  | [] => 0
  | x :: l' => if String.eqb x t then 0 else S (index_of t l')
  end.

Definition emission_rank (r : recommendation) : nat :=
  index_of (r_type r) emission_order.

(** The row of the rule predicate table of the design document that emits
    a chart type (rows counted from 1: Distribution, Time series,
    Correlation (pair), Correlation (triple), Correlation matrix,
    Categorical comparison, Categorical x numeric, Density, Ridgeline,
    Treemap, Sunburst, Waterfall, Funnel, Candlestick, Empty dataset);
    the info entry of the post-processing comes after the table. *)
Definition spec_table_row (t : string) : nat :=
  if existsb (String.eqb t) ["box"; "violin"] then 1
  else if existsb (String.eqb t) ["line"; "area"; "multi-line"] then 2
  else if String.eqb t "scatter" then 3
  else if existsb (String.eqb t) ["bubble"; "scatter-3d"; "radar"; "parallel"] then 4
  else if String.eqb t "heatmap" then 5
  else if existsb (String.eqb t) ["bar"; "horizontal-bar"; "pie"; "donut"] then 6
  else if existsb (String.eqb t) ["grouped-bar"; "stacked-bar"; "boxplot-grouped"] then 7
  else if String.eqb t "density" then 8
  else if String.eqb t "ridgeline" then 9
  else if String.eqb t "treemap" then 10
  else if String.eqb t "sunburst" then 11
  else if String.eqb t "waterfall" then 12
  else if String.eqb t "funnel" then 13
  else if String.eqb t "candlestick" then 14
  else if String.eqb t "error" then 15
  else 16.

(** Scores never increase along the list. *)
Definition score_sorted (l : recs) : Prop :=
  forall i j ri rj, i < j ->
    nth_error l i = Some ri -> nth_error l j = Some rj ->
    (r_score rj <= r_score ri)%Q.

(** Entries of equal score come in the order [before]. *)
Definition ties_follow (before : recommendation -> recommendation -> Prop)
  (l : recs) : Prop :=
  forall i j ri rj, i < j ->
    nth_error l i = Some ri -> nth_error l j = Some rj ->
    (r_score ri == r_score rj)%Q -> before ri rj.

(** Tie order of the design document: by row of its rule table. *)
Definition by_spec_table (a b : recommendation) : Prop :=
  spec_table_row (r_type a) <= spec_table_row (r_type b).

(** Tie order of the source: by position of the emitting statement. *)
Definition by_emission (a b : recommendation) : Prop :=
  emission_rank a < emission_rank b.

Definition by_emissionb (a b : recommendation) : bool :=
  emission_rank a <? emission_rank b.

(** A decision procedure for [score_sorted] and [ties_follow]: each entry
    is compared with all later ones. *)
Definition goes_before (beforeb : recommendation -> recommendation -> bool)
  (a b : recommendation) : bool :=
  Qle_bool (r_score b) (r_score a)
  && (negb (Qeq_bool (r_score a) (r_score b)) || beforeb a b).

Fixpoint ranked (beforeb : recommendation -> recommendation -> bool)
  (l : recs) : bool :=
  match l with
  | [] => true
  | a :: l' => forallb (goes_before beforeb a) l' && ranked beforeb l'
  end.

(** No constraint on ties: [ranked any_order] checks the scores only. *)
Definition any_order (a b : recommendation) : bool := true.

(** ** The column profiler: [analyze_column]

    The pandas operations the function calls are an interface: the dtype
    tests, the reducers (which may raise, and whose results are floats),
    [value_counts] and [str].  Missing values, [nunique] and [isna] are
    modelled on the list of cells. *)

Class Pandas : Type := {
  dtype : Type;
  cell : Type;
  float : Type;
  cell_eq_dec : forall x y : cell, {x = y} + {x <> y};
  is_numeric_dtype : dtype -> bool;
  is_datetime64_any_dtype : dtype -> bool;
  is_bool_dtype : dtype -> bool;
  (** [float(col.min())] and the like *)
  float_min : list (option cell) -> res float;
  float_max : list (option cell) -> res float;
  float_mean : list (option cell) -> res float;
  float_median : list (option cell) -> res float;
  float_std : list (option cell) -> res float;
  (** [str(col.min())], [str(col.max())] *)
  str_min : list (option cell) -> res string;
  str_max : list (option cell) -> res string;
  (** [int(col.sum())], [int((~col).sum())] *)
  int_sum : list (option cell) -> res Z;
  int_inv_sum : list (option cell) -> res Z;
  (** [col.value_counts().to_dict().items()], counts as [int] *)
  value_counts : list (option cell) -> list (cell * Z);
  (** [str(k)] *)
  str : cell -> string
}.

Section Profiler.

Context `{Pandas}.

(** A Series: its dtype and its cells, [None] for a missing value. *)
Record series : Type := mk_series {
  s_dtype : dtype;
  s_values : list (option cell)
}.

(** A DataFrame: its labelled columns, in order.  The labels of a parsed
    frame are distinct. *)
Definition dataframe : Type := list (string * series).

(** [df[col_name]] *)
Fixpoint df_get (df : dataframe) (col_name : string) : res series :=
  match df with
  | [] => Raise (KeyError col_name)
  | (label, s) :: df' =>
      if String.eqb label col_name then Ok s else df_get df' col_name
  end.

Definition is_missing (v : option cell) : bool :=
  match v with None => true | Some _ => false end.

(** [col.isna().all()] *)
Definition isna_all (values : list (option cell)) : bool :=
  forallb is_missing values.

(** [col.isna().sum()] *)
Definition isna_sum (values : list (option cell)) : Z :=
  Z.of_nat (length (filter is_missing values)).

Fixpoint present (values : list (option cell)) : list cell :=
  match values with
  | [] => []
  | Some v :: values' => v :: present values'
  | None :: values' => present values'
  end.

(** [col.nunique()]: the number of distinct values, missing ones left out. *)
Definition nunique (values : list (option cell)) : Z :=
  Z.of_nat (length (nodup cell_eq_dec (present values))).

(** The [summary] dict, one shape per type. *)
Inductive summary : Type :=
| NumericSummary (min max mean median std : option float)
| DateSummary (min_date max_date : option string)
| BooleanSummary (true_count false_count : Z).

(** The dict [analyze_column] returns. *)
Record column_profile : Type := mk_profile {
  p_name : string;
  p_unique_count : Z;
  p_na_count : Z;
  p_type : string;
  p_summary : option summary;
  p_value_counts : option (list (string * Z))
}.

(** [d[k] = v] on a dict kept in insertion order. *)
Fixpoint dict_set (d : list (string * Z)) (k : string) (v : Z) : list (string * Z) :=
  match d with
  | [] => [(k, v)]
  | (k', v') :: d' =>
      if String.eqb k' k then (k', v) :: d' else (k', v') :: dict_set d' k v
  end.

(** [{str(k): int(v) for k, v in items}] *)
Definition str_keyed (items : list (cell * Z)) : list (string * Z) :=
  fold_left (fun d kv => dict_set d (str (fst kv)) (snd kv)) items [].

(** [f(col) if not col.isna().all() else None] *)
Definition unless_all_missing {A : Type} (values : list (option cell))
  (f : list (option cell) -> res A) : res (option A) :=
  if negb (isna_all values) then x <- f values ;; Ok (Some x)
  else Ok None.

(** [f(col) if not col.isna().all() else 0] *)
Definition zero_if_all_missing (values : list (option cell))
  (f : list (option cell) -> res Z) : res Z :=
  if negb (isna_all values) then f values else Ok 0%Z.

Definition analyze_column (df : dataframe) (col_name : string)
  : res column_profile :=
  col <- df_get df col_name ;;
  let values := s_values col in
  let unique_count := nunique values in
  let na_count := isna_sum values in
  if is_numeric_dtype (s_dtype col) then
    min <- unless_all_missing values float_min ;;
    max <- unless_all_missing values float_max ;;
    mean <- unless_all_missing values float_mean ;;
    median <- unless_all_missing values float_median ;;
    std <- unless_all_missing values float_std ;;
    Ok {| p_name := col_name; p_unique_count := unique_count;
          p_na_count := na_count; p_type := "numeric";
          p_summary := Some (NumericSummary min max mean median std);
          p_value_counts := None |}
  else if is_datetime64_any_dtype (s_dtype col) then
    min_date <- unless_all_missing values str_min ;;
    max_date <- unless_all_missing values str_max ;;
    Ok {| p_name := col_name; p_unique_count := unique_count;
          p_na_count := na_count; p_type := "date";
          p_summary := Some (DateSummary min_date max_date);
          p_value_counts := None |}
  else if is_bool_dtype (s_dtype col) then
    true_count <- zero_if_all_missing values int_sum ;;
    false_count <- zero_if_all_missing values int_inv_sum ;;
    Ok {| p_name := col_name; p_unique_count := unique_count;
          p_na_count := na_count; p_type := "boolean";
          p_summary := Some (BooleanSummary true_count false_count);
          p_value_counts := None |}
  else
    Ok {| p_name := col_name; p_unique_count := unique_count;
          p_na_count := na_count; p_type := "categorical";
          p_summary := None;
          p_value_counts :=
            if (unique_count <=? 50)%Z
            then Some (str_keyed (value_counts values))
            else None |}.

End Profiler.

(** An instance of the interface to run the profiler on: integer cells,
    NumPy-like dtypes, and reducers that raise on a column without values,
    as the reducers behind [float(...)] do on empty data. *)
Inductive np_dtype : Type := Int64 | Float64 | Bool | Datetime64 | Object.

Definition reduce_present (f : Z -> list Z -> Z) (values : list (option Z))
  : res Z :=
  match flat_map (fun v => match v with Some z => [z] | None => [] end) values with
  | [] => Raise (OtherError "cannot convert float NaN to integer")
  | z :: zs => Ok (f z zs)
  end.

Definition count_cell (z : Z) (values : list (option Z)) : Z :=
  Z.of_nat (length (filter (fun v => match v with
                                     | Some z' => Z.eqb z z'
                                     | None => false
                                     end) values)).

#[local] Instance int_pandas : Pandas := {|
  dtype := np_dtype;
  cell := Z;
  float := Z;
  cell_eq_dec := Z.eq_dec;
  is_numeric_dtype := fun d =>
    match d with Int64 | Float64 | Bool => true | _ => false end;
  is_datetime64_any_dtype := fun d =>
    match d with Datetime64 => true | _ => false end;
  is_bool_dtype := fun d => match d with Bool => true | _ => false end;
  float_min := reduce_present (fun z zs => fold_left Z.min zs z);
  float_max := reduce_present (fun z zs => fold_left Z.max zs z);
  float_mean := reduce_present
    (fun z zs => (fold_left Z.add zs z / Z.of_nat (S (length zs)))%Z);
  float_median := reduce_present (fun z zs => nth (length zs / 2) (z :: zs) z);
  float_std := reduce_present (fun _ _ => 0%Z);
  str_min := fun _ => Ok "NaT";
  str_max := fun _ => Ok "NaT";
  int_sum := reduce_present (fun z zs => fold_left Z.add zs z);
  int_inv_sum := reduce_present (fun z zs => fold_left (fun a b => (a + (1 - b))%Z) (z :: zs) 0%Z);
  value_counts := fun values =>
    map (fun z => (z, count_cell z values))
        (nodup Z.eq_dec
           (flat_map (fun v => match v with Some z => [z] | None => [] end) values));
  str := fun z => NilEmpty.string_of_int (Z.to_int z)
|}.

Definition has_priority (p : string) (r : recommendation) : bool :=
  String.eqb (r_priority r) p.

(** What is checked on the list the rule blocks emit, before the sort: the
    chart types come in the order of [emission_order], and the candlestick
    entry is there when there are four numeric names and a time series. *)
Fixpoint increasing (ranks : list nat) : bool :=
  match ranks with
  | [] => true
  | m :: ranks' =>
      match ranks' with
      | [] => true
      | n :: _ => (m <? n) && increasing ranks'
      end
  end.

Definition emission_check (n_numeric : nat) (has_time_series : bool)
  (r : res recs) : bool :=
  match r with
  | Ok l =>
      increasing (map emission_rank l)
      && forallb (fun x => Qle_bool 0.64 (r_score x)) l
      && (negb ((4 <=? n_numeric) && has_time_series)
          || existsb (fun x => String.eqb (r_type x) "candlestick") l)
  | Raise _ => false
  end.

Definition int_series (d : np_dtype) (values : list (option Z))
  : @series int_pandas :=
  @mk_series int_pandas d values.

(** What is checked on every shape of the three name lists: the result is
    a list, ranked by score with ties in emission order, of 1 to 20
    entries, with an info entry when it is shorter than 5. *)
Definition pipeline_check (r : res recs) : bool :=
  match r with
  | Ok l =>
      ranked by_emissionb l && (length l <=? 20) && (1 <=? length l)
      && ((5 <=? length l) || existsb (has_priority "info") l)
  | Raise _ => false
  end.

(** ** Further checks on the result, by shape of the input *)

(** The priority tiers, best first. *)
Definition tier (p : string) : nat :=
  if String.eqb p "best" then 0
  else if String.eqb p "good" then 1
  else if String.eqb p "alternative" then 2
  else if String.eqb p "info" then 3
  else if String.eqb p "error" then 4
  else 5.

(** The scores the source gives to the entries of one tier. *)
Definition in_band (r : recommendation) : bool :=
  let s := r_score r in
  let p := r_priority r in
  if String.eqb p "best" then Qle_bool 0.90 s && Qle_bool s 0.98
  else if String.eqb p "good" then Qle_bool 0.82 s && Qle_bool s 0.90
  else if String.eqb p "alternative" then Qle_bool 0.64 s && Qle_bool s 0.80
  else if String.eqb p "info" then Qeq_bool s 0
  else if String.eqb p "error" then Qeq_bool s 0
  else false.

Fixpoint nondecreasing (l : list nat) : bool :=
  match l with
  | [] => true
  | m :: l' => forallb (Nat.leb m) l' && nondecreasing l'
  end.

Fixpoint distinct (l : list string) : bool :=
  match l with
  | [] => true
  | x :: l' => negb (existsb (String.eqb x) l') && distinct l'
  end.

Definition has_chart (t : string) (l : recs) : bool :=
  existsb (fun r => String.eqb (r_type r) t) l.

(** The guard of the block that emits a chart type, on the number of
    numeric, categorical and date columns and the time-series flag. *)
Definition rule_guard (t : string) (n c d : nat) (ts : bool) : bool :=
  if existsb (String.eqb t) ["box"; "violin"; "density"] then 1 <=? n
  else if existsb (String.eqb t) ["line"; "area"; "multi-line"] then ts || (0 <? d)
  else if existsb (String.eqb t) ["scatter"; "heatmap"] then 2 <=? n
  else if existsb (String.eqb t) ["bubble"; "radar"; "parallel"; "scatter-3d"]
       then 3 <=? n
  else if existsb (String.eqb t) ["bar"; "horizontal-bar"; "pie"; "donut"; "treemap"]
       then 1 <=? c
  else if existsb (String.eqb t)
            ["grouped-bar"; "stacked-bar"; "boxplot-grouped"; "ridgeline"; "funnel"]
       then (1 <=? c) && (1 <=? n)
  else if String.eqb t "sunburst" then 2 <=? c
  else if String.eqb t "waterfall" then (1 <=? n) && (ts || (1 <=? c))
  else if String.eqb t "candlestick" then (4 <=? n) && ts
  else false.

(** The chart types of the rule blocks: [emission_order] without the info
    entry. *)
Definition chart_types : list string := removelast emission_order.

(** The five lowest-scored chart types, the only ones the cap can cut. *)
Definition low_scored : list string :=
  ["sunburst"; "waterfall"; "funnel"; "candlestick"; "scatter-3d"].

(** When the info entry is added: fewer than five rule entries. *)
Definition info_expected (n c d : nat) (ts : bool) : bool :=
  (c =? 0) && ((n =? 0) || ((n =? 1) && negb ts && (d =? 0))).

Definition last_is_info (l : recs) : bool :=
  match rev l with
  | r :: _ => has_priority "info" r
  | [] => false
  end.

Definition first_is (t : string) (l : recs) : bool :=
  match l with
  | r :: _ => String.eqb (r_type r) t
  | [] => false
  end.

Definition on_list (f : recs -> bool) (r : res recs) : bool :=
  match r with Ok l => f l | Raise _ => false end.

Definition bands_check (l : recs) : bool :=
  forallb in_band l
  && distinct (map r_type l)
  && nondecreasing (map (fun r => tier (r_priority r)) l).

Definition guards_check (n c d : nat) (ts : bool) (l : recs) : bool :=
  forallb (fun t =>
             if existsb (String.eqb t) low_scored
             then implb (has_chart t l) (rule_guard t n c d ts)
             else Bool.eqb (has_chart t l) (rule_guard t n c d ts))
          chart_types
  && forallb (fun r => existsb (String.eqb (r_type r)) emission_order) l.

Definition cap_check (n c d : nat) (ts : bool) (l : recs) : bool :=
  Bool.eqb (has_chart "candlestick" l) ((4 <=? n) && ts && (c =? 0))
  && implb ((3 <=? n) && (1 <=? c) && (ts || (0 <? d)))
       ((length l =? 20)
        && forallb (fun t => negb (has_chart t l)) low_scored).

Definition info_check (n c d : nat) (ts : bool) (l : recs) : bool :=
  Bool.eqb (existsb (has_priority "info") l) (info_expected n c d ts)
  && implb (info_expected n c d ts)
       (last_is_info l && (length (filter (has_priority "info") l) =? 1))
  && Bool.eqb (first_is "line" l) (ts || (0 <? d)).

(** ** What the entries bind *)

(** [s.endswith(suffix)] *)
Definition ends_with (suffix s : string) : bool :=
  let n := String.length s in
  let m := String.length suffix in
  (m <=? n) && String.eqb (substring (n - m) m s) suffix.

(** The column names a value mentions. *)
Definition value_names (v : value) : list string :=
  match v with
  | VNone => []
  | VStr s => [s]
  | VList l => l
  end.

(** The keys that list the alternatives for a role: [*_options] and
    [options]. *)
Definition is_options_key (k : string) : bool := ends_with "options" k.

(** Every name in [variables] is ["count"] or a name of a numeric,
    categorical or date column. *)
Definition names_from_input (nn cn dn : list string) (r : recommendation) : Prop :=
  Forall (fun kv => incl (value_names (snd kv)) ("count" :: nn ++ cn ++ dn))
         (r_variables r).

(** Every list of alternatives is a whole bucket: the numeric names, the
    categorical names, ["count"] and the numeric names, or the categorical
    and date names. *)
Definition options_complete (nn cn dn : list string) (r : recommendation) : Prop :=
  Forall (fun kv => is_options_key (fst kv) = true ->
                    In (snd kv) [VList nn; VList cn; VList ("count" :: nn);
                                 VList (cn ++ dn)])
         (r_variables r).

(** Every single name bound to a role is ["count"] or among the first four
    numeric names, the first three categorical names and the first date
    name. *)
Definition defaults_positional (nn cn dn : list string) (r : recommendation) : Prop :=
  Forall (fun kv => forall x, snd kv = VStr x ->
                    In x ("count" :: firstn 4 nn ++ firstn 3 cn ++ firstn 1 dn))
         (r_variables r).

(** [l[i]] as a value, [None] out of range. *)
Definition nth_value (l : list string) (i : nat) : value :=
  of_opt (nth_error l i).

(** The roles of the time-series, scatter, bubble, radar, sunburst and
    treemap entries. *)
Definition bindings_by_chart (nn cn dn : list string) (r : recommendation) : Prop :=
  let v := r_variables r in
  (In (r_type r) ["line"; "area"; "multi-line"] ->
     lookup "x_axis" v = Some (first_or_none dn))
  /\ (r_type r = "scatter" ->
     lookup "x_axis" v = Some (nth_value nn 0)
     /\ lookup "y_axis" v = Some (nth_value nn 1))
  /\ (r_type r = "bubble" ->
        lookup "x_axis" v = Some (nth_value nn 0)
        /\ lookup "y_axis" v = Some (nth_value nn 1)
        /\ lookup "size" v = Some (nth_value nn 2))
  /\ (r_type r = "radar" ->
        lookup "metrics" v = Some (VList (score_cols_or_numeric nn 6)))
  /\ (r_type r = "sunburst" ->
        lookup "level1" v = Some (nth_value cn 0)
        /\ lookup "level2" v = Some (nth_value cn 1)
        /\ lookup "level3" v = Some (nth_value cn 2)
        /\ lookup "value" v = Some (first_numeric_or_count nn))
  /\ (r_type r = "treemap" ->
        lookup "category" v = Some (nth_value cn 0)
        /\ lookup "subcategory" v = Some (nth_value cn 1)
        /\ lookup "value" v = Some (first_numeric_or_count nn)).

(** A value that names input columns only and, if it is a single name,
    a leading one. *)
Definition value_ok (nn cn dn : list string) (v : value) : Prop :=
  incl (value_names v) ("count" :: nn ++ cn ++ dn)
  /\ forall x, v = VStr x ->
       In x ("count" :: firstn 4 nn ++ firstn 3 cn ++ firstn 1 dn).

Definition entry_ok (nn cn dn : list string) (r : recommendation) : Prop :=
  names_from_input nn cn dn r
  /\ options_complete nn cn dn r
  /\ defaults_positional nn cn dn r
  /\ bindings_by_chart nn cn dn r.

(** ** Reading a frequency table *)

(** [d.get(k)] on a frequency table. *)
Fixpoint table_get (d : list (string * Z)) (k : string) : option Z :=
  match d with
  | [] => None
  | (k', v) :: d' => if String.eqb k' k then Some v else table_get d' k
  end.

(** ** The endpoints [/suggest-plots] and [/upload-data] *)

(** [HTTPException(status_code=..., detail=...)] *)
Inductive http_exception : Type :=
| HTTPException (status_code : nat) (detail : string).

(** What the body of a [try] can raise: an [HTTPException] of its own or
    an exception of the code it calls. *)
Inductive raised : Type :=
| RaisedHttp (e : http_exception)
| RaisedPy (e : exn).

(** The outcome of a [try] body. *)
Inductive attempt (A : Type) : Type :=
| Done (a : A)
| Failed (e : raised).

Arguments Done {A} a.
Arguments Failed {A} e.

(** The request body of [/suggest-plots]: a dict of which the endpoint
    reads the keys ["columns"] and ["has_time_series"] with [get], so
    either may be absent. *)
Record plot_request : Type := mk_plot_request {
  rq_columns : option (list column);
  rq_has_time_series : option bool
}.

(** The dict [/suggest-plots] returns. *)
Record plot_response : Type := mk_plot_response {
  recommended : recs;
  total_count : nat
}.

(** [d.get(key, default)] *)
Definition get_or {A : Type} (o : option A) (default : A) : A :=
  match o with Some a => a | None => default end.

Section SuggestPlots.

(** [str(e)] *)
Variable exn_str : exn -> string.

Definition suggest_plots (data : plot_request) : plot_response + http_exception :=
  let columns := get_or (rq_columns data) [] in
  let has_time_series := get_or (rq_has_time_series data) false in
  match recommend_charts_from_data columns has_time_series with
  | Ok recommendations =>
      inl {| recommended := recommendations;
             total_count := length recommendations |}
  | Raise e => inr (HTTPException 500 (exn_str e))
  end.

End SuggestPlots.

(** [any(keyword in name.lower() for keyword in keywords)] *)
Definition name_has_keyword (keywords : list string) (name : string) : bool :=
  existsb (fun keyword => contains keyword (lower name)) keywords.

Section UploadData.

Context `{Pandas}.

(** [pd.read_csv(io.BytesIO(contents))] and [pd.read_excel(...)] *)
Variables read_csv read_excel : string -> res dataframe.

(** [str(e)] for what the [try] body raised. *)
Variable raised_str : raised -> string.

(** A [ColumnInfo]: the fields the response model keeps of a profile
    dict; the model has no field for the frequency table. *)
Record column_info : Type := mk_column_info {
  ci_name : string;
  ci_type : string;
  ci_unique_count : Z;
  ci_na_count : Z;
  ci_summary : option summary
}.

Definition column_info_of (p : column_profile) : column_info :=
  {| ci_name := p_name p;
     ci_type := p_type p;
     ci_unique_count := p_unique_count p;
     ci_na_count := p_na_count p;
     ci_summary := p_summary p |}.

(** A [DataAnalysis]. *)
Record data_analysis : Type := mk_data_analysis {
  da_error : bool;
  da_filename : option string;
  da_n_rows : option nat;
  da_n_cols : option nat;
  da_columns : option (list column_info);
  da_has_time_series : option bool;
  da_has_geographic : option bool;
  da_sample_data : option (list (list (string * option cell)));
  da_message : option string
}.

(** The uploaded file: its name and its bytes. *)
Record upload_file : Type := mk_upload_file {
  filename : string;
  contents : string
}.

(** [len(df)]; the columns of a frame have the same length. *)
Definition n_rows_of (df : dataframe) : nat :=
  match df with
  | [] => 0
  | (_, s) :: _ => length (s_values s)
  end.

(** [df.head(5).to_dict('records')], missing cells as [None]. *)
Definition sample_rows (df : dataframe) : list (list (string * option cell)) :=
  map (fun i => map (fun ls => (fst ls, nth i (s_values (snd ls)) None)) df)
      (seq 0 (Nat.min 5 (n_rows_of df))).

(** The dispatch on the file name. *)
Definition read_table (file : upload_file) : attempt dataframe :=
  let lift r := match r with Ok df => Done df | Raise e => Failed (RaisedPy e) end in
  if ends_with ".csv" (filename file) then lift (read_csv (contents file))
  else if ends_with ".xlsx" (filename file) || ends_with ".xls" (filename file)
       then lift (read_excel (contents file))
  else Failed (RaisedHttp (HTTPException 400 "Unsupported file format")).

Definition detect_time_series (columns : list column_profile) : bool :=
  existsb (fun col =>
             String.eqb (p_type col) "date"
             || name_has_keyword ["date"; "time"; "year"; "month"] (p_name col))
          columns.

Definition detect_geographic (columns : list column_profile) : bool :=
  existsb (fun col =>
             name_has_keyword
               ["country"; "city"; "region"; "location"; "lat"; "lon"]
               (p_name col))
          columns.

(** The body of the [try]. *)
Definition upload_body (file : upload_file) : attempt data_analysis :=
  match read_table file with
  | Failed e => Failed e
  | Done df =>
      match map_res (analyze_column df) (map fst df) with
      | Raise e => Failed (RaisedPy e)
      | Ok columns =>
          Done {| da_error := false;
                  da_filename := Some (filename file);
                  da_n_rows := Some (n_rows_of df);
                  da_n_cols := Some (length df);
                  da_columns := Some (map column_info_of columns);
                  da_has_time_series := Some (detect_time_series columns);
                  da_has_geographic := Some (detect_geographic columns);
                  da_sample_data := Some (sample_rows df);
                  da_message := None |}
      end
  end.

Definition upload_data (file : upload_file) : data_analysis :=
  match upload_body file with
  | Done analysis => analysis
  | Failed e =>
      {| da_error := true;
         da_filename := None;
         da_n_rows := None;
         da_n_cols := None;
         da_columns := None;
         da_has_time_series := None;
         da_has_geographic := None;
         da_sample_data := None;
         da_message := Some (raised_str e) |}
  end.

(** A [ColumnInfo] of the response as a profile record of a request. *)
Definition as_column (ci : column_info) : column :=
  {| c_type := Some (ci_type ci);
     c_name := Some (ci_name ci);
     c_unique_count := Some (ci_unique_count ci);
     c_na_count := Some (ci_na_count ci) |}.

End UploadData.

(** A frame, parsers and exception texts to run the upload endpoint on:
    the CSV parser returns the frame for any non-empty content and raises
    on empty content; the Excel parser always raises. *)
Definition sample_frame : @dataframe int_pandas :=
  [ ("region", int_series Object [Some 4%Z; None; Some 4%Z; Some 9%Z]);
    ("price", int_series Float64 [Some 10%Z; Some 12%Z; None; Some 7%Z]);
    ("sold_on", int_series Datetime64 [Some 1%Z; Some 2%Z; Some 3%Z; None]) ].

Definition sample_read_csv (contents : string) : res (@dataframe int_pandas) :=
  if String.eqb contents EmptyString then Raise (OtherError "No columns to parse from file")
  else Ok sample_frame.

Definition sample_read_excel (contents : string) : res (@dataframe int_pandas) :=
  Raise (OtherError "Excel file format cannot be determined").

Definition sample_exn_str (e : exn) : string :=
  match e with
  | KeyError key => "'" ++ key ++ "'"
  | IndexError => "list index out of range"
  | OtherError msg => msg
  end.

Definition sample_raised_str (e : raised) : string :=
  match e with
  | RaisedHttp (HTTPException status detail) => detail
  | RaisedPy e => sample_exn_str e
  end.

(** ** The endpoint [/generate-r-code] *)

(** A newline and a double quote. *)
Definition nl : string := String (ascii_of_nat 10) EmptyString.
Definition dq : string := String (ascii_of_nat 34) EmptyString.

(** The prompt up to the list of columns. *)
Definition prompt_head : string :=
  String.concat nl
    [ EmptyString;
      "        You are an expert R developer and data visualization specialist.";
      "        ";
      "        Task: Write R code using 'ggplot2' to recreate the chart style shown in the image, adapted for the user's dataset.";
      "        ";
      "        Context:";
      "        - The user has provided an image of a chart they want to replicate.";
      "        - The user's dataset has the following columns: " ].

(** The prompt between the columns and the chart type. *)
Definition prompt_middle : string :=
  String.concat nl
    [ EmptyString;
      "        - " ].

(** The rest of the prompt. *)
Definition prompt_tail : string :=
  String.concat nl
    [ EmptyString;
      "        ";
      "        Instructions:";
      "        1. Assume the data is already loaded into a dataframe called `data`.";
      "        2. Use the most appropriate columns from the provided list to map to x, y, color, size, etc.";
      "        3. Try to match the visual style (theme, colors, labels) of the image as closely as possible.";
      "        4. Use 'ggplot2' and 'dplyr' libraries.";
      "        5. Return ONLY the raw R code without markdown formatting (no ```r or ```).";
      "        6. Do not include any data loading or library installation code. Just the plot generation.";
      "        7. The code must assume the data is in a dataframe variable named `data`.";
      "        8. The last line of the code MUST be the plot object itself (e.g., `p`). Do NOT call `print(p)`.";
      "        ";
      "        Example Output:";
      "        library(ggplot2)";
      "        p <- ggplot(data, aes(x=Category, y=Value, fill=Region)) +";
      ("          geom_bar(stat=" ++ dq ++ "identity" ++ dq ++ ", position=" ++ dq ++ "dodge" ++ dq ++ ") +")%string;
      "          theme_minimal() +";
      ("          labs(title=" ++ dq ++ "Chart Title" ++ dq ++ ")")%string;
      "        p";
      ("          geom_bar(stat=" ++ dq ++ "identity" ++ dq ++ ", position=" ++ dq ++ "dodge" ++ dq ++ ") +")%string;
      "          theme_minimal() +";
      ("          labs(title=" ++ dq ++ "Chart Title" ++ dq ++ ")")%string;
      "        p";
      "        " ].

(** [s.replace(old, new)] for a non-empty [old]: the occurrences are found
    from the left and do not overlap; [skip] counts the characters of a
    found occurrence that are still to be passed over. *)
Fixpoint replace_from (old new : string) (skip : nat) (s : string) : string :=
  match s with
  | EmptyString => EmptyString
  | String c s' =>
      match skip with
      | S k => replace_from old new k s'
      | 0 =>
          if String.prefix old s
          then (new ++ replace_from old new (String.length old - 1) s')%string
          else String c (replace_from old new 0 s')
      end
  end.

Definition replace (old new s : string) : string := replace_from old new 0 s.

(** The whitespace characters of [str.strip], as UTF-8 byte sequences:
    U+0009 to U+000D, U+001C to U+0020, U+0085, U+00A0, U+1680, U+2000 to
    U+200A, U+2028, U+2029, U+202F, U+205F and U+3000. *)
Definition bytes (l : list nat) : string :=
  fold_right (fun n s => String (ascii_of_nat n) s) EmptyString l.

Definition whitespace : list string :=
  map bytes
    ([ [9]; [10]; [11]; [12]; [13]; [28]; [29]; [30]; [31]; [32];
       [194; 133]; [194; 160]; [225; 154; 128] ]
     ++ map (fun n => [226; 128; n]) (seq 128 11)
     ++ [ [226; 128; 168]; [226; 128; 169]; [226; 128; 175];
          [226; 129; 159]; [227; 128; 128] ]).

(** [s.lstrip()], given the whitespace sequences. *)
Fixpoint lstrip_from (ws : list string) (skip : nat) (s : string) : string :=
  match s with
  | EmptyString => EmptyString
  | String c s' =>
      match skip with
      | S k => lstrip_from ws k s'
      | 0 =>
          match find (fun w => String.prefix w s) ws with
          | Some w => lstrip_from ws (String.length w - 1) s'
          | None => s
          end
      end
  end.

Fixpoint rev_string (s : string) : string :=
  match s with
  | EmptyString => EmptyString
  | String c s' => (rev_string s' ++ String c EmptyString)%string
  end.

(** [s.strip()] *)
Definition strip (s : string) : string :=
  let s := lstrip_from whitespace 0 s in
  rev_string (lstrip_from (map rev_string whitespace) 0 (rev_string s)).

(** [s.split(sep)] for a one-character [sep]. *)
Fixpoint split_on (sep : ascii) (s : string) : list string :=
  match s with
  | EmptyString => [EmptyString]
  | String c s' =>
      if Ascii.eqb c sep then EmptyString :: split_on sep s'
      else match split_on sep s' with
           | seg :: segs => String c seg :: segs
           | [] => [String c EmptyString]
           end
  end.

(** The request model [RCodeRequest]. *)
Record r_code_request : Type := mk_r_code_request {
  rc_image : string;
  rc_columns : list string;
  rc_chart_type : option string
}.

(** A part of the content sent to the model: the prompt, or the dict of an
    image. *)
Inductive part : Type :=
| TextPart (text : string)
| ImagePart (mime_type data : string).

(** The dict the endpoint returns. *)
Record r_code_result : Type := mk_r_code_result {
  rr_code : string;
  rr_status : string;
  rr_message : option string
}.

(** The prompt. *)
Definition r_code_prompt (request : r_code_request) : string :=
  (prompt_head
   ++ String.concat ", " (rc_columns request)
   ++ prompt_middle
   ++ match rc_chart_type request with
      | Some t =>
          if String.eqb t EmptyString then EmptyString
          else "The detected chart type is: " ++ t
      | None => EmptyString
      end
   ++ prompt_tail)%string.

(** [image.split(",")[1] if "," in image else image] *)
Definition image_data (image : string) : res string :=
  if contains "," image then idx (split_on "," image) 1 else Ok image.

(** The list [contents]. *)
Definition r_code_contents (request : r_code_request) : res (list part) :=
  let contents := [TextPart (r_code_prompt request)] in
  if String.eqb (rc_image request) EmptyString then Ok contents
  else
    data <- image_data (rc_image request) ;;
    Ok (contents ++ [ImagePart "image/png" data]).

(** The fences of a markdown code block are removed and the text is
    stripped. *)
Definition clean_r_code (text : string) : string :=
  strip (replace "```" EmptyString (replace "```r" EmptyString text)).

Section GenerateRCode.

(** [model.generate_content(contents).text] *)
Variable generate_content : list part -> res string.

(** [str(e)] *)
Variable exn_str : exn -> string.

Definition generate_r_code (request : r_code_request) : r_code_result :=
  match (contents <- r_code_contents request ;;
         text <- generate_content contents ;;
         Ok (clean_r_code text)) with
  | Ok r_code =>
      {| rr_code := r_code; rr_status := "success"; rr_message := None |}
  | Raise e =>
      {| rr_code := EmptyString; rr_status := "error"; rr_message := Some (exn_str e) |}
  end.

End GenerateRCode.

(** * Properties *)

(** ** The sort is Python's: a stable permutation in descending score order *)

Lemma insert_desc_perm (x : recommendation) (l : recs) :
  Permutation (insert_desc x l) (x :: l).
Proof.
  induction l as [|y l IH]; simpl.
  - apply Permutation_refl.
  - destruct (Qle_bool (r_score y) (r_score x)).
    + apply Permutation_refl.
    + eapply perm_trans; [apply perm_skip, IH | apply perm_swap].
Qed.

Lemma sort_by_score_desc_perm (l : recs) :
  Permutation (sort_by_score_desc l) l.
Proof.
  induction l as [|x l IH]; simpl.
  - apply perm_nil.
  - eapply perm_trans; [apply insert_desc_perm | apply perm_skip, IH].
Qed.

Lemma sort_by_score_desc_length (l : recs) :
  length (sort_by_score_desc l) = length l.
Proof. apply Permutation_length, sort_by_score_desc_perm. Qed.

Lemma goes_before_any_order (a b : recommendation) :
  goes_before any_order a b = Qle_bool (r_score b) (r_score a).
Proof.
  unfold goes_before, any_order. now rewrite orb_true_r, andb_true_r.
Qed.

Lemma insert_desc_ranked (x : recommendation) (l : recs) :
  ranked any_order l = true -> ranked any_order (insert_desc x l) = true.
Proof.
  induction l as [|y l IH]; cbn [insert_desc ranked forallb]; intros Hl;
    [reflexivity|].
  apply andb_true_iff in Hl as [Hy Hl].
  rewrite forallb_forall in Hy.
  destruct (Qle_bool (r_score y) (r_score x)) eqn:Hyx;
    cbn [insert_desc ranked forallb].
  - rewrite Hl, andb_true_r.
    apply andb_true_iff; split; [apply andb_true_iff; split|].
    + now rewrite goes_before_any_order.
    + apply forallb_forall. intros z Hz. specialize (Hy z Hz).
      rewrite goes_before_any_order in *.
      apply Qle_bool_iff. apply Qle_bool_iff in Hy, Hyx.
      eapply Qle_trans; eassumption.
    + apply forallb_forall, Hy.
  - rewrite (IH Hl), andb_true_r. apply forallb_forall. intros z Hz.
    apply (Permutation_in _ (insert_desc_perm x l)) in Hz.
    destruct Hz as [<-|Hz]; [|exact (Hy z Hz)].
    rewrite goes_before_any_order.
    apply Qle_bool_iff. apply Qlt_le_weak, Qnot_le_lt.
    intros Hle. apply Qle_bool_iff in Hle. congruence.
Qed.

Lemma sort_by_score_desc_ranked (l : recs) :
  ranked any_order (sort_by_score_desc l) = true.
Proof.
  induction l as [|x l IH]; simpl; [reflexivity|].
  apply insert_desc_ranked, IH.
Qed.

(** Stability: the entries of any one score keep their input order. *)
Lemma insert_desc_stable (q : Q) (x : recommendation) (l : recs) :
  filter (fun r => Qeq_bool (r_score r) q) (insert_desc x l)
  = filter (fun r => Qeq_bool (r_score r) q) (x :: l).
Proof.
  induction l as [|y l IH]; [reflexivity|].
  simpl insert_desc.
  destruct (Qle_bool (r_score y) (r_score x)) eqn:Hyx; [reflexivity|].
  simpl in *. rewrite IH.
  destruct (Qeq_bool (r_score x) q) eqn:Hx; [|reflexivity].
  destruct (Qeq_bool (r_score y) q) eqn:Hy; [|reflexivity].
  exfalso. apply Qeq_bool_iff in Hx, Hy.
  assert (Hle : (r_score y <= r_score x)%Q) by (rewrite Hx, Hy; apply Qle_refl).
  apply Qle_bool_iff in Hle. congruence.
Qed.

Lemma sort_by_score_desc_stable (q : Q) (l : recs) :
  filter (fun r => Qeq_bool (r_score r) q) (sort_by_score_desc l)
  = filter (fun r => Qeq_bool (r_score r) q) l.
Proof.
  induction l as [|x l IH]; [reflexivity|].
  simpl sort_by_score_desc. rewrite insert_desc_stable. simpl.
  rewrite IH. reflexivity.
Qed.

(** ** The decision procedure is sound *)

Lemma ranked_sound (beforeb : recommendation -> recommendation -> bool)
  (before : recommendation -> recommendation -> Prop) (l : recs) :
  (forall a b, beforeb a b = true -> before a b) ->
  ranked beforeb l = true ->
  score_sorted l /\ ties_follow before l.
Proof.
  intros Hb. induction l as [|a l IH]; intros Hl.
  - split; intros i j ri rj _ Hi; destruct i; discriminate.
  - simpl in Hl. apply andb_true_iff in Hl as [Ha Hl].
    destruct (IH Hl) as [IHs IHt]. rewrite forallb_forall in Ha.
    split; intros i j ri rj Hij Hi Hj.
    + destruct j as [|j]; [lia|]. simpl in Hj. destruct i as [|i].
      * injection Hi as <-. apply nth_error_In in Hj.
        specialize (Ha _ Hj). unfold goes_before in Ha.
        apply andb_true_iff in Ha as [Ha _]. apply Qle_bool_iff, Ha.
      * simpl in Hi. apply (IHs i j); [lia|assumption..].
    + intros Heq. destruct j as [|j]; [lia|]. simpl in Hj. destruct i as [|i].
      * injection Hi as <-. apply nth_error_In in Hj.
        specialize (Ha _ Hj). unfold goes_before in Ha.
        apply andb_true_iff in Ha as [_ Ha].
        apply Qeq_bool_iff in Heq. rewrite Heq in Ha. apply Hb, Ha.
      * simpl in Hi. apply (IHt i j); [lia|assumption..].
Qed.

(** ** Reading the profile list *)

Lemma cols_of_type_typed (t : string) (columns : list column) :
  forallb has_type columns = true ->
  cols_of_type t columns = Ok (filter (type_is t) columns).
Proof.
  unfold cols_of_type. induction columns as [|c columns IH]; simpl; intros Hc.
  - reflexivity.
  - apply andb_true_iff in Hc as [Hc Hcs]. rewrite (IH Hcs).
    unfold get_type, type_is, has_type in *.
    destruct (c_type c) as [ty|]; [|discriminate]. simpl.
    destruct (String.eqb ty t); reflexivity.
Qed.

Lemma cols_of_type_untyped (t : string) (columns : list column) :
  forallb has_type columns = false ->
  cols_of_type t columns = Raise (KeyError "type").
Proof.
  unfold cols_of_type. induction columns as [|c columns IH]; simpl; intros Hc.
  - discriminate.
  - unfold get_type, has_type in *.
    destruct (c_type c) as [ty|]; [|reflexivity]. simpl in *.
    rewrite (IH Hc). reflexivity.
Qed.

Lemma get_col_names_names_res (cols : list column) :
  get_col_names cols = names_res (map c_name cols).
Proof.
  unfold get_col_names, names_res.
  induction cols as [|c cols IH]; simpl; [reflexivity|].
  rewrite IH. unfold get_name. destruct (c_name c); reflexivity.
Qed.

Lemma names_res_length (names : list (option string)) (l : list string) :
  names_res names = Ok l -> length l = length names.
Proof.
  unfold names_res. revert l.
  induction names as [|o names IH]; simpl; intros l Hl.
  - injection Hl as <-. reflexivity.
  - destruct o as [n|]; [|discriminate]. simpl in Hl.
    destruct (map_res _ names) as [l'|e]; [|discriminate].
    injection Hl as <-. simpl. now rewrite (IH l').
Qed.

Lemma names_res_ok (names : list (option string)) :
  is_ok (names_res names)
  = forallb (fun o => match o with Some _ => true | None => false end) names.
Proof.
  unfold names_res. induction names as [|o names IH]; simpl; [reflexivity|].
  destruct o as [n|]; [|reflexivity]. simpl. rewrite <- IH.
  destruct (map_res _ names); reflexivity.
Qed.

(** The only use of [date_cols] is the test [len(date_cols) > 0]. *)
Lemma pipeline_date_cols (nn cn dn : list string) (dc dc' : list column)
  (ts : bool) :
  length dc = length dc' -> pipeline nn cn dn dc ts = pipeline nn cn dn dc' ts.
Proof.
  intros Hlen. unfold pipeline, emit_rules, time_series_charts.
  rewrite Hlen. reflexivity.
Qed.

(** Past the empty-dataset return, the function is [pipeline] run on the
    names of the three buckets. *)
Lemma recommend_on_names (columns : list column) (ts : bool) :
  forallb has_type columns = true -> columns <> [] ->
  recommend_charts_from_data columns ts =
    (nn <- names_res (names_of_type "numeric" columns) ;;
     cn <- names_res (names_of_type "categorical" columns) ;;
     dn <- names_res (names_of_type "date" columns) ;;
     pipeline nn cn dn (filter (type_is "date") columns) ts).
Proof.
  intros Ht Hne. unfold recommend_charts_from_data.
  rewrite !(cols_of_type_typed _ _ Ht). cbn [bind].
  destruct columns as [|c columns]; [congruence|].
  cbn [length Nat.eqb]. rewrite !get_col_names_names_res.
  unfold names_of_type.
  destruct (names_res (map c_name (filter (type_is "numeric") (c :: columns))))
    as [nn|e] eqn:Hnn; [|reflexivity].
  destruct (names_res (map c_name (filter (type_is "categorical") (c :: columns))))
    as [cn|e] eqn:Hcn; [|reflexivity].
  destruct (names_res (map c_name (filter (type_is "date") (c :: columns))))
    as [dn|e] eqn:Hdn; [|reflexivity].
  cbn [bind]. unfold pipeline.
  apply names_res_length in Hnn, Hcn. rewrite length_map in Hnn, Hcn.
  rewrite Hnn, Hcn. reflexivity.
Qed.

(** Readable records give names for every bucket. *)
Lemma readable_typed (columns : list column) :
  forallb readable columns = true -> forallb has_type columns = true.
Proof.
  rewrite !forallb_forall. intros H c Hc. specialize (H c Hc).
  unfold readable in H. now apply andb_true_iff in H as [H _].
Qed.

Lemma readable_names (t : string) (columns : list column) :
  forallb readable columns = true ->
  existsb (String.eqb t) ["numeric"; "categorical"; "date"] = true ->
  exists names, names_res (names_of_type t columns) = Ok names.
Proof.
  intros Hr Ht.
  assert (Hok : is_ok (names_res (names_of_type t columns)) = true).
  { rewrite names_res_ok. apply forallb_forall. intros o Ho.
    unfold names_of_type in Ho. apply in_map_iff in Ho as (c & <- & Hc).
    apply filter_In in Hc as [Hc Hty].
    rewrite forallb_forall in Hr. specialize (Hr c Hc).
    unfold readable, in_bucket, has_name in Hr.
    apply andb_true_iff in Hr as [_ Hr].
    destruct (c_name c); [reflexivity|]. rewrite orb_false_r in Hr.
    apply negb_true_iff in Hr.
    simpl in Ht. rewrite orb_false_r in Ht.
    unfold type_is in *. destruct (c_type c) as [ty|]; [|discriminate].
    apply String.eqb_eq in Hty. subst ty.
    rewrite orb_assoc in Ht. congruence. }
  destruct (names_res (names_of_type t columns)) as [names|e];
    [now exists names|discriminate].
Qed.

(** ** The rules on every shape of input

    The guards of the rule blocks look at no more than the first four
    numeric names, the first three categorical names, whether there is a
    date column and the time-series flag: 80 shapes, each evaluated. *)

(** The inner test of the candlestick block repeats the outer one: the
    name-matched candidates decide nothing. *)
Lemma candlestick_chart_guard (nn dn : list string) (n : nat) (ts : bool)
  (r : recs) :
  candlestick_chart nn dn n ts r =
    if (4 <=? n) && ts then Ok (r ++ [candlestick_entry nn dn]) else Ok r.
Proof.
  unfold candlestick_chart. destruct (4 <=? n); [|reflexivity].
  now rewrite orb_true_r.
Qed.

Ltac by_shape nn cn dc ts :=
  try unfold pipeline; unfold emit_rules, candlestick_chart;
  rewrite (orb_comm (4 <=? length (ohlc_candidates nn)));
  destruct nn as [|? [|? [|? [|? nn]]]];
  destruct cn as [|? [|? [|? cn]]];
  destruct dc as [|? dc];
  destruct ts;
  vm_compute; reflexivity.

Lemma pipeline_checked (nn cn dn : list string) (dc : list column) (ts : bool) :
  pipeline_check (pipeline nn cn dn dc ts) = true.
Proof. by_shape nn cn dc ts. Qed.

(** [emission_order] is the order of the source: on every shape the blocks
    emit their entries along it, each with a score of at least 0.64, and
    the candlestick entry is emitted whenever its guard holds. *)
Lemma emit_rules_checked (nn cn dn : list string) (dc : list column) (ts : bool) :
  emission_check (length nn) ts
    (emit_rules nn cn dn (length nn) (length cn) dc ts) = true.
Proof. by_shape nn cn dc ts. Qed.

Lemma recommend_empty (ts : bool) :
  recommend_charts_from_data [] ts = Ok [error_entry].
Proof. reflexivity. Qed.

(** On readable records the function is [pipeline] on some name lists. *)
Lemma recommend_readable (columns : list column) (ts : bool) :
  forallb readable columns = true -> columns <> [] ->
  exists nn cn dn dc,
    recommend_charts_from_data columns ts = pipeline nn cn dn dc ts.
Proof.
  intros Hr Hne.
  rewrite (recommend_on_names _ _ (readable_typed _ Hr) Hne).
  destruct (readable_names "numeric" _ Hr eq_refl) as [nn ->].
  destruct (readable_names "categorical" _ Hr eq_refl) as [cn ->].
  destruct (readable_names "date" _ Hr eq_refl) as [dn ->].
  now exists nn, cn, dn, (filter (type_is "date") columns).
Qed.

Lemma recommend_readable_returns (columns : list column) (ts : bool) :
  forallb readable columns = true ->
  exists l, recommend_charts_from_data columns ts = Ok l.
Proof.
  intros Hr. destruct columns as [|c columns]; [now exists [error_entry]|].
  destruct (recommend_readable (c :: columns) ts Hr) as (nn & cn & dn & dc & ->);
    [discriminate|].
  pose proof (pipeline_checked nn cn dn dc ts) as Hc.
  destruct (pipeline nn cn dn dc ts) as [l|e]; [now exists l|discriminate].
Qed.

Lemma by_emissionb_sound (a b : recommendation) :
  by_emissionb a b = true -> by_emission a b.
Proof. unfold by_emissionb, by_emission. apply Nat.ltb_lt. Qed.

(** ** Ranking *)

(** C1, as the source has it: for every list of readable profile records
    the function returns a list whose scores never increase, and two
    entries of equal score come in the order in which the statements of
    the source emit them.  That order is the order of the rows of the rule
    table of the design document except for the radar and parallel
    entries, which the source emits after the categorical blocks. *)
Theorem recommend_sorted_ties_in_emission_order
  (columns : list column) (ts : bool) :
  forallb readable columns = true ->
  exists l,
    recommend_charts_from_data columns ts = Ok l
    /\ score_sorted l /\ ties_follow by_emission l.
Proof.
  intros Hr.
  destruct columns as [|c columns].
  { exists [error_entry]. split; [reflexivity|].
    exact (ranked_sound _ _ [error_entry] by_emissionb_sound eq_refl). }
  destruct (recommend_readable (c :: columns) ts Hr) as (nn & cn & dn & dc & ->);
    [discriminate|].
  pose proof (pipeline_checked nn cn dn dc ts) as Hc.
  destruct (pipeline nn cn dn dc ts) as [l|e]; [|discriminate].
  exists l. split; [reflexivity|].
  unfold pipeline_check in Hc.
  repeat (apply andb_true_iff in Hc as [Hc _]).
  exact (ranked_sound _ _ _ by_emissionb_sound Hc).
Qed.

Lemma recommend_sorted_ties_in_emission_order_witness :
  let columns := [col "numeric" "revenue"; col "numeric" "cost";
                  col "numeric" "profit"; col "categorical" "region"] in
  forallb readable columns = true
  /\ exists l,
       recommend_charts_from_data columns false = Ok l
       /\ score_sorted l /\ ties_follow by_emission l.
Proof.
  split; [reflexivity|].
  apply (recommend_sorted_ties_in_emission_order
           [col "numeric" "revenue"; col "numeric" "cost";
            col "numeric" "profit"; col "categorical" "region"] false).
  reflexivity.
Defined.

(** C1, as the design document has it, fails: with three numeric columns
    and one categorical column the donut entry (0.80, row Categorical
    comparison) comes before the radar entry (0.80, row Correlation
    (triple)). *)
Lemma recommend_ties_not_in_spec_table_order :
  exists l,
    recommend_charts_from_data
      [col "numeric" "revenue"; col "numeric" "cost";
       col "numeric" "profit"; col "categorical" "region"] false = Ok l
    /\ ~ (score_sorted l /\ ties_follow by_spec_table l).
Proof.
  eexists. split; [vm_compute; reflexivity|].
  intros [_ Ht].
  specialize (Ht 11 12 _ _ ltac:(lia) eq_refl eq_refl ltac:(reflexivity)).
  vm_compute in Ht. lia.
Qed.

(** ** Length *)

(** C2: for every list of readable profile records the function returns a
    list of at most 20 entries, and of at least one entry when the profile
    list is not empty; a returned list of fewer than 5 entries for a
    non-empty profile list holds the info-priority entry. *)
Theorem recommend_length (columns : list column) (ts : bool) :
  forallb readable columns = true ->
  exists l,
    recommend_charts_from_data columns ts = Ok l
    /\ length l <= 20
    /\ (columns <> [] -> 1 <= length l)
    /\ (columns <> [] -> length l < 5 ->
        exists r, In r l /\ r_priority r = "info").
Proof.
  intros Hr.
  destruct columns as [|c columns].
  { exists [error_entry]. simpl. repeat split; try lia; congruence. }
  destruct (recommend_readable (c :: columns) ts Hr) as (nn & cn & dn & dc & ->);
    [discriminate|].
  pose proof (pipeline_checked nn cn dn dc ts) as Hc.
  destruct (pipeline nn cn dn dc ts) as [l|e]; [|discriminate].
  exists l. split; [reflexivity|].
  unfold pipeline_check in Hc.
  apply andb_true_iff in Hc as [Hc Hinfo].
  apply andb_true_iff in Hc as [Hc H1]. apply andb_true_iff in Hc as [_ H20].
  apply Nat.leb_le in H1, H20. repeat split; [exact H20 | intros _; exact H1 |].
  intros _ Hlt. apply orb_true_iff in Hinfo as [H5|Hinfo].
  - apply Nat.leb_le in H5. lia.
  - apply existsb_exists in Hinfo as (r & Hin & Hp).
    exists r. split; [exact Hin | now apply String.eqb_eq].
Qed.

Lemma recommend_length_witness :
  let columns := [col "boolean" "active"] in
  forallb readable columns = true
  /\ exists l,
       recommend_charts_from_data columns true = Ok l
       /\ length l <= 20
       /\ (columns <> [] -> 1 <= length l)
       /\ (columns <> [] -> length l < 5 ->
           exists r, In r l /\ r_priority r = "info").
Proof.
  split; [reflexivity|].
  apply (recommend_length [col "boolean" "active"] true). reflexivity.
Defined.

(** ** Candlestick *)

(** Whatever the numeric columns are called, the candlestick block binds
    open, high, low and close to the first four of them. *)
Lemma candlestick_entry_positional (a b c d : string) (nn dn : list string) :
  let r := candlestick_entry (a :: b :: c :: d :: nn) dn in
  (r_score r == 0.66)%Q
  /\ lookup "open" (r_variables r) = Some (VStr a)
  /\ lookup "high" (r_variables r) = Some (VStr b)
  /\ lookup "low" (r_variables r) = Some (VStr c)
  /\ lookup "close" (r_variables r) = Some (VStr d).
Proof. repeat split. Qed.

(** C3 at a failing input: the numeric columns volume, open, high, low and
    close, with a time series.  Four column names match the keywords the
    block looks for, and the candlestick entry of the result still binds
    open to volume, high to open, low to high and close to low. *)
Theorem candlestick_ignores_matching_names :
  let names := ["volume"; "open"; "high"; "low"; "close"] in
  ohlc_candidates names = ["open"; "high"; "low"; "close"]
  /\ exists l r,
       recommend_charts_from_data (map (col "numeric") names) true = Ok l
       /\ In r l
       /\ r_type r = "candlestick"
       /\ (r_score r == 0.66)%Q
       /\ lookup "open" (r_variables r) = Some (VStr "volume")
       /\ lookup "high" (r_variables r) = Some (VStr "open")
       /\ lookup "low" (r_variables r) = Some (VStr "high")
       /\ lookup "close" (r_variables r) = Some (VStr "low").
Proof.
  split; [reflexivity|].
  eexists. exists (candlestick_entry ["volume"; "open"; "high"; "low"; "close"] []).
  split; [vm_compute; reflexivity|].
  split; [|repeat split].
  vm_compute. repeat (first [left; reflexivity | right]).
Qed.

(** ** Malformed records *)

(** C4, as the design document has it, fails: a record without the type
    key makes the first comprehension raise KeyError. *)
Lemma recommend_raises_without_type :
  recommend_charts_from_data
    [ {| c_type := None; c_name := Some "sales";
         c_unique_count := Some 10%Z; c_na_count := Some 0%Z |} ] false
  = Raise (KeyError "type").
Proof. reflexivity. Qed.

Lemma filter_type_not_in_bucket (t : string) (c : column) (columns : list column) :
  in_bucket c = false ->
  existsb (String.eqb t) ["numeric"; "categorical"; "date"] = true ->
  ~ In c (filter (type_is t) columns).
Proof.
  intros Hb Ht Hin. apply filter_In in Hin as [_ Hty].
  unfold in_bucket in Hb. apply orb_false_iff in Hb as [Hb Hd].
  apply orb_false_iff in Hb as [Hn Hc].
  simpl in Ht. rewrite orb_false_r in Ht.
  apply orb_true_iff in Ht as [Ht|Ht]; [|apply orb_true_iff in Ht as [Ht|Ht]];
    apply String.eqb_eq in Ht; subst t; congruence.
Qed.

(** C4, as the source has it: on every list of records that carry a type,
    and a name when the type is numeric, categorical or date, the function
    returns a list; a record of any other type value is in none of the
    three buckets. *)
Theorem recommend_never_raises_on_readable
  (columns : list column) (ts : bool) :
  forallb readable columns = true ->
  (exists l, recommend_charts_from_data columns ts = Ok l)
  /\ forall t, In t ["numeric"; "categorical"; "date"] ->
       exists bucket,
         cols_of_type t columns = Ok bucket
         /\ forall c, In c columns -> in_bucket c = false -> ~ In c bucket.
Proof.
  intros Hr. split.
  - apply recommend_readable_returns, Hr.
  - intros t Ht. exists (filter (type_is t) columns).
    split; [apply cols_of_type_typed, readable_typed, Hr|].
    intros c _ Hb. apply filter_type_not_in_bucket; [exact Hb|].
    simpl in Ht. destruct Ht as [<-|[<-|[<-|[]]]]; reflexivity.
Qed.

Lemma recommend_never_raises_on_readable_witness :
  let columns := [col "numeric" "sales"; col "geo" "city"] in
  forallb readable columns = true
  /\ (exists l, recommend_charts_from_data columns false = Ok l)
  /\ forall t, In t ["numeric"; "categorical"; "date"] ->
       exists bucket,
         cols_of_type t columns = Ok bucket
         /\ forall c, In c columns -> in_bucket c = false -> ~ In c bucket.
Proof.
  split; [reflexivity|].
  apply (recommend_never_raises_on_readable
           [col "numeric" "sales"; col "geo" "city"] false).
  reflexivity.
Defined.

(** The condition is exact: an unreadable record makes the function raise. *)
Lemma names_res_missing (names : list (option string)) :
  In None names -> names_res names = Raise (KeyError "name").
Proof.
  unfold names_res. induction names as [|o names IH]; simpl; [tauto|].
  intros [->|Hin]; [reflexivity|].
  destruct o; [|reflexivity]. simpl. now rewrite (IH Hin).
Qed.

Lemma names_res_cases (names : list (option string)) :
  (exists l, names_res names = Ok l)
  \/ names_res names = Raise (KeyError "name").
Proof.
  unfold names_res. induction names as [|o names IH]; simpl.
  - left. now exists [].
  - destruct o as [n|]; [|now right]. simpl.
    destruct IH as [[l ->]| ->]; [left; now exists (n :: l) | now right].
Qed.

Lemma unreadable_record (columns : list column) :
  forallb has_type columns = true -> forallb readable columns = false ->
  exists c, In c columns /\ in_bucket c = true /\ c_name c = None.
Proof.
  induction columns as [|c columns IH]; [discriminate|].
  simpl. intros Ht Hr. apply andb_true_iff in Ht as [Hc Ht].
  destruct (readable c) eqn:Hrc.
  - destruct (IH Ht Hr) as (c' & Hin & H'). exists c'. split; [now right|exact H'].
  - exists c. split; [now left|]. unfold readable, has_name in Hrc.
    rewrite Hc in Hrc. simpl in Hrc.
    apply orb_false_iff in Hrc as [Hb Hn].
    apply negb_false_iff in Hb. destruct (c_name c); [discriminate|].
    now split.
Qed.

Lemma recommend_raises_on_unreadable (columns : list column) (ts : bool) :
  forallb readable columns = false ->
  exists key, recommend_charts_from_data columns ts = Raise (KeyError key).
Proof.
  intros Hr. destruct (forallb has_type columns) eqn:Ht.
  - assert (Hne : columns <> []) by (intros ->; discriminate).
    rewrite (recommend_on_names _ _ Ht Hne).
    destruct (unreadable_record _ Ht Hr) as (c & Hin & Hb & Hn).
    assert (Hmiss : forall t, type_is t c = true ->
                              names_res (names_of_type t columns)
                              = Raise (KeyError "name")).
    { intros t Hty. apply names_res_missing. rewrite <- Hn.
      unfold names_of_type. apply in_map, filter_In. now split. }
    exists "name". unfold in_bucket in Hb.
    destruct (names_res_cases (names_of_type "numeric" columns))
      as [[nn Hnn]|Hnn]; rewrite Hnn; [|reflexivity].
    destruct (names_res_cases (names_of_type "categorical" columns))
      as [[cn Hcn]|Hcn]; rewrite Hcn; [|reflexivity].
    destruct (names_res_cases (names_of_type "date" columns))
      as [[dn Hdn]|Hdn]; rewrite Hdn; [|reflexivity].
    exfalso.
    apply orb_true_iff in Hb as [Hb|Hb]; [apply orb_true_iff in Hb as [Hb|Hb]|];
      apply Hmiss in Hb; congruence.
  - exists "type". unfold recommend_charts_from_data.
    now rewrite (cols_of_type_untyped "numeric" columns Ht).
Qed.

(** ** Datasets without columns, and without bucketed columns *)

(** C5: on the empty profile list the function returns exactly one entry,
    of priority error; the info entry is not added. *)
Theorem recommend_empty_dataset (ts : bool) :
  exists r,
    recommend_charts_from_data [] ts = Ok [r]
    /\ r_priority r = "error"
    /\ r_type r = "error"
    /\ forall r', In r' [r] -> r_priority r' <> "info".
Proof.
  exists error_entry. repeat split.
  intros r' [<-|[]]. discriminate.
Qed.

Lemma count_zero_names (t : string) (columns : list column) :
  count_of_type t columns = 0 ->
  filter (type_is t) columns = [] /\ names_of_type t columns = [].
Proof.
  unfold count_of_type, names_of_type. intros H.
  apply length_zero_iff_nil in H. now rewrite H.
Qed.

(** C6, as the design document has it, fails: a profile list with one
    boolean column has no numeric, categorical or date column, and its one
    recommendation is of type info. *)
Lemma recommend_boolean_only_is_info :
  let columns := [col "boolean" "active"] in
  forallb has_type columns = true
  /\ count_of_type "numeric" columns = 0
  /\ count_of_type "categorical" columns = 0
  /\ count_of_type "date" columns = 0
  /\ ~ exists r,
         recommend_charts_from_data columns false = Ok [r]
         /\ r_type r = "error" /\ (r_score r == 0)%Q.
Proof.
  repeat split. intros (r & Hr & Hty & _).
  vm_compute in Hr. injection Hr as <-. discriminate.
Qed.

(** C6, as the source has it: a profile list without numeric, categorical
    and date columns, and without the time-series flag, gets exactly one
    recommendation, of score 0; its type is error when the list is empty
    and info when it is not. *)
Theorem recommend_no_bucketed_columns (columns : list column) :
  forallb has_type columns = true ->
  count_of_type "numeric" columns = 0 ->
  count_of_type "categorical" columns = 0 ->
  count_of_type "date" columns = 0 ->
  exists r,
    recommend_charts_from_data columns false = Ok [r]
    /\ (r_score r == 0)%Q
    /\ r_type r = if length columns =? 0 then "error" else "info".
Proof.
  intros Ht Hn Hc Hd. destruct columns as [|c columns].
  - exists error_entry. repeat split.
  - rewrite (recommend_on_names _ _ Ht) by discriminate.
    apply count_zero_names in Hn as [_ ->].
    apply count_zero_names in Hc as [_ ->].
    apply count_zero_names in Hd as [-> ->].
    eexists. split; [vm_compute; reflexivity|]. now split.
Qed.

Lemma recommend_no_bucketed_columns_witness :
  let columns := [col "boolean" "active"; col "boolean" "churned"] in
  forallb has_type columns = true
  /\ count_of_type "numeric" columns = 0
  /\ count_of_type "categorical" columns = 0
  /\ count_of_type "date" columns = 0
  /\ exists r,
       recommend_charts_from_data columns false = Ok [r]
       /\ (r_score r == 0)%Q
       /\ r_type r = if length columns =? 0 then "error" else "info".
Proof.
  repeat (split; [reflexivity|]).
  apply (recommend_no_bucketed_columns
           [col "boolean" "active"; col "boolean" "churned"]);
    reflexivity.
Defined.

(** ** A scenario: one date column and one numeric column *)

(** C9: for the date column order_date and the numeric column sales, in
    either order, with any other keys and either value of the time-series
    flag, the first entry of the result is the line chart, of score 0.98,
    with x_axis order_date and y_axis sales. *)
Theorem recommend_date_and_numeric_line_first
  (u1 a1 u2 a2 : option Z) (ts : bool) :
  let d := {| c_type := Some "date"; c_name := Some "order_date";
              c_unique_count := u1; c_na_count := a1 |} in
  let n := {| c_type := Some "numeric"; c_name := Some "sales";
              c_unique_count := u2; c_na_count := a2 |} in
  forall columns, In columns [[d; n]; [n; d]] ->
  exists line rest,
    recommend_charts_from_data columns ts = Ok (line :: rest)
    /\ r_type line = "line"
    /\ (r_score line == 0.98)%Q
    /\ lookup "x_axis" (r_variables line) = Some (VStr "order_date")
    /\ lookup "y_axis" (r_variables line) = Some (VStr "sales").
Proof.
  intros d n columns [<-|[<-|[]]]; destruct ts;
    do 2 eexists; (split; [vm_compute; reflexivity|]); repeat split.
Qed.

Lemma recommend_date_and_numeric_line_first_witness :
  exists line rest,
    recommend_charts_from_data
      [col "date" "order_date"; col "numeric" "sales"] false
    = Ok (line :: rest)
    /\ r_type line = "line"
    /\ (r_score line == 0.98)%Q
    /\ lookup "x_axis" (r_variables line) = Some (VStr "order_date")
    /\ lookup "y_axis" (r_variables line) = Some (VStr "sales").
Proof.
  apply (recommend_date_and_numeric_line_first None None None None false
           [col "date" "order_date"; col "numeric" "sales"]).
  left. reflexivity.
Defined.

(** ** Only the bucketed records matter *)

Lemma names_of_type_length (t : string) (columns : list column) :
  length (filter (type_is t) columns) = length (names_of_type t columns).
Proof. unfold names_of_type. now rewrite length_map. Qed.

(** C10: two non-empty lists of typed profile records with the same
    time-series flag and, type by type, the same names of numeric,
    categorical and date records in the same order, get the same result
    (the same list, or the same exception when a bucketed record has no
    name); and the result is a list when the records are readable. *)
Theorem recommend_depends_on_buckets_only
  (columns1 columns2 : list column) (ts : bool) :
  forallb has_type columns1 = true -> forallb has_type columns2 = true ->
  columns1 <> [] -> columns2 <> [] ->
  names_of_type "numeric" columns1 = names_of_type "numeric" columns2 ->
  names_of_type "categorical" columns1 = names_of_type "categorical" columns2 ->
  names_of_type "date" columns1 = names_of_type "date" columns2 ->
  recommend_charts_from_data columns1 ts = recommend_charts_from_data columns2 ts
  /\ (forallb readable columns1 = true ->
      exists l, recommend_charts_from_data columns1 ts = Ok l
                /\ recommend_charts_from_data columns2 ts = Ok l).
Proof.
  intros Ht1 Ht2 Hne1 Hne2 Hn Hc Hd.
  assert (Heq : recommend_charts_from_data columns1 ts
                = recommend_charts_from_data columns2 ts).
  { rewrite (recommend_on_names _ _ Ht1 Hne1), (recommend_on_names _ _ Ht2 Hne2).
    rewrite Hn, Hc, Hd.
    destruct (names_res (names_of_type "numeric" columns2)); [|reflexivity].
    destruct (names_res (names_of_type "categorical" columns2)); [|reflexivity].
    destruct (names_res (names_of_type "date" columns2)); [|reflexivity].
    cbn [bind]. apply pipeline_date_cols.
    now rewrite !names_of_type_length, Hd. }
  split; [exact Heq|].
  intros Hr. destruct (recommend_readable_returns columns1 ts Hr) as [l Hl].
  exists l. split; [exact Hl | now rewrite <- Heq].
Qed.

(** Being empty or not is the one thing the other records decide. *)
Example recommend_emptiness_matters :
  recommend_charts_from_data [] false
  <> recommend_charts_from_data [col "boolean" "active"] false.
Proof. vm_compute. intros [= E]. Qed.

Lemma recommend_depends_on_buckets_only_witness :
  let columns1 := [col "numeric" "sales"; col "boolean" "active"] in
  let columns2 := [col "boolean" "churned"; col "text" "note";
                   {| c_type := Some "numeric"; c_name := Some "sales";
                      c_unique_count := Some 7%Z; c_na_count := Some 1%Z |}] in
  recommend_charts_from_data columns1 true = recommend_charts_from_data columns2 true
  /\ (forallb readable columns1 = true ->
      exists l, recommend_charts_from_data columns1 true = Ok l
                /\ recommend_charts_from_data columns2 true = Ok l).
Proof.
  apply (recommend_depends_on_buckets_only
           [col "numeric" "sales"; col "boolean" "active"]
           [col "boolean" "churned"; col "text" "note";
            {| c_type := Some "numeric"; c_name := Some "sales";
               c_unique_count := Some 7%Z; c_na_count := Some 1%Z |}] true);
    try reflexivity; discriminate.
Defined.

(** ** The column profiler *)

Section ProfilerFacts.

Context `{Pandas}.

Lemma dict_set_keys (d : list (string * Z)) (k : string) (v : Z) (k' : string) :
  In k' (map fst (dict_set d k v)) -> k' = k \/ In k' (map fst d).
Proof.
  induction d as [|[k0 v0] d IH]; simpl.
  - intros [<-|[]]. now left.
  - destruct (String.eqb k0 k); simpl; [tauto|].
    intros [<-|Hin]; [tauto|]. destruct (IH Hin); tauto.
Qed.

Lemma fold_dict_set_keys (items : list (cell * Z)) (d : list (string * Z))
  (k : string) :
  In k (map fst (fold_left (fun d kv => dict_set d (str (fst kv)) (snd kv))
                           items d)) ->
  In k (map fst d) \/ exists v, In v (map fst items) /\ k = str v.
Proof.
  revert d. induction items as [|[v n] items IH]; simpl; intros d Hin.
  - now left.
  - destruct (IH _ Hin) as [Hd|(v' & Hv' & ->)].
    + apply dict_set_keys in Hd as [->|Hd]; [|now left].
      right. exists v. split; [now left|reflexivity].
    + right. exists v'. split; [now right|reflexivity].
Qed.

(** Every key of the frequency table is [str] of a counted value. *)
Lemma str_keyed_keys (items : list (cell * Z)) (k : string) :
  In k (map fst (str_keyed items)) ->
  exists v, In v (map fst items) /\ k = str v.
Proof.
  unfold str_keyed. intros Hin.
  destruct (fold_dict_set_keys _ _ _ Hin) as [[]|Hex]. exact Hex.
Qed.

(** C7: for a numeric column whose values are all missing, whatever the
    reducers would do on it, the function returns a profile of type
    numeric whose min, max, mean, median and std are all null. *)
Theorem analyze_column_all_missing_numeric
  (df : dataframe) (col_name : string) (col : series) :
  df_get df col_name = Ok col ->
  is_numeric_dtype (s_dtype col) = true ->
  isna_all (s_values col) = true ->
  exists p,
    analyze_column df col_name = Ok p
    /\ p_type p = "numeric"
    /\ p_summary p = Some (NumericSummary None None None None None).
Proof.
  intros Hget Hnum Hna. unfold analyze_column, unless_all_missing.
  rewrite Hget. cbn [bind]. rewrite Hnum, Hna. cbn [negb bind].
  eexists. repeat split.
Qed.

(** C8: for a column classified categorical the function returns a
    profile that holds a frequency table exactly when unique_count is at
    most 50; the table is the one of [value_counts] with its keys passed
    through [str]. *)
Theorem analyze_column_value_counts_threshold
  (df : dataframe) (col_name : string) (col : series) :
  df_get df col_name = Ok col ->
  is_numeric_dtype (s_dtype col) = false ->
  is_datetime64_any_dtype (s_dtype col) = false ->
  is_bool_dtype (s_dtype col) = false ->
  exists p,
    analyze_column df col_name = Ok p
    /\ p_type p = "categorical"
    /\ p_unique_count p = nunique (s_values col)
    /\ ((exists table, p_value_counts p = Some table)
        <-> (p_unique_count p <= 50)%Z)
    /\ ((50 < p_unique_count p)%Z -> p_value_counts p = None)
    /\ forall table, p_value_counts p = Some table ->
         table = str_keyed (value_counts (s_values col))
         /\ forall k, In k (map fst table) ->
              exists v, In v (map fst (value_counts (s_values col)))
                        /\ k = str v.
Proof.
  intros Hget Hnum Hdate Hbool. unfold analyze_column.
  rewrite Hget. cbn [bind]. rewrite Hnum, Hdate, Hbool.
  eexists. split; [reflexivity|]. cbn [p_type p_unique_count p_value_counts].
  split; [reflexivity|]. split; [reflexivity|].
  destruct (Z.leb_spec (nunique (s_values col)) 50) as [Hle|Hgt].
  - split; [split; [intros _; exact Hle | intros _; eauto]|].
    split; [lia|]. intros table [= <-].
    split; [reflexivity | apply str_keyed_keys].
  - split; [split; [intros [table Ht]; discriminate | lia]|].
    split; [reflexivity | discriminate].
Qed.

End ProfilerFacts.

Lemma analyze_column_all_missing_numeric_witness :
  let col := int_series Float64 [None; None; None] in
  let df := [("region", (int_series Object [Some 4%Z; None; Some 4%Z]));
             ("price", col)] in
  float_min (s_values col) = Raise (OtherError "cannot convert float NaN to integer")
  /\ exists p,
       analyze_column df "price" = Ok p
       /\ p_type p = "numeric"
       /\ p_summary p = Some (NumericSummary None None None None None).
Proof.
  split; [reflexivity|].
  apply (analyze_column_all_missing_numeric
           [("region", (int_series Object [Some 4%Z; None; Some 4%Z]));
            ("price", (int_series Float64 [None; None; None]))]
           "price" (int_series Float64 [None; None; None]));
    reflexivity.
Defined.

Lemma analyze_column_value_counts_threshold_witness :
  let col := int_series Object [Some 4%Z; None; Some 4%Z; Some 9%Z] in
  exists p,
    analyze_column [("region", col)] "region" = Ok p
    /\ p_type p = "categorical"
    /\ p_unique_count p = nunique (s_values col)
    /\ ((exists table, p_value_counts p = Some table)
        <-> (p_unique_count p <= 50)%Z)
    /\ ((50 < p_unique_count p)%Z -> p_value_counts p = None)
    /\ forall table, p_value_counts p = Some table ->
         table = str_keyed (value_counts (s_values col))
         /\ forall k, In k (map fst table) ->
              exists v, In v (map fst (value_counts (s_values col)))
                        /\ k = str v.
Proof.
  apply (analyze_column_value_counts_threshold
           [("region", (int_series Object [Some 4%Z; None; Some 4%Z; Some 9%Z]))]
           "region");
    reflexivity.
Defined.

(** The two sides of the threshold on the integer instance. *)
Example analyze_column_three_values :
  analyze_column
    [("region", (int_series Object [Some 4%Z; None; Some 4%Z; Some 9%Z]))]
    "region"
  = Ok {| p_name := "region"; p_unique_count := 2; p_na_count := 1;
          p_type := "categorical"; p_summary := None;
          p_value_counts := Some [("4", 2%Z); ("9", 1%Z)] |}.
Proof. reflexivity. Qed.

Example analyze_column_fifty_one_values :
  analyze_column
    [("id", (int_series Object (map (fun n => Some (Z.of_nat n)) (seq 0 51))))]
    "id"
  = Ok {| p_name := "id"; p_unique_count := 51; p_na_count := 0;
          p_type := "categorical"; p_summary := None;
          p_value_counts := None |}.
Proof. vm_compute. reflexivity. Qed.

(** * Further properties *)

(** ** The result by shape of the input: helpers *)

Lemma names_res_inv (names : list (option string)) (l : list string) :
  names_res names = Ok l -> names = map Some l.
Proof.
  unfold names_res. revert l.
  induction names as [|o names IH]; simpl; intros l Hl.
  - now injection Hl as <-.
  - destruct o as [n|]; [|discriminate]. simpl in Hl.
    destruct (map_res _ names) as [l'|e]; [|discriminate].
    injection Hl as <-. simpl. now rewrite (IH l').
Qed.

(** On readable records the function is [pipeline] on the name lists of
    the three buckets. *)
Lemma recommend_readable_names (columns : list column) (ts : bool) :
  forallb readable columns = true -> columns <> [] ->
  exists nn cn dn dc,
    recommend_charts_from_data columns ts = pipeline nn cn dn dc ts
    /\ names_of_type "numeric" columns = map Some nn
    /\ names_of_type "categorical" columns = map Some cn
    /\ names_of_type "date" columns = map Some dn
    /\ length nn = count_of_type "numeric" columns
    /\ length cn = count_of_type "categorical" columns
    /\ length dc = count_of_type "date" columns.
Proof.
  intros Hr Hne.
  rewrite (recommend_on_names _ _ (readable_typed _ Hr) Hne).
  destruct (readable_names "numeric" _ Hr eq_refl) as [nn Hn].
  destruct (readable_names "categorical" _ Hr eq_refl) as [cn Hc].
  destruct (readable_names "date" _ Hr eq_refl) as [dn Hd].
  rewrite Hn, Hc, Hd. cbn [bind].
  exists nn, cn, dn, (filter (type_is "date") columns).
  apply names_res_inv in Hn, Hc, Hd.
  unfold count_of_type. rewrite !names_of_type_length, Hn, Hc, !length_map.
  repeat split; assumption.
Qed.

Lemma bands_checked (nn cn dn : list string) (dc : list column) (ts : bool) :
  on_list bands_check (pipeline nn cn dn dc ts) = true.
Proof. by_shape nn cn dc ts. Qed.

Lemma guards_checked (nn cn dn : list string) (dc : list column) (ts : bool) :
  on_list (guards_check (length nn) (length cn) (length dc) ts)
          (pipeline nn cn dn dc ts) = true.
Proof. by_shape nn cn dc ts. Qed.

Lemma cap_checked (nn cn dn : list string) (dc : list column) (ts : bool) :
  on_list (cap_check (length nn) (length cn) (length dc) ts)
          (pipeline nn cn dn dc ts) = true.
Proof. by_shape nn cn dc ts. Qed.

Lemma info_checked (nn cn dn : list string) (dc : list column) (ts : bool) :
  on_list (info_check (length nn) (length cn) (length dc) ts)
          (pipeline nn cn dn dc ts) = true.
Proof. by_shape nn cn dc ts. Qed.

(** A check that holds of [pipeline] on every input holds of the result
    for every non-empty list of readable records. *)
Lemma recommend_by_shape (chk : nat -> nat -> nat -> bool -> recs -> bool)
  (columns : list column) (ts : bool) :
  (forall nn cn dn dc,
      on_list (chk (length nn) (length cn) (length dc) ts)
              (pipeline nn cn dn dc ts) = true) ->
  forallb readable columns = true -> columns <> [] ->
  exists l,
    recommend_charts_from_data columns ts = Ok l
    /\ chk (count_of_type "numeric" columns)
           (count_of_type "categorical" columns)
           (count_of_type "date" columns) ts l = true.
Proof.
  intros Hchk Hr Hne.
  destruct (recommend_readable_names columns ts Hr Hne)
    as (nn & cn & dn & dc & -> & _ & _ & _ & <- & <- & <-).
  specialize (Hchk nn cn dn dc).
  destruct (pipeline nn cn dn dc ts) as [l|e]; [|discriminate].
  now exists l.
Qed.

Lemma has_chart_iff (t : string) (l : recs) :
  has_chart t l = true <-> exists r, In r l /\ r_type r = t.
Proof.
  unfold has_chart. rewrite existsb_exists.
  split; intros (r & Hin & Ht); exists r; (split; [exact Hin|]);
    now apply String.eqb_eq.
Qed.

Lemma distinct_sound (l : list string) : distinct l = true -> NoDup l.
Proof.
  induction l as [|x l IH]; simpl; intros H; constructor;
    apply andb_true_iff in H as [Hx Hl].
  - intros Hin. apply negb_true_iff in Hx.
    assert (existsb (String.eqb x) l = true); [|congruence].
    apply existsb_exists. exists x. split; [exact Hin | apply String.eqb_refl].
  - exact (IH Hl).
Qed.

Lemma nondecreasing_sound (l : list nat) :
  nondecreasing l = true ->
  forall i j m n, i < j ->
    nth_error l i = Some m -> nth_error l j = Some n -> m <= n.
Proof.
  induction l as [|a l IH]; simpl; intros H i j m n Hij Hi Hj.
  - destruct i; discriminate.
  - apply andb_true_iff in H as [Ha Hl]. destruct j as [|j]; [lia|].
    simpl in Hj. destruct i as [|i]; simpl in Hi.
    + injection Hi as <-. rewrite forallb_forall in Ha.
      apply Nat.leb_le, Ha. eapply nth_error_In, Hj.
    + apply (IH Hl i j); [lia|assumption..].
Qed.

(** ** Scores, priorities and chart types of the result *)

Lemma in_band_sound (r : recommendation) :
  in_band r = true ->
  (0 <= r_score r <= 1)%Q
  /\ ((r_priority r = "best" /\ (0.90 <= r_score r <= 0.98)%Q)
      \/ (r_priority r = "good" /\ (0.82 <= r_score r <= 0.90)%Q)
      \/ (r_priority r = "alternative" /\ (0.64 <= r_score r <= 0.80)%Q)
      \/ ((r_priority r = "info" \/ r_priority r = "error")
          /\ (r_score r == 0)%Q)).
Proof.
  unfold in_band.
  assert (Hband : forall lo hi : Q,
             (0 <= lo)%Q -> (hi <= 1)%Q ->
             Qle_bool lo (r_score r) && Qle_bool (r_score r) hi = true ->
             (0 <= r_score r <= 1)%Q /\ (lo <= r_score r <= hi)%Q).
  { intros lo hi Hlo Hhi Hb. apply andb_true_iff in Hb as [H1 H2].
    apply Qle_bool_iff in H1, H2.
    repeat split; try assumption; eapply Qle_trans; eassumption. }
  destruct (String.eqb_spec (r_priority r) "best") as [->|_].
  { intros Hb. apply Hband in Hb as [H01 Hb]; [|discriminate..].
    split; [exact H01 | left; now split]. }
  destruct (String.eqb_spec (r_priority r) "good") as [->|_].
  { intros Hb. apply Hband in Hb as [H01 Hb]; [|discriminate..].
    split; [exact H01 | right; left; now split]. }
  destruct (String.eqb_spec (r_priority r) "alternative") as [->|_].
  { intros Hb. apply Hband in Hb as [H01 Hb]; [|discriminate..].
    split; [exact H01 | right; right; left; now split]. }
  assert (Hzero : Qeq_bool (r_score r) 0 = true ->
                  (0 <= r_score r <= 1)%Q /\ (r_score r == 0)%Q).
  { intros Hz. apply Qeq_bool_iff in Hz. rewrite Hz.
    repeat split; discriminate. }
  destruct (String.eqb_spec (r_priority r) "info") as [->|_].
  { intros Hz. apply Hzero in Hz as [H01 Hz].
    split; [exact H01 | right; right; right; split; [now left|exact Hz]]. }
  destruct (String.eqb_spec (r_priority r) "error") as [->|_]; [|discriminate].
  intros Hz. apply Hzero in Hz as [H01 Hz].
  split; [exact H01 | right; right; right; split; [now right|exact Hz]].
Qed.

Lemma recommend_bands (columns : list column) (ts : bool) :
  forallb readable columns = true ->
  exists l,
    recommend_charts_from_data columns ts = Ok l /\ bands_check l = true.
Proof.
  intros Hr. destruct columns as [|c columns]; [now exists [error_entry]|].
  destruct (recommend_readable (c :: columns) ts Hr) as (nn & cn & dn & dc & ->);
    [discriminate|].
  pose proof (bands_checked nn cn dn dc ts) as Hc.
  destruct (pipeline nn cn dn dc ts) as [l|e]; [now exists l|discriminate].
Qed.

(** X1. Every entry of the result has one of the five priorities and a score
    in the band of its priority: best 0.90 to 0.98, good 0.82 to 0.90,
    alternative 0.64 to 0.80, info and error 0; so every score is between 0
    and 1. *)
Theorem recommend_scores_by_priority (columns : list column) (ts : bool) :
  forallb readable columns = true ->
  exists l,
    recommend_charts_from_data columns ts = Ok l
    /\ forall r, In r l ->
         (0 <= r_score r <= 1)%Q
         /\ ((r_priority r = "best" /\ (0.90 <= r_score r <= 0.98)%Q)
             \/ (r_priority r = "good" /\ (0.82 <= r_score r <= 0.90)%Q)
             \/ (r_priority r = "alternative" /\ (0.64 <= r_score r <= 0.80)%Q)
             \/ ((r_priority r = "info" \/ r_priority r = "error")
                 /\ (r_score r == 0)%Q)).
Proof.
  intros Hr. destruct (recommend_bands columns ts Hr) as (l & Hl & Hc).
  exists l. split; [exact Hl|]. intros r Hin.
  unfold bands_check in Hc. repeat (apply andb_true_iff in Hc as [Hc _]).
  rewrite forallb_forall in Hc. apply in_band_sound, Hc, Hin.
Qed.

Lemma recommend_scores_by_priority_witness :
  let columns := [col "numeric" "price"; col "categorical" "brand";
                  col "date" "sold_on"] in
  forallb readable columns = true
  /\ exists l,
       recommend_charts_from_data columns true = Ok l
       /\ forall r, In r l ->
            (0 <= r_score r <= 1)%Q
            /\ ((r_priority r = "best" /\ (0.90 <= r_score r <= 0.98)%Q)
                \/ (r_priority r = "good" /\ (0.82 <= r_score r <= 0.90)%Q)
                \/ (r_priority r = "alternative" /\ (0.64 <= r_score r <= 0.80)%Q)
                \/ ((r_priority r = "info" \/ r_priority r = "error")
                    /\ (r_score r == 0)%Q)).
Proof.
  split; [reflexivity|].
  apply (recommend_scores_by_priority
           [col "numeric" "price"; col "categorical" "brand";
            col "date" "sold_on"] true).
  reflexivity.
Defined.

(** X2. No chart type is recommended twice. *)
Theorem recommend_chart_types_distinct (columns : list column) (ts : bool) :
  forallb readable columns = true ->
  exists l,
    recommend_charts_from_data columns ts = Ok l /\ NoDup (map r_type l).
Proof.
  intros Hr. destruct (recommend_bands columns ts Hr) as (l & Hl & Hc).
  exists l. split; [exact Hl|].
  unfold bands_check in Hc. apply andb_true_iff in Hc as [Hc _].
  apply andb_true_iff in Hc as [_ Hc]. apply distinct_sound, Hc.
Qed.

Lemma recommend_chart_types_distinct_witness :
  let columns := [col "numeric" "price"; col "numeric" "cost";
                  col "numeric" "margin"; col "categorical" "brand"] in
  forallb readable columns = true
  /\ exists l,
       recommend_charts_from_data columns true = Ok l /\ NoDup (map r_type l).
Proof.
  split; [reflexivity|].
  apply (recommend_chart_types_distinct
           [col "numeric" "price"; col "numeric" "cost";
            col "numeric" "margin"; col "categorical" "brand"] true).
  reflexivity.
Defined.

(** X3. The result is grouped by priority: the best entries come first, then
    the good ones, then the alternatives, then the info entry. *)
Theorem recommend_grouped_by_priority (columns : list column) (ts : bool) :
  forallb readable columns = true ->
  exists l,
    recommend_charts_from_data columns ts = Ok l
    /\ forall i j ri rj, i < j ->
         nth_error l i = Some ri -> nth_error l j = Some rj ->
         tier (r_priority ri) <= tier (r_priority rj).
Proof.
  intros Hr. destruct (recommend_bands columns ts Hr) as (l & Hl & Hc).
  exists l. split; [exact Hl|]. intros i j ri rj Hij Hi Hj.
  unfold bands_check in Hc. apply andb_true_iff in Hc as [_ Hc].
  apply (nondecreasing_sound _ Hc i j); [exact Hij|..];
    rewrite nth_error_map; [now rewrite Hi | now rewrite Hj].
Qed.

Lemma recommend_grouped_by_priority_witness :
  let columns := [col "numeric" "price"; col "categorical" "brand"] in
  forallb readable columns = true
  /\ exists l,
       recommend_charts_from_data columns false = Ok l
       /\ forall i j ri rj, i < j ->
            nth_error l i = Some ri -> nth_error l j = Some rj ->
            tier (r_priority ri) <= tier (r_priority rj).
Proof.
  split; [reflexivity|].
  apply (recommend_grouped_by_priority
           [col "numeric" "price"; col "categorical" "brand"] false).
  reflexivity.
Defined.

(** ** Which charts are recommended *)

(** X4. A chart type other than the five lowest-scored ones is in the result
    exactly when the guard of its block holds on the numbers of numeric,
    categorical and date columns and the flag; the five lowest-scored ones
    are there only if their guard holds; and the result holds no other
    type than the chart types of the blocks and the info entry. *)
Theorem recommend_charts_follow_guards (columns : list column) (ts : bool) :
  forallb readable columns = true -> columns <> [] ->
  let n := count_of_type "numeric" columns in
  let c := count_of_type "categorical" columns in
  let d := count_of_type "date" columns in
  exists l,
    recommend_charts_from_data columns ts = Ok l
    /\ (forall r, In r l -> In (r_type r) emission_order)
    /\ forall t, In t chart_types ->
         ((exists r, In r l /\ r_type r = t) -> rule_guard t n c d ts = true)
         /\ (~ In t low_scored -> rule_guard t n c d ts = true ->
             exists r, In r l /\ r_type r = t).
Proof.
  intros Hr Hne n c d.
  destruct (recommend_by_shape guards_check columns ts
              ltac:(intros; apply guards_checked) Hr Hne) as (l & Hl & Hc).
  exists l. split; [exact Hl|].
  unfold guards_check in Hc. apply andb_true_iff in Hc as [Hg Ht].
  rewrite forallb_forall in Hg, Ht. split.
  - intros r Hin. specialize (Ht r Hin).
    apply existsb_exists in Ht as (t & Hin' & Heq).
    apply String.eqb_eq in Heq. now rewrite Heq.
  - intros t Hin. specialize (Hg t Hin). fold n c d in Hg.
    rewrite <- has_chart_iff.
    destruct (existsb (String.eqb t) low_scored) eqn:Hlow.
    + split.
      * intros Hh. now rewrite Hh in Hg.
      * intros Hnot. exfalso. apply Hnot.
        apply existsb_exists in Hlow as (t' & Hin' & Heq).
        apply String.eqb_eq in Heq. now subst t'.
    + apply eqb_prop in Hg. rewrite Hg. tauto.
Qed.

Lemma recommend_charts_follow_guards_witness :
  let columns := [col "numeric" "price"; col "categorical" "brand"] in
  let n := count_of_type "numeric" columns in
  let c := count_of_type "categorical" columns in
  let d := count_of_type "date" columns in
  exists l,
    recommend_charts_from_data columns false = Ok l
    /\ (forall r, In r l -> In (r_type r) emission_order)
    /\ forall t, In t chart_types ->
         ((exists r, In r l /\ r_type r = t) -> rule_guard t n c d false = true)
         /\ (~ In t low_scored -> rule_guard t n c d false = true ->
             exists r, In r l /\ r_type r = t).
Proof.
  apply (recommend_charts_follow_guards
           [col "numeric" "price"; col "categorical" "brand"] false);
    [reflexivity | discriminate].
Defined.

Lemma recommend_cap (columns : list column) (ts : bool) :
  forallb readable columns = true -> columns <> [] ->
  exists l,
    recommend_charts_from_data columns ts = Ok l
    /\ cap_check (count_of_type "numeric" columns)
                 (count_of_type "categorical" columns)
                 (count_of_type "date" columns) ts l = true.
Proof.
  intros Hr Hne. apply recommend_by_shape; [|assumption..].
  intros. apply cap_checked.
Qed.

(** X5. The candlestick chart reaches the result exactly when there are four
    or more numeric columns, the time-series flag, and no categorical
    column: with a categorical column the cap of 20 cuts it. *)
Theorem recommend_candlestick_iff (columns : list column) (ts : bool) :
  forallb readable columns = true -> columns <> [] ->
  exists l,
    recommend_charts_from_data columns ts = Ok l
    /\ ((exists r, In r l /\ r_type r = "candlestick")
        <-> 4 <= count_of_type "numeric" columns
            /\ ts = true
            /\ count_of_type "categorical" columns = 0).
Proof.
  intros Hr Hne. destruct (recommend_cap columns ts Hr Hne) as (l & Hl & Hc).
  exists l. split; [exact Hl|].
  unfold cap_check in Hc. apply andb_true_iff in Hc as [Hc _].
  apply eqb_prop in Hc. rewrite <- has_chart_iff, Hc.
  rewrite !andb_true_iff, Nat.leb_le, Nat.eqb_eq. tauto.
Qed.

Lemma recommend_candlestick_iff_witness :
  let columns := map (col "numeric") ["open"; "high"; "low"; "close"] in
  exists l,
    recommend_charts_from_data columns true = Ok l
    /\ ((exists r, In r l /\ r_type r = "candlestick")
        <-> 4 <= count_of_type "numeric" columns
            /\ true = true
            /\ count_of_type "categorical" columns = 0).
Proof.
  apply (recommend_candlestick_iff
           (map (col "numeric") ["open"; "high"; "low"; "close"]) true);
    [reflexivity | discriminate].
Defined.

(** X6. With three or more numeric columns, a categorical column and a time
    signal (the flag or a date column) the result has exactly 20 entries
    and none of sunburst, waterfall, funnel, candlestick and 3D scatter. *)
Theorem recommend_rich_dataset_capped (columns : list column) (ts : bool) :
  forallb readable columns = true ->
  3 <= count_of_type "numeric" columns ->
  1 <= count_of_type "categorical" columns ->
  ts = true \/ 1 <= count_of_type "date" columns ->
  exists l,
    recommend_charts_from_data columns ts = Ok l
    /\ length l = 20
    /\ forall r, In r l -> ~ In (r_type r) low_scored.
Proof.
  intros Hr Hn Hcat Hts.
  assert (Hne : columns <> []) by (intros ->; cbv in Hn; lia).
  destruct (recommend_cap columns ts Hr Hne) as (l & Hl & Hc).
  exists l. split; [exact Hl|].
  unfold cap_check in Hc. apply andb_true_iff in Hc as [_ Hc].
  assert (Hpre : (3 <=? count_of_type "numeric" columns)
                 && (1 <=? count_of_type "categorical" columns)
                 && (ts || (0 <? count_of_type "date" columns)) = true).
  { rewrite !andb_true_iff, orb_true_iff, !Nat.leb_le, Nat.ltb_lt.
    repeat split; [assumption..|]. destruct Hts; [now left | right; lia]. }
  rewrite Hpre in Hc. cbn [implb] in Hc.
  apply andb_true_iff in Hc as [Hlen Hlow].
  split; [now apply Nat.eqb_eq|].
  intros r Hin Ht. rewrite forallb_forall in Hlow.
  specialize (Hlow _ Ht). apply negb_true_iff in Hlow.
  assert (has_chart (r_type r) l = true); [|congruence].
  apply has_chart_iff. now exists r.
Qed.

Lemma recommend_rich_dataset_capped_witness :
  let columns := [col "numeric" "price"; col "numeric" "cost";
                  col "numeric" "margin"; col "categorical" "brand";
                  col "date" "sold_on"] in
  exists l,
    recommend_charts_from_data columns false = Ok l
    /\ length l = 20
    /\ forall r, In r l -> ~ In (r_type r) low_scored.
Proof.
  apply (recommend_rich_dataset_capped
           [col "numeric" "price"; col "numeric" "cost";
            col "numeric" "margin"; col "categorical" "brand";
            col "date" "sold_on"] false);
    [reflexivity | cbv; lia | cbv; lia | right; cbv; lia].
Defined.

Lemma recommend_info (columns : list column) (ts : bool) :
  forallb readable columns = true -> columns <> [] ->
  exists l,
    recommend_charts_from_data columns ts = Ok l
    /\ info_check (count_of_type "numeric" columns)
                  (count_of_type "categorical" columns)
                  (count_of_type "date" columns) ts l = true.
Proof.
  intros Hr Hne. apply recommend_by_shape; [|assumption..].
  intros. apply info_checked.
Qed.

Lemma info_expected_iff (n c d : nat) (ts : bool) :
  info_expected n c d ts = true
  <-> c = 0 /\ (n = 0 \/ (n = 1 /\ ts = false /\ d = 0)).
Proof.
  unfold info_expected.
  rewrite !andb_true_iff, orb_true_iff, !andb_true_iff, negb_true_iff,
    !Nat.eqb_eq.
  tauto.
Qed.

(** X7. The info entry is added exactly when there is no categorical column
    and either no numeric column, or one numeric column with neither the
    time-series flag nor a date column; it is then the last entry, and the
    only one of priority info. *)
Theorem recommend_info_entry_iff (columns : list column) (ts : bool) :
  forallb readable columns = true -> columns <> [] ->
  let n := count_of_type "numeric" columns in
  let c := count_of_type "categorical" columns in
  let d := count_of_type "date" columns in
  exists l,
    recommend_charts_from_data columns ts = Ok l
    /\ ((exists r, In r l /\ r_priority r = "info")
        <-> c = 0 /\ (n = 0 \/ (n = 1 /\ ts = false /\ d = 0)))
    /\ ((exists r, In r l /\ r_priority r = "info") ->
        exists l' r, l = l' ++ [r] /\ r_priority r = "info"
                     /\ forall r', In r' l' -> r_priority r' <> "info").
Proof.
  intros Hr Hne n c d.
  destruct (recommend_info columns ts Hr Hne) as (l & Hl & Hc).
  exists l. split; [exact Hl|]. fold n c d in Hc.
  unfold info_check in Hc. apply andb_true_iff in Hc as [Hc _].
  apply andb_true_iff in Hc as [Hiff Hlast]. apply eqb_prop in Hiff.
  assert (Hex : (exists r, In r l /\ r_priority r = "info")
                <-> existsb (has_priority "info") l = true).
  { rewrite existsb_exists. unfold has_priority.
    split; intros (r & Hin & Hp); exists r; (split; [exact Hin|]);
      now apply String.eqb_eq. }
  split; [now rewrite Hex, Hiff, info_expected_iff|].
  intros Hinfo. apply Hex in Hinfo. rewrite Hiff in Hinfo.
  rewrite Hinfo in Hlast. cbn [implb] in Hlast.
  apply andb_true_iff in Hlast as [Hlast Hone]. apply Nat.eqb_eq in Hone.
  unfold last_is_info in Hlast.
  destruct (rev l) as [|r l'] eqn:Hrev; [discriminate|].
  apply (f_equal (@rev _)) in Hrev. rewrite rev_involutive in Hrev.
  simpl in Hrev. subst l. exists (rev l'), r.
  split; [reflexivity|]. unfold has_priority in Hlast.
  apply String.eqb_eq in Hlast. split; [exact Hlast|].
  intros r' Hin Hp. rewrite filter_app, length_app in Hone.
  simpl in Hone. unfold has_priority at 2 in Hone.
  rewrite Hlast in Hone. simpl in Hone.
  assert (Hin' : In r' (filter (has_priority "info") (rev l'))).
  { apply filter_In. split; [exact Hin|]. unfold has_priority.
    now apply String.eqb_eq. }
  destruct (filter (has_priority "info") (rev l')); [destruct Hin'|].
  simpl in Hone. lia.
Qed.

Lemma recommend_info_entry_iff_witness :
  let columns := [col "numeric" "price"; col "boolean" "sold"] in
  let n := count_of_type "numeric" columns in
  let c := count_of_type "categorical" columns in
  let d := count_of_type "date" columns in
  exists l,
    recommend_charts_from_data columns false = Ok l
    /\ ((exists r, In r l /\ r_priority r = "info")
        <-> c = 0 /\ (n = 0 \/ (n = 1 /\ false = false /\ d = 0)))
    /\ ((exists r, In r l /\ r_priority r = "info") ->
        exists l' r, l = l' ++ [r] /\ r_priority r = "info"
                     /\ forall r', In r' l' -> r_priority r' <> "info").
Proof.
  apply (recommend_info_entry_iff
           [col "numeric" "price"; col "boolean" "sold"] false);
    [reflexivity | discriminate].
Defined.

(** X8. The line chart heads the result exactly when the time-series block
    fires: with the flag, or with a date column. *)
Theorem recommend_line_first_iff (columns : list column) (ts : bool) :
  forallb readable columns = true -> columns <> [] ->
  exists l,
    recommend_charts_from_data columns ts = Ok l
    /\ ((exists r rest, l = r :: rest /\ r_type r = "line")
        <-> ts = true \/ 1 <= count_of_type "date" columns).
Proof.
  intros Hr Hne. destruct (recommend_info columns ts Hr Hne) as (l & Hl & Hc).
  exists l. split; [exact Hl|].
  unfold info_check in Hc. apply andb_true_iff in Hc as [_ Hc].
  apply eqb_prop in Hc.
  assert (Hfirst : (exists r rest, l = r :: rest /\ r_type r = "line")
                   <-> first_is "line" l = true).
  { unfold first_is. destruct l as [|r rest].
    - split; [intros (r & rest & H & _)|]; discriminate.
    - rewrite String.eqb_eq. split.
      + now intros (r' & rest' & [= <- <-] & Ht).
      + intros Ht. now exists r, rest. }
  rewrite Hfirst, Hc, orb_true_iff, Nat.ltb_lt. reflexivity.
Qed.

Lemma recommend_line_first_iff_witness :
  let columns := [col "categorical" "brand"; col "date" "sold_on"] in
  exists l,
    recommend_charts_from_data columns false = Ok l
    /\ ((exists r rest, l = r :: rest /\ r_type r = "line")
        <-> false = true \/ 1 <= count_of_type "date" columns).
Proof.
  apply (recommend_line_first_iff
           [col "categorical" "brand"; col "date" "sold_on"] false);
    [reflexivity | discriminate].
Defined.

(** ** What the entries bind: every block keeps the invariant *)

Lemma idx_nth_error {A : Type} (l : list A) (i : nat) (x : A) :
  idx l i = Ok x -> nth_error l i = Some x.
Proof. unfold idx. destruct (nth_error l i); [now intros [= ->]|discriminate]. Qed.

Lemma second_categorical_nth (cn : list string) :
  second_categorical cn (length cn) = Ok (nth_error cn 1).
Proof. destruct cn as [|a [|b cn]]; reflexivity. Qed.

Lemma third_categorical_nth (cn : list string) :
  third_categorical cn (length cn) = Ok (nth_error cn 2).
Proof. destruct cn as [|a [|b [|c cn]]]; reflexivity. Qed.

Lemma nth_error_firstn_In {A : Type} (l : list A) (i k : nat) (x : A) :
  nth_error l i = Some x -> i < k -> In x (firstn k l).
Proof.
  revert i k. induction l as [|a l IH]; intros [|i] [|k] H Hk;
    try discriminate; try lia; simpl in *.
  - left. now injection H.
  - right. apply (IH i); [exact H | lia].
Qed.

Lemma firstn_incl' {A : Type} (k : nat) (l : list A) : incl (firstn k l) l.
Proof.
  revert k. induction l as [|a l IH]; intros [|k]; simpl; intros y Hy;
    try contradiction.
  destruct Hy as [<-|Hy]; [now left | right; now apply (IH k)].
Qed.

Lemma score_cols_or_numeric_incl (nn : list string) (k : nat) :
  incl (score_cols_or_numeric nn k) nn.
Proof.
  unfold score_cols_or_numeric. destruct (score_cols nn) eqn:E.
  - apply firstn_incl'.
  - rewrite <- E. intros x Hx. apply firstn_incl' in Hx.
    unfold score_cols in Hx. now apply filter_In in Hx.
Qed.

Lemma numeric_allowed (nn cn dn : list string) : incl nn ("count" :: nn ++ cn ++ dn).
Proof. intros x H. right. apply in_or_app. now left. Qed.

Lemma categorical_allowed (nn cn dn : list string) : incl cn ("count" :: nn ++ cn ++ dn).
Proof. intros x H. right. apply in_or_app. right. apply in_or_app. now left. Qed.

Lemma date_allowed (nn cn dn : list string) : incl dn ("count" :: nn ++ cn ++ dn).
Proof. intros x H. right. apply in_or_app. right. apply in_or_app. now right. Qed.

Lemma value_ok_none (nn cn dn : list string) : value_ok nn cn dn VNone.
Proof. split; [intros x []|discriminate]. Qed.

Lemma value_ok_list (nn cn dn : list string) (l : list string) :
  incl l ("count" :: nn ++ cn ++ dn) -> value_ok nn cn dn (VList l).
Proof. intros H. split; [exact H|discriminate]. Qed.

Lemma value_ok_numeric (nn cn dn : list string) (i : nat) (x : string) :
  nth_error nn i = Some x -> i < 4 -> value_ok nn cn dn (VStr x).
Proof.
  intros H Hi. split.
  - intros y [<-|[]]. apply numeric_allowed. eapply nth_error_In, H.
  - intros y [= <-]. right. apply in_or_app. left.
    eapply nth_error_firstn_In; eassumption.
Qed.

Lemma value_ok_categorical (nn cn dn : list string) (i : nat) (x : string) :
  nth_error cn i = Some x -> i < 3 -> value_ok nn cn dn (VStr x).
Proof.
  intros H Hi. split.
  - intros y [<-|[]]. apply categorical_allowed. eapply nth_error_In, H.
  - intros y [= <-]. right. apply in_or_app. right. apply in_or_app. left.
    eapply nth_error_firstn_In; eassumption.
Qed.

Lemma value_ok_date (nn cn dn : list string) (x : string) :
  nth_error dn 0 = Some x -> value_ok nn cn dn (VStr x).
Proof.
  intros H. split.
  - intros y [<-|[]]. apply date_allowed. eapply nth_error_In, H.
  - intros y [= <-]. right. apply in_or_app. right. apply in_or_app. right.
    eapply nth_error_firstn_In; [eassumption|lia].
Qed.

Lemma value_ok_count (nn cn dn : list string) : value_ok nn cn dn (VStr "count").
Proof. split; [intros y [<-|[]]|intros y [= <-]]; now left. Qed.

Lemma value_ok_nth_numeric (nn cn dn : list string) (i : nat) :
  i < 4 -> value_ok nn cn dn (of_opt (nth_error nn i)).
Proof.
  intros Hi. destruct (nth_error nn i) eqn:E; simpl;
    [eapply value_ok_numeric; eassumption | apply value_ok_none].
Qed.

Lemma value_ok_nth_categorical (nn cn dn : list string) (i : nat) :
  i < 3 -> value_ok nn cn dn (of_opt (nth_error cn i)).
Proof.
  intros Hi. destruct (nth_error cn i) eqn:E; simpl;
    [eapply value_ok_categorical; eassumption | apply value_ok_none].
Qed.

Lemma value_ok_first_numeric (nn cn dn : list string) :
  value_ok nn cn dn (first_or_none nn).
Proof. unfold first_or_none. rewrite <- nth_error_0. apply value_ok_nth_numeric; lia. Qed.

Lemma value_ok_first_categorical (nn cn dn : list string) :
  value_ok nn cn dn (first_or_none cn).
Proof.
  unfold first_or_none. rewrite <- nth_error_0. apply value_ok_nth_categorical; lia.
Qed.

Lemma value_ok_first_date (nn cn dn : list string) :
  value_ok nn cn dn (first_or_none dn).
Proof.
  unfold first_or_none. rewrite <- nth_error_0.
  destruct (nth_error dn 0) eqn:E; simpl;
    [now apply value_ok_date | apply value_ok_none].
Qed.

Lemma value_ok_first_numeric_or_count (nn cn dn : list string) :
  value_ok nn cn dn (first_numeric_or_count nn).
Proof.
  unfold first_numeric_or_count. destruct nn as [|a l] eqn:E; simpl.
  - apply value_ok_count.
  - rewrite <- E. apply (value_ok_numeric _ _ _ 0); [now rewrite E | lia].
Qed.

Lemma value_ok_nth_or_none (nn cn dn : list string) (i : nat) :
  i < 4 -> value_ok nn cn dn (nth_or_none nn i).
Proof.
  intros Hi. unfold nth_or_none. destruct (i <? length nn);
    [apply value_ok_nth_numeric; lia | apply value_ok_none].
Qed.

Lemma value_ok_first_categorical_or_date (nn cn dn : list string) :
  value_ok nn cn dn (first_categorical_or_date cn dn).
Proof.
  unfold first_categorical_or_date. destruct cn as [|a l] eqn:E.
  - rewrite <- E. apply value_ok_first_date.
  - rewrite <- E. apply (value_ok_categorical _ _ _ 0); [now rewrite E | lia].
Qed.


Lemma entry_ok_intro (nn cn dn : list string) (r : recommendation) :
  Forall (fun kv => value_ok nn cn dn (snd kv)) (r_variables r) ->
  options_complete nn cn dn r ->
  bindings_by_chart nn cn dn r ->
  entry_ok nn cn dn r.
Proof.
  intros Hv Ho Hb. unfold entry_ok, names_from_input, defaults_positional.
  split; [|split; [exact Ho|split; [|exact Hb]]];
    (eapply Forall_impl; [|exact Hv]); now intros kv [H1 H2].
Qed.

Ltac ok_incl :=
  first [ apply numeric_allowed
        | apply categorical_allowed
        | apply date_allowed
        | eapply incl_tran; [apply firstn_incl' | apply numeric_allowed]
        | eapply incl_tran;
          [apply score_cols_or_numeric_incl | apply numeric_allowed]
        | apply incl_cons; [now left | apply numeric_allowed]
        | apply incl_app; [apply categorical_allowed | apply date_allowed] ].

Ltac ok_value :=
  first [ apply value_ok_none
        | apply value_ok_first_numeric
        | apply value_ok_first_categorical
        | apply value_ok_first_date
        | apply value_ok_first_numeric_or_count
        | apply value_ok_first_categorical_or_date
        | eapply value_ok_numeric; [eassumption | lia]
        | eapply value_ok_categorical; [eassumption | lia]
        | apply value_ok_nth_categorical; lia
        | apply value_ok_nth_or_none; lia
        | apply value_ok_list; ok_incl ].

Ltac ok_option :=
  first [ left; reflexivity
        | right; left; reflexivity
        | right; right; left; reflexivity
        | right; right; right; left; reflexivity ].

Ltac ok_entry :=
  apply entry_ok_intro;
  [ cbv beta iota delta [r_variables];
    repeat (apply Forall_cons;
            [cbv beta iota delta [snd]; try match goal with
                 | |- context [of_opt (hd_error ?l)] =>
                     change (of_opt (hd_error l)) with (first_or_none l)
                 end;
             ok_value|]);
    apply Forall_nil
  | unfold options_complete; cbv beta iota delta [r_variables];
    repeat (apply Forall_cons;
            [cbv beta iota delta [fst snd]; intros Hk; vm_compute in Hk;
             first [discriminate Hk | ok_option]|]);
    apply Forall_nil
  | unfold bindings_by_chart; cbv beta iota delta [r_type r_variables];
    repeat apply conj; intros Ht;
    try discriminate Ht;
    try (cbv beta iota delta [In] in Ht; intuition discriminate);
    repeat apply conj; unfold nth_value, first_or_none;
    repeat match goal with
           | H : nth_error _ _ = Some _ |- _ => rewrite H
           end;
    reflexivity ].

Lemma Ok_inj {A : Type} (a b : A) : Ok a = Ok b -> a = b.
Proof. now intros [= ->]. Qed.

Lemma bind_Ok {A B : Type} (a : A) (k : A -> res B) : bind (Ok a) k = k a.
Proof. reflexivity. Qed.

Lemma bind_Raise {A B : Type} (e : exn) (k : A -> res B) :
  bind (Raise e) k = Raise e.
Proof. reflexivity. Qed.

(** From [B ... r = Ok r'] and the invariant on [r] to the invariant on
    [r'], for any rule block [B]. *)
Ltac ok_block E :=
  unfold distribution_charts, time_series_charts, correlation_charts,
    categorical_charts, categorical_numeric_charts, advanced_charts,
    density_chart, ridgeline_chart, treemap_chart, sunburst_chart,
    waterfall_chart, funnel_chart, candlestick_chart, scatter_3d_chart in E;
  rewrite ?second_categorical_nth, ?third_categorical_nth in E;
  rewrite ?bind_Ok in E; cbv beta zeta in E;
  repeat (match type of E with
          | context [idx ?l ?i] =>
              let Hx := fresh "Hx" in
              destruct (idx l i) eqn:Hx; [apply idx_nth_error in Hx|]
          | context [if ?g then _ else _] => destruct g
          end;
          rewrite ?bind_Ok, ?bind_Raise in E; cbv beta in E;
          try discriminate E);
  apply Ok_inj in E; rewrite <- E; clear E;
  repeat match goal with
         | |- Forall _ (_ ++ _) => apply Forall_app; split
         end;
  try assumption;
  repeat (apply Forall_cons; [ok_entry|]); try apply Forall_nil.

Lemma emit_rules_entries_ok (nn cn dn : list string) (dc : list column)
  (ts : bool) (l : recs) :
  emit_rules nn cn dn (length nn) (length cn) dc ts = Ok l ->
  Forall (entry_ok nn cn dn) l.
Proof.
  unfold emit_rules. intros H.
  assert (H0 : Forall (entry_ok nn cn dn) []) by constructor.
  revert H0 H. generalize (@nil recommendation) as r0. intros r0 H0 H.
  repeat match type of H with
         | bind ?m _ = Ok _ =>
             let r := fresh "r" in
             let E := fresh "E" in
             let Hr := fresh "Hr" in
             destruct m as [r|] eqn:E;
             [|rewrite bind_Raise in H; discriminate H];
             rewrite bind_Ok in H; cbv beta in H;
             assert (Hr : Forall (entry_ok nn cn dn) r)
               by (clear H; ok_block E);
             try clear E
         end.
  ok_block H.
Qed.

Lemma rank_and_cap_In (n c : nat) (l : recs) (r : recommendation) :
  In r (rank_and_cap n c l) -> In r l \/ r = info_entry n c.
Proof.
  unfold rank_and_cap. intros Hin. apply firstn_incl' in Hin.
  assert (Hs : forall x, In x (sort_by_score_desc l) -> In x l)
    by (intros x; apply Permutation_in, sort_by_score_desc_perm).
  destruct (length (sort_by_score_desc l) <? 5); [|left; now apply Hs].
  apply in_app_or in Hin as [Hin|[<-|[]]]; [left; now apply Hs | now right].
Qed.

(** Every entry of the result other than the info entry satisfies the
    invariant of the blocks. *)
Lemma recommend_entries_ok (columns : list column) (ts : bool) :
  forallb readable columns = true -> columns <> [] ->
  exists nn cn dn l,
    names_of_type "numeric" columns = map Some nn
    /\ names_of_type "categorical" columns = map Some cn
    /\ names_of_type "date" columns = map Some dn
    /\ recommend_charts_from_data columns ts = Ok l
    /\ forall r, In r l -> r_type r <> "info" -> entry_ok nn cn dn r.
Proof.
  intros Hr Hne.
  destruct (recommend_readable_names columns ts Hr Hne)
    as (nn & cn & dn & dc & Heq & Hn & Hc & Hd & _).
  unfold pipeline in Heq.
  destruct (emit_rules nn cn dn (length nn) (length cn) dc ts)
    as [emitted|e] eqn:He.
  - exists nn, cn, dn, (rank_and_cap (length nn) (length cn) emitted).
    split; [exact Hn|]. split; [exact Hc|]. split; [exact Hd|].
    split; [exact Heq|].
    intros r Hin Hty. apply rank_and_cap_In in Hin as [Hin| ->].
    + apply emit_rules_entries_ok in He. rewrite Forall_forall in He.
      now apply He.
    + now contradiction Hty.
  - exfalso. pose proof (emit_rules_checked nn cn dn dc ts) as Hchk.
    now rewrite He in Hchk.
Qed.

Lemma bucket_name (t : string) (columns : list column) (names : list string)
  (x : string) :
  names_of_type t columns = map Some names -> In x names ->
  exists c, In c columns /\ type_is t c = true /\ c_name c = Some x.
Proof.
  intros Heq Hin. apply (in_map Some) in Hin. rewrite <- Heq in Hin.
  unfold names_of_type in Hin. apply in_map_iff in Hin as (c & Hc & Hin).
  apply filter_In in Hin as [Hin Hty]. now exists c.
Qed.

Lemma recommend_entries_guarded (columns : list column) (ts : bool) :
  forallb readable columns = true ->
  exists nn cn dn l,
    names_of_type "numeric" columns = map Some nn
    /\ names_of_type "categorical" columns = map Some cn
    /\ names_of_type "date" columns = map Some dn
    /\ recommend_charts_from_data columns ts = Ok l
    /\ forall r, In r l -> r_type r <> "info" ->
         entry_ok nn cn dn r
         /\ (r_type r <> "error" ->
             exists d, rule_guard (r_type r) (length nn) (length cn) d ts = true).
Proof.
  intros Hr. destruct columns as [|c0 columns].
  { exists [], [], [], [error_entry]. do 4 (split; [reflexivity|]).
    intros r [<-|[]] _. split; [|now intros []].
    unfold entry_ok, names_from_input, options_complete, defaults_positional,
      bindings_by_chart.
    cbv beta iota zeta delta [error_entry r_variables r_type].
    repeat apply conj;
      first [ apply Forall_nil
            | intros Ht;
              first [ discriminate Ht
                    | cbv beta iota delta [In] in Ht; intuition discriminate ] ]. }
  assert (Hne : c0 :: columns <> []) by discriminate.
  destruct (recommend_entries_ok _ ts Hr Hne)
    as (nn & cn & dn & l & Hn & Hc & Hd & Hl & Hok).
  exists nn, cn, dn, l. repeat (split; [assumption|]).
  intros r Hin Hty. split; [now apply Hok|]. intros _.
  destruct (recommend_by_shape guards_check _ ts
              ltac:(intros; apply guards_checked) Hr Hne) as (l' & Hl' & Hg).
  rewrite Hl in Hl'. apply Ok_inj in Hl'. subst l'.
  exists (count_of_type "date" (c0 :: columns)).
  apply (f_equal (@length _)) in Hn, Hc. rewrite !length_map in Hn, Hc.
  rewrite <- Hn, <- Hc, <- !names_of_type_length.
  change (length (filter (type_is "numeric") (c0 :: columns)))
    with (count_of_type "numeric" (c0 :: columns)).
  change (length (filter (type_is "categorical") (c0 :: columns)))
    with (count_of_type "categorical" (c0 :: columns)).
  unfold guards_check in Hg. apply andb_true_iff in Hg as [Hg Ht].
  rewrite forallb_forall in Hg, Ht. specialize (Ht r Hin).
  apply existsb_exists in Ht as (t & Hint & Heq). apply String.eqb_eq in Heq.
  subst t.
  assert (Hct : In (r_type r) chart_types).
  { unfold chart_types. change emission_order with (chart_types ++ ["info"]) in Hint.
    apply in_app_or in Hint as [Hint|[Hint|[]]]; [exact Hint|].
    now contradiction Hty. }
  specialize (Hg _ Hct).
  assert (Hh : has_chart (r_type r) l = true)
    by (apply has_chart_iff; now exists r).
  rewrite Hh in Hg.
  destruct (existsb (String.eqb (r_type r)) low_scored);
    [exact Hg | now apply eqb_prop in Hg].
Qed.

(** ** What the entries bind *)

(** X9. Every column name in the variables of a recommendation is ["count"]
    or the name of a numeric, categorical or date column of the profile
    list: no recommendation names a column the dataset does not have. *)
Theorem recommend_binds_input_columns (columns : list column) (ts : bool) :
  forallb readable columns = true ->
  exists l,
    recommend_charts_from_data columns ts = Ok l
    /\ forall r k v x,
         In r l -> r_type r <> "info" ->
         In (k, v) (r_variables r) -> In x (value_names v) ->
         x = "count"
         \/ exists c, In c columns /\ in_bucket c = true /\ c_name c = Some x.
Proof.
  intros Hr.
  destruct (recommend_entries_guarded columns ts Hr)
    as (nn & cn & dn & l & Hn & Hc & Hd & Hl & Hok).
  exists l. split; [exact Hl|]. intros r k v x Hin Hty Hkv Hx.
  destruct (Hok r Hin Hty) as [(Hnames & _) _].
  unfold names_from_input in Hnames. rewrite Forall_forall in Hnames.
  specialize (Hnames _ Hkv x Hx). destruct Hnames as [<-|Hin']; [now left|].
  right. unfold in_bucket.
  apply in_app_or in Hin' as [Hin'|Hin'];
    [|apply in_app_or in Hin' as [Hin'|Hin']].
  - destruct (bucket_name _ _ _ _ Hn Hin') as (c & Hcin & Ht & Hname).
    exists c. now rewrite Ht.
  - destruct (bucket_name _ _ _ _ Hc Hin') as (c & Hcin & Ht & Hname).
    exists c. rewrite Ht, orb_true_r. now split.
  - destruct (bucket_name _ _ _ _ Hd Hin') as (c & Hcin & Ht & Hname).
    exists c. rewrite Ht, orb_true_r. now split.
Qed.

Lemma recommend_binds_input_columns_witness :
  let columns := [col "numeric" "price"; col "categorical" "brand";
                  col "boolean" "sold"] in
  forallb readable columns = true
  /\ exists l,
       recommend_charts_from_data columns true = Ok l
       /\ forall r k v x,
            In r l -> r_type r <> "info" ->
            In (k, v) (r_variables r) -> In x (value_names v) ->
            x = "count"
            \/ exists c, In c columns /\ in_bucket c = true /\ c_name c = Some x.
Proof.
  split; [reflexivity|].
  apply (recommend_binds_input_columns
           [col "numeric" "price"; col "categorical" "brand";
            col "boolean" "sold"] true).
  reflexivity.
Defined.

(** X10. Every list of alternatives ([*_options], [options]) is a whole bucket:
    all numeric names, all categorical names, ["count"] followed by all
    numeric names, or all categorical names followed by all date names;
    it never depends on which column was chosen as the default. *)
Theorem recommend_options_are_whole_buckets (columns : list column) (ts : bool) :
  forallb readable columns = true ->
  exists nn cn dn l,
    names_of_type "numeric" columns = map Some nn
    /\ names_of_type "categorical" columns = map Some cn
    /\ names_of_type "date" columns = map Some dn
    /\ recommend_charts_from_data columns ts = Ok l
    /\ forall r k v,
         In r l -> r_type r <> "info" ->
         In (k, v) (r_variables r) -> ends_with "options" k = true ->
         v = VList nn \/ v = VList cn \/ v = VList ("count" :: nn)
         \/ v = VList (cn ++ dn).
Proof.
  intros Hr.
  destruct (recommend_entries_guarded columns ts Hr)
    as (nn & cn & dn & l & Hn & Hc & Hd & Hl & Hok).
  exists nn, cn, dn, l. repeat (split; [assumption|]).
  intros r k v Hin Hty Hkv Hk.
  destruct (Hok r Hin Hty) as [(_ & Hopt & _) _].
  unfold options_complete in Hopt. rewrite Forall_forall in Hopt.
  specialize (Hopt _ Hkv Hk). simpl in Hopt.
  destruct Hopt as [<-|[<-|[<-|[<-|[]]]]]; tauto.
Qed.

Lemma recommend_options_are_whole_buckets_witness :
  let columns := [col "numeric" "price"; col "categorical" "brand";
                  col "date" "sold_on"; col "numeric" "cost"] in
  forallb readable columns = true
  /\ exists nn cn dn l,
       names_of_type "numeric" columns = map Some nn
       /\ names_of_type "categorical" columns = map Some cn
       /\ names_of_type "date" columns = map Some dn
       /\ recommend_charts_from_data columns false = Ok l
       /\ forall r k v,
            In r l -> r_type r <> "info" ->
            In (k, v) (r_variables r) -> ends_with "options" k = true ->
            v = VList nn \/ v = VList cn \/ v = VList ("count" :: nn)
            \/ v = VList (cn ++ dn).
Proof.
  split; [reflexivity|].
  apply (recommend_options_are_whole_buckets
           [col "numeric" "price"; col "categorical" "brand";
            col "date" "sold_on"; col "numeric" "cost"] false).
  reflexivity.
Defined.

(** X11. A single column bound to a role is always a leading one: ["count"],
    one of the first four numeric columns, one of the first three
    categorical columns, or the first date column. *)
Theorem recommend_defaults_are_leading_columns
  (columns : list column) (ts : bool) :
  forallb readable columns = true ->
  exists nn cn dn l,
    names_of_type "numeric" columns = map Some nn
    /\ names_of_type "categorical" columns = map Some cn
    /\ names_of_type "date" columns = map Some dn
    /\ recommend_charts_from_data columns ts = Ok l
    /\ forall r k x,
         In r l -> r_type r <> "info" -> In (k, VStr x) (r_variables r) ->
         x = "count" \/ In x (firstn 4 nn) \/ In x (firstn 3 cn)
         \/ In x (firstn 1 dn).
Proof.
  intros Hr.
  destruct (recommend_entries_guarded columns ts Hr)
    as (nn & cn & dn & l & Hn & Hc & Hd & Hl & Hok).
  exists nn, cn, dn, l. repeat (split; [assumption|]).
  intros r k x Hin Hty Hkv.
  destruct (Hok r Hin Hty) as [(_ & _ & Hpos & _) _].
  unfold defaults_positional in Hpos. rewrite Forall_forall in Hpos.
  specialize (Hpos _ Hkv x eq_refl).
  destruct Hpos as [<-|Hpos]; [now left|right].
  apply in_app_or in Hpos as [Hpos|Hpos]; [now left|right].
  now apply in_app_or in Hpos.
Qed.

Lemma recommend_defaults_are_leading_columns_witness :
  let columns := map (col "numeric") ["a"; "b"; "c"; "d"; "e"; "f"] in
  forallb readable columns = true
  /\ exists nn cn dn l,
       names_of_type "numeric" columns = map Some nn
       /\ names_of_type "categorical" columns = map Some cn
       /\ names_of_type "date" columns = map Some dn
       /\ recommend_charts_from_data columns true = Ok l
       /\ forall r k x,
            In r l -> r_type r <> "info" -> In (k, VStr x) (r_variables r) ->
            x = "count" \/ In x (firstn 4 nn) \/ In x (firstn 3 cn)
            \/ In x (firstn 1 dn).
Proof.
  split; [reflexivity|].
  apply (recommend_defaults_are_leading_columns
           (map (col "numeric") ["a"; "b"; "c"; "d"; "e"; "f"]) true).
  reflexivity.
Defined.

(** X12. The scatter plot is bound to the first two numeric columns, and the
    bubble chart to the first three. *)
Theorem recommend_scatter_bubble_bindings (columns : list column) (ts : bool) :
  forallb readable columns = true ->
  exists nn l,
    names_of_type "numeric" columns = map Some nn
    /\ recommend_charts_from_data columns ts = Ok l
    /\ (forall r, In r l -> r_type r = "scatter" ->
          exists x0 x1 rest,
            nn = (x0 :: x1 :: rest)
            /\ lookup "x_axis" (r_variables r) = Some (VStr x0)
            /\ lookup "y_axis" (r_variables r) = Some (VStr x1))
    /\ (forall r, In r l -> r_type r = "bubble" ->
          exists x0 x1 x2 rest,
            nn = (x0 :: x1 :: x2 :: rest)
            /\ lookup "x_axis" (r_variables r) = Some (VStr x0)
            /\ lookup "y_axis" (r_variables r) = Some (VStr x1)
            /\ lookup "size" (r_variables r) = Some (VStr x2)).
Proof.
  intros Hr.
  destruct (recommend_entries_guarded columns ts Hr)
    as (nn & cn & dn & l & Hn & _ & _ & Hl & Hok).
  exists nn, l. split; [exact Hn|]. split; [exact Hl|].
  split; intros r Hin Hty;
    (destruct (Hok r Hin) as [(_ & _ & _ & Hb) Hg]; [now rewrite Hty|]);
    (destruct Hg as [d Hg]; [now rewrite Hty|]); rewrite Hty in Hg.
  - change ((2 <=? length nn) = true) in Hg.
    destruct Hb as (_ & Hb & _). specialize (Hb Hty).
    destruct nn as [|x0 [|x1 rest]]; try discriminate Hg.
    now exists x0, x1, rest.
  - change ((3 <=? length nn) = true) in Hg.
    destruct Hb as (_ & _ & Hb & _). specialize (Hb Hty).
    destruct nn as [|x0 [|x1 [|x2 rest]]]; try discriminate Hg.
    now exists x0, x1, x2, rest.
Qed.

Lemma recommend_scatter_bubble_bindings_witness :
  let columns := [col "numeric" "revenue"; col "categorical" "region";
                  col "numeric" "cost"; col "numeric" "profit"] in
  forallb readable columns = true
  /\ exists nn l,
       names_of_type "numeric" columns = map Some nn
       /\ recommend_charts_from_data columns false = Ok l
       /\ (forall r, In r l -> r_type r = "scatter" ->
             exists x0 x1 rest,
               nn = (x0 :: x1 :: rest)
               /\ lookup "x_axis" (r_variables r) = Some (VStr x0)
               /\ lookup "y_axis" (r_variables r) = Some (VStr x1))
       /\ (forall r, In r l -> r_type r = "bubble" ->
             exists x0 x1 x2 rest,
               nn = (x0 :: x1 :: x2 :: rest)
               /\ lookup "x_axis" (r_variables r) = Some (VStr x0)
               /\ lookup "y_axis" (r_variables r) = Some (VStr x1)
               /\ lookup "size" (r_variables r) = Some (VStr x2)).
Proof.
  split; [reflexivity|].
  apply (recommend_scatter_bubble_bindings
           [col "numeric" "revenue"; col "categorical" "region";
            col "numeric" "cost"; col "numeric" "profit"] false).
  reflexivity.
Defined.

(** X13. The radar chart prefers the numeric columns whose lower-cased name
    contains "score" or "rating": its metrics are the first six of them
    when there is one, and the first six numeric columns otherwise. *)
Theorem recommend_radar_prefers_scores (columns : list column) (ts : bool) :
  forallb readable columns = true ->
  exists nn l,
    names_of_type "numeric" columns = map Some nn
    /\ recommend_charts_from_data columns ts = Ok l
    /\ forall r, In r l -> r_type r = "radar" ->
         (score_cols nn = [] ->
          lookup "metrics" (r_variables r) = Some (VList (firstn 6 nn)))
         /\ (score_cols nn <> [] ->
             lookup "metrics" (r_variables r)
             = Some (VList (firstn 6 (score_cols nn)))).
Proof.
  intros Hr.
  destruct (recommend_entries_guarded columns ts Hr)
    as (nn & cn & dn & l & Hn & _ & _ & Hl & Hok).
  exists nn, l. split; [exact Hn|]. split; [exact Hl|].
  intros r Hin Hty.
  destruct (Hok r Hin) as [(_ & _ & _ & Hb) _]; [now rewrite Hty|].
  destruct Hb as (_ & _ & _ & Hb & _). rewrite (Hb Hty).
  unfold score_cols_or_numeric.
  destruct (score_cols nn); split; congruence.
Qed.

Lemma recommend_radar_prefers_scores_witness :
  let columns := map (col "numeric") ["age"; "Test_Score"; "height"; "RATING"] in
  forallb readable columns = true
  /\ score_cols ["age"; "Test_Score"; "height"; "RATING"]
     = ["Test_Score"; "RATING"]
  /\ exists nn l,
       names_of_type "numeric" columns = map Some nn
       /\ recommend_charts_from_data columns false = Ok l
       /\ forall r, In r l -> r_type r = "radar" ->
            (score_cols nn = [] ->
             lookup "metrics" (r_variables r) = Some (VList (firstn 6 nn)))
            /\ (score_cols nn <> [] ->
                lookup "metrics" (r_variables r)
                = Some (VList (firstn 6 (score_cols nn)))).
Proof.
  split; [reflexivity|]. split; [reflexivity|].
  apply (recommend_radar_prefers_scores
           (map (col "numeric") ["age"; "Test_Score"; "height"; "RATING"]) false).
  reflexivity.
Defined.

(** X14. The treemap takes the first categorical column as category and the
    second, if any, as subcategory; the sunburst takes the first two as
    levels 1 and 2 and the third, if any, as level 3; the value of both is
    the first numeric column, or ["count"] without one. *)
Theorem recommend_hierarchy_bindings (columns : list column) (ts : bool) :
  forallb readable columns = true ->
  exists nn cn l,
    names_of_type "numeric" columns = map Some nn
    /\ names_of_type "categorical" columns = map Some cn
    /\ recommend_charts_from_data columns ts = Ok l
    /\ (forall r, In r l -> r_type r = "treemap" ->
          exists c0 rest,
            cn = (c0 :: rest)
            /\ lookup "category" (r_variables r) = Some (VStr c0)
            /\ lookup "subcategory" (r_variables r) = Some (of_opt (hd_error rest))
            /\ lookup "value" (r_variables r) = Some (VStr (hd "count" nn)))
    /\ (forall r, In r l -> r_type r = "sunburst" ->
          exists c0 c1 rest,
            cn = (c0 :: c1 :: rest)
            /\ lookup "level1" (r_variables r) = Some (VStr c0)
            /\ lookup "level2" (r_variables r) = Some (VStr c1)
            /\ lookup "level3" (r_variables r) = Some (of_opt (hd_error rest))
            /\ lookup "value" (r_variables r) = Some (VStr (hd "count" nn))).
Proof.
  intros Hr.
  destruct (recommend_entries_guarded columns ts Hr)
    as (nn & cn & dn & l & Hn & Hc & _ & Hl & Hok).
  exists nn, cn, l. split; [exact Hn|]. split; [exact Hc|]. split; [exact Hl|].
  split; intros r Hin Hty;
    (destruct (Hok r Hin) as [(_ & _ & _ & Hb) Hg]; [now rewrite Hty|]);
    (destruct Hg as [d Hg]; [now rewrite Hty|]); rewrite Hty in Hg.
  - change ((1 <=? length cn) = true) in Hg.
    destruct Hb as (_ & _ & _ & _ & _ & Hb). specialize (Hb Hty).
    destruct cn as [|c0 rest]; try discriminate Hg.
    exists c0, rest. split; [reflexivity|].
    destruct rest; exact Hb.
  - change ((2 <=? length cn) = true) in Hg.
    destruct Hb as (_ & _ & _ & _ & Hb & _). specialize (Hb Hty).
    destruct cn as [|c0 [|c1 rest]]; try discriminate Hg.
    exists c0, c1, rest. split; [reflexivity|].
    destruct rest; exact Hb.
Qed.

Lemma recommend_hierarchy_bindings_witness :
  let columns := [col "categorical" "region"; col "categorical" "product";
                  col "numeric" "revenue"] in
  forallb readable columns = true
  /\ exists nn cn l,
       names_of_type "numeric" columns = map Some nn
       /\ names_of_type "categorical" columns = map Some cn
       /\ recommend_charts_from_data columns false = Ok l
       /\ (forall r, In r l -> r_type r = "treemap" ->
             exists c0 rest,
               cn = (c0 :: rest)
               /\ lookup "category" (r_variables r) = Some (VStr c0)
               /\ lookup "subcategory" (r_variables r)
                  = Some (of_opt (hd_error rest))
               /\ lookup "value" (r_variables r) = Some (VStr (hd "count" nn)))
       /\ (forall r, In r l -> r_type r = "sunburst" ->
             exists c0 c1 rest,
               cn = (c0 :: c1 :: rest)
               /\ lookup "level1" (r_variables r) = Some (VStr c0)
               /\ lookup "level2" (r_variables r) = Some (VStr c1)
               /\ lookup "level3" (r_variables r) = Some (of_opt (hd_error rest))
               /\ lookup "value" (r_variables r) = Some (VStr (hd "count" nn))).
Proof.
  split; [reflexivity|].
  apply (recommend_hierarchy_bindings
           [col "categorical" "region"; col "categorical" "product";
            col "numeric" "revenue"] false).
  reflexivity.
Defined.

(** X15. The line, area and multi-line charts take the first date column as
    x axis, and have no x axis ([None]) when the time-series block fires on
    the flag alone, without a column of type date. *)
Theorem recommend_time_axis (columns : list column) (ts : bool) :
  forallb readable columns = true ->
  exists dn l,
    names_of_type "date" columns = map Some dn
    /\ recommend_charts_from_data columns ts = Ok l
    /\ forall r, In r l -> In (r_type r) ["line"; "area"; "multi-line"] ->
         lookup "x_axis" (r_variables r)
         = Some (match dn with d :: _ => VStr d | [] => VNone end).
Proof.
  intros Hr.
  destruct (recommend_entries_guarded columns ts Hr)
    as (nn & cn & dn & l & _ & _ & Hd & Hl & Hok).
  exists dn, l. split; [exact Hd|]. split; [exact Hl|].
  intros r Hin Hty.
  destruct (Hok r Hin) as [(_ & _ & _ & Hb) _].
  { intros E. rewrite E in Hty. simpl in Hty. intuition discriminate. }
  destruct Hb as (Hb & _). rewrite (Hb Hty). now destruct dn.
Qed.

Lemma recommend_time_axis_witness :
  let columns := [col "numeric" "year"; col "numeric" "sales"] in
  forallb readable columns = true
  /\ exists dn l,
       names_of_type "date" columns = map Some dn
       /\ recommend_charts_from_data columns true = Ok l
       /\ forall r, In r l -> In (r_type r) ["line"; "area"; "multi-line"] ->
            lookup "x_axis" (r_variables r)
            = Some (match dn with d :: _ => VStr d | [] => VNone end).
Proof.
  split; [reflexivity|].
  apply (recommend_time_axis
           [col "numeric" "year"; col "numeric" "sales"] true).
  reflexivity.
Defined.

(** * Further properties of the column profiler *)

Section ProfilerMore.

Context `{Pandas}.

Lemma nunique_bounds (values : list (option cell)) :
  (0 <= nunique values)%Z
  /\ (0 <= isna_sum values)%Z
  /\ (nunique values + isna_sum values <= Z.of_nat (length values))%Z.
Proof.
  unfold nunique, isna_sum.
  assert (Hn : forall l : list cell, length (nodup cell_eq_dec l) <= length l).
  { induction l as [|a l IH]; simpl; [lia|].
    destruct (in_dec cell_eq_dec a l); simpl; lia. }
  assert (Hp : length (present values) + length (filter is_missing values)
               = length values).
  { induction values as [|[v|] values IH]; simpl; lia. }
  specialize (Hn (present values)). lia.
Qed.

Lemma all_missing_counts (values : list (option cell)) :
  isna_all values = true ->
  nunique values = 0%Z /\ isna_sum values = Z.of_nat (length values).
Proof.
  unfold isna_all, nunique, isna_sum. intros Hna.
  assert (Hp : present values = [] /\ filter is_missing values = values).
  { induction values as [|[v|] values IH]; simpl in *; [tauto|discriminate|].
    destruct (IH Hna) as [-> ->]. tauto. }
  destruct Hp as [-> ->]. split; reflexivity.
Qed.

Lemma analyze_column_name (df : dataframe) (col_name : string)
  (p : column_profile) :
  analyze_column df col_name = Ok p -> p_name p = col_name.
Proof.
  unfold analyze_column. destruct (df_get df col_name) as [col|e]; [|discriminate].
  cbv beta iota delta [bind].
  destruct (is_numeric_dtype (s_dtype col)).
  { repeat match goal with
           | |- context [unless_all_missing ?v ?f] =>
               destruct (unless_all_missing v f); [|discriminate]
           end.
    now intros [= <-]. }
  destruct (is_datetime64_any_dtype (s_dtype col)).
  { repeat match goal with
           | |- context [unless_all_missing ?v ?f] =>
               destruct (unless_all_missing v f); [|discriminate]
           end.
    now intros [= <-]. }
  destruct (is_bool_dtype (s_dtype col)).
  { repeat match goal with
           | |- context [zero_if_all_missing ?v ?f] =>
               destruct (zero_if_all_missing v f); [|discriminate]
           end.
    now intros [= <-]. }
  now intros [= <-].
Qed.

(** X16. The type of a profile follows the dtype tests in the order numeric,
    datetime, boolean, with categorical as the default, so a dtype that
    passes the numeric test is numeric whatever the other tests say; and
    the type decides the shape of the summary: a numeric, date or boolean
    summary for those types, no summary for categorical, and a frequency
    table for no other type than categorical. *)
Theorem analyze_column_type_and_summary
  (df : dataframe) (col_name : string) (col : series) (p : column_profile) :
  df_get df col_name = Ok col ->
  analyze_column df col_name = Ok p ->
  p_type p =
    (if is_numeric_dtype (s_dtype col) then "numeric"
     else if is_datetime64_any_dtype (s_dtype col) then "date"
     else if is_bool_dtype (s_dtype col) then "boolean"
     else "categorical")
  /\ match p_summary p with
     | Some (NumericSummary _ _ _ _ _) => p_type p = "numeric"
     | Some (DateSummary _ _) => p_type p = "date"
     | Some (BooleanSummary _ _) => p_type p = "boolean"
     | None => p_type p = "categorical"
     end
  /\ (p_value_counts p <> None -> p_type p = "categorical").
Proof.
  intros Hget. unfold analyze_column. rewrite Hget.
  cbv beta iota delta [bind].
  destruct (is_numeric_dtype (s_dtype col)).
  { repeat match goal with
           | |- context [unless_all_missing ?v ?f] =>
               destruct (unless_all_missing v f); [|discriminate]
           end.
    intros [= <-]. simpl. repeat split. congruence. }
  destruct (is_datetime64_any_dtype (s_dtype col)).
  { repeat match goal with
           | |- context [unless_all_missing ?v ?f] =>
               destruct (unless_all_missing v f); [|discriminate]
           end.
    intros [= <-]. simpl. repeat split. congruence. }
  destruct (is_bool_dtype (s_dtype col)).
  { repeat match goal with
           | |- context [zero_if_all_missing ?v ?f] =>
               destruct (zero_if_all_missing v f); [|discriminate]
           end.
    intros [= <-]. simpl. repeat split. congruence. }
  intros [= <-]. simpl. repeat split.
Qed.

(** X17. The counts of a profile: unique_count and na_count are not negative
    and together do not exceed the number of rows; they do not depend on
    the dtype. *)
Theorem analyze_column_counts
  (df : dataframe) (col_name : string) (col : series) (p : column_profile) :
  df_get df col_name = Ok col ->
  analyze_column df col_name = Ok p ->
  p_unique_count p = nunique (s_values col)
  /\ p_na_count p = isna_sum (s_values col)
  /\ (0 <= p_unique_count p)%Z
  /\ (0 <= p_na_count p)%Z
  /\ (p_unique_count p + p_na_count p <= Z.of_nat (length (s_values col)))%Z.
Proof.
  intros Hget Hp.
  assert (Hc : p_unique_count p = nunique (s_values col)
               /\ p_na_count p = isna_sum (s_values col)).
  { revert Hp. unfold analyze_column. rewrite Hget.
    cbv beta iota delta [bind].
    destruct (is_numeric_dtype (s_dtype col));
      [|destruct (is_datetime64_any_dtype (s_dtype col));
        [|destruct (is_bool_dtype (s_dtype col))]];
      repeat match goal with
             | |- context [unless_all_missing ?v ?f] =>
                 destruct (unless_all_missing v f); [|discriminate]
             | |- context [zero_if_all_missing ?v ?f] =>
                 destruct (zero_if_all_missing v f); [|discriminate]
             end;
      intros [= <-]; split; reflexivity. }
  destruct Hc as [-> ->]. pose proof (nunique_bounds (s_values col)). tauto.
Qed.

(** X18. A column whose values are all missing is profiled without calling a
    reducer, whatever its dtype: the result has unique_count 0, na_count
    the number of rows, and null statistics (null date bounds, boolean
    counts 0). *)
Theorem analyze_column_all_missing
  (df : dataframe) (col_name : string) (col : series) :
  df_get df col_name = Ok col ->
  isna_all (s_values col) = true ->
  exists p,
    analyze_column df col_name = Ok p
    /\ p_unique_count p = 0%Z
    /\ p_na_count p = Z.of_nat (length (s_values col))
    /\ In (p_summary p)
          [Some (NumericSummary None None None None None);
           Some (DateSummary None None);
           Some (BooleanSummary 0 0);
           None].
Proof.
  intros Hget Hna. unfold analyze_column, unless_all_missing, zero_if_all_missing.
  rewrite Hget. cbv beta iota delta [bind]. rewrite Hna.
  destruct (all_missing_counts _ Hna) as [-> ->].
  destruct (is_numeric_dtype (s_dtype col));
    [|destruct (is_datetime64_any_dtype (s_dtype col));
      [|destruct (is_bool_dtype (s_dtype col))]];
    eexists; (split; [reflexivity|]); simpl; tauto.
Qed.

(** X19. A column label that the frame does not have raises KeyError. *)
Theorem analyze_column_missing_label (df : dataframe) (col_name : string) :
  ~ In col_name (map fst df) ->
  analyze_column df col_name = Raise (KeyError col_name).
Proof.
  intros Hnot. unfold analyze_column.
  assert (Hget : df_get df col_name = Raise (KeyError col_name)).
  { induction df as [|[label s] df IH]; simpl; [reflexivity|].
    destruct (String.eqb_spec label col_name) as [->|Hne].
    - exfalso. apply Hnot. now left.
    - apply IH. intros Hin. apply Hnot. now right. }
  now rewrite Hget.
Qed.

Lemma dict_set_get_same (d : list (string * Z)) (k : string) (v : Z) :
  table_get (dict_set d k v) k = Some v.
Proof.
  induction d as [|[k0 v0] d IH]; simpl.
  - now rewrite String.eqb_refl.
  - destruct (String.eqb k0 k) eqn:E; simpl; now rewrite E.
Qed.

Lemma dict_set_get_other (d : list (string * Z)) (k k' : string) (v : Z) :
  k' <> k -> table_get (dict_set d k v) k' = table_get d k'.
Proof.
  intros Hne. induction d as [|[k0 v0] d IH]; simpl.
  - destruct (String.eqb_spec k k'); [congruence|reflexivity].
  - destruct (String.eqb_spec k0 k) as [->|Hk]; simpl.
    + destruct (String.eqb_spec k k'); [congruence|reflexivity].
    + now rewrite IH.
Qed.

Lemma dict_set_nodup (d : list (string * Z)) (k : string) (v : Z) :
  NoDup (map fst d) -> NoDup (map fst (dict_set d k v)).
Proof.
  induction d as [|[k0 v0] d IH]; simpl; intros Hd.
  - repeat constructor. intros [].
  - inversion Hd as [|? ? Hnot Hd']; subst.
    destruct (String.eqb_spec k0 k) as [->|Hk]; simpl; constructor;
      try assumption; [|now apply IH].
    intros Hin. apply dict_set_keys in Hin as [->|Hin]; [now apply Hk|].
    now apply Hnot.
Qed.

Lemma dict_set_length (d : list (string * Z)) (k : string) (v : Z) :
  length (dict_set d k v) <= S (length d).
Proof.
  induction d as [|[k0 v0] d IH]; simpl; [lia|].
  destruct (String.eqb k0 k); simpl; lia.
Qed.

Lemma fold_dict_set_facts (items : list (cell * Z)) (d : list (string * Z)) :
  NoDup (map fst d) ->
  let d' := fold_left (fun d kv => dict_set d (str (fst kv)) (snd kv)) items d in
  NoDup (map fst d') /\ length d' <= length d + length items.
Proof.
  revert d. induction items as [|[v n] items IH]; simpl; intros d Hd.
  - split; [exact Hd|lia].
  - destruct (IH _ (dict_set_nodup d (str v) n Hd)) as [Hn Hl].
    split; [exact Hn|]. pose proof (dict_set_length d (str v) n). lia.
Qed.

Lemma fold_dict_set_keep (items : list (cell * Z)) (d : list (string * Z))
  (k : string) :
  ~ In k (map (fun kv => str (fst kv)) items) ->
  table_get (fold_left (fun d kv => dict_set d (str (fst kv)) (snd kv)) items d) k
  = table_get d k.
Proof.
  revert d. induction items as [|[v0 n0] items IH]; simpl; intros d Hnot;
    [reflexivity|].
  rewrite IH by tauto. apply dict_set_get_other. intros E. apply Hnot. now left.
Qed.

Lemma fold_dict_set_get (items : list (cell * Z)) (d : list (string * Z))
  (v : cell) (n : Z) :
  NoDup (map (fun kv => str (fst kv)) items) -> In (v, n) items ->
  table_get (fold_left (fun d kv => dict_set d (str (fst kv)) (snd kv)) items d)
            (str v) = Some n.
Proof.
  revert d. induction items as [|[v0 n0] items IH]; simpl; intros d Hnd Hin;
    [contradiction|].
  inversion Hnd as [|? ? Hnot Hnd']; subst.
  destruct Hin as [[= -> ->]|Hin]; [|now apply IH].
  rewrite fold_dict_set_keep by exact Hnot. apply dict_set_get_same.
Qed.

(** X20. The frequency table of a categorical profile is a dict: its keys are
    distinct, and it has no more entries than [value_counts] has values;
    so when [value_counts] lists one entry per distinct value, as pandas
    does, the table has at most 50 entries. *)
Theorem analyze_column_table_bounded
  (df : dataframe) (col_name : string) (col : series) (p : column_profile)
  (table : list (string * Z)) :
  df_get df col_name = Ok col ->
  analyze_column df col_name = Ok p ->
  p_value_counts p = Some table ->
  Z.of_nat (length (value_counts (s_values col))) = nunique (s_values col) ->
  NoDup (map fst table) /\ length table <= 50.
Proof.
  intros Hget Hp Ht Hvc. revert Hp. unfold analyze_column. rewrite Hget.
  cbv beta iota delta [bind].
  destruct (is_numeric_dtype (s_dtype col));
    [|destruct (is_datetime64_any_dtype (s_dtype col));
      [|destruct (is_bool_dtype (s_dtype col))]];
    repeat match goal with
           | |- context [unless_all_missing ?v ?f] =>
               destruct (unless_all_missing v f); [|discriminate]
           | |- context [zero_if_all_missing ?v ?f] =>
               destruct (zero_if_all_missing v f); [|discriminate]
           end;
    intros [= <-]; simpl in Ht; try discriminate Ht.
  destruct (Z.leb_spec (nunique (s_values col)) 50) as [Hle|Hgt];
    [|discriminate Ht].
  injection Ht as <-. unfold str_keyed.
  destruct (fold_dict_set_facts (value_counts (s_values col)) []
              ltac:(constructor)) as [Hn Hl].
  split; [exact Hn|]. simpl in Hl. lia.
Qed.

(** X21. When no two counted values have the same [str], every one of them is
    found in the frequency table under its [str], with its count: the
    string keys lose nothing. *)
Theorem analyze_column_table_lookup
  (df : dataframe) (col_name : string) (col : series) (p : column_profile)
  (table : list (string * Z)) :
  df_get df col_name = Ok col ->
  analyze_column df col_name = Ok p ->
  p_value_counts p = Some table ->
  NoDup (map (fun kv => str (fst kv)) (value_counts (s_values col))) ->
  forall v n, In (v, n) (value_counts (s_values col)) ->
              table_get table (str v) = Some n.
Proof.
  intros Hget Hp Ht Hnd v n Hin. revert Hp. unfold analyze_column. rewrite Hget.
  cbv beta iota delta [bind].
  destruct (is_numeric_dtype (s_dtype col));
    [|destruct (is_datetime64_any_dtype (s_dtype col));
      [|destruct (is_bool_dtype (s_dtype col))]];
    repeat match goal with
           | |- context [unless_all_missing ?v ?f] =>
               destruct (unless_all_missing v f); [|discriminate]
           | |- context [zero_if_all_missing ?v ?f] =>
               destruct (zero_if_all_missing v f); [|discriminate]
           end;
    intros [= <-]; simpl in Ht; try discriminate Ht.
  destruct (nunique (s_values col) <=? 50)%Z; [|discriminate Ht].
  injection Ht as <-. now apply fold_dict_set_get.
Qed.

End ProfilerMore.

Lemma analyze_column_type_and_summary_witness :
  let col := int_series Bool [Some 1%Z; Some 0%Z; None] in
  let df := [("sold", col)] in
  is_bool_dtype (s_dtype col) = true
  /\ exists p,
       analyze_column df "sold" = Ok p
       /\ p_type p =
            (if is_numeric_dtype (s_dtype col) then "numeric"
             else if is_datetime64_any_dtype (s_dtype col) then "date"
             else if is_bool_dtype (s_dtype col) then "boolean"
             else "categorical")
       /\ match p_summary p with
          | Some (NumericSummary _ _ _ _ _) => p_type p = "numeric"
          | Some (DateSummary _ _) => p_type p = "date"
          | Some (BooleanSummary _ _) => p_type p = "boolean"
          | None => p_type p = "categorical"
          end
       /\ (p_value_counts p <> None -> p_type p = "categorical").
Proof.
  split; [reflexivity|].
  match eval vm_compute in
        (analyze_column [("sold", int_series Bool [Some 1%Z; Some 0%Z; None])]
                        "sold") with
  | Ok ?p =>
      exists p; split; [reflexivity|];
      apply (analyze_column_type_and_summary
               [("sold", int_series Bool [Some 1%Z; Some 0%Z; None])] "sold"
               (int_series Bool [Some 1%Z; Some 0%Z; None]) p);
      reflexivity
  end.
Defined.

Lemma analyze_column_counts_witness :
  let col := int_series Object [Some 4%Z; None; Some 4%Z; Some 9%Z] in
  exists p,
    analyze_column [("region", col)] "region" = Ok p
    /\ p_unique_count p = nunique (s_values col)
    /\ p_na_count p = isna_sum (s_values col)
    /\ (0 <= p_unique_count p)%Z
    /\ (0 <= p_na_count p)%Z
    /\ (p_unique_count p + p_na_count p <= Z.of_nat (length (s_values col)))%Z.
Proof.
  match eval vm_compute in
        (analyze_column
           [("region", int_series Object [Some 4%Z; None; Some 4%Z; Some 9%Z])]
           "region") with
  | Ok ?p =>
      exists p; split; [reflexivity|];
      apply (analyze_column_counts
               [("region", int_series Object [Some 4%Z; None; Some 4%Z; Some 9%Z])]
               "region"
               (int_series Object [Some 4%Z; None; Some 4%Z; Some 9%Z]) p);
      reflexivity
  end.
Defined.

Lemma analyze_column_all_missing_witness :
  let col := int_series Datetime64 [None; None] in
  exists p,
    analyze_column [("shipped_on", col)] "shipped_on" = Ok p
    /\ p_unique_count p = 0%Z
    /\ p_na_count p = Z.of_nat (length (s_values col))
    /\ In (p_summary p)
          [Some (NumericSummary None None None None None);
           Some (DateSummary None None);
           Some (BooleanSummary 0 0);
           None].
Proof.
  apply (analyze_column_all_missing
           [("shipped_on", int_series Datetime64 [None; None])] "shipped_on");
    reflexivity.
Defined.

Lemma analyze_column_missing_label_witness :
  analyze_column [("price", int_series Float64 [Some 3%Z])] "cost"
  = Raise (KeyError "cost").
Proof.
  apply (analyze_column_missing_label
           [("price", int_series Float64 [Some 3%Z])] "cost").
  simpl. intros [H|[]]. discriminate H.
Defined.

Lemma analyze_column_table_bounded_witness :
  let col := int_series Object [Some 4%Z; None; Some 4%Z; Some 9%Z] in
  exists p table,
    analyze_column [("region", col)] "region" = Ok p
    /\ p_value_counts p = Some table
    /\ NoDup (map fst table) /\ length table <= 50.
Proof.
  match eval vm_compute in
        (analyze_column
           [("region", int_series Object [Some 4%Z; None; Some 4%Z; Some 9%Z])]
           "region") with
  | Ok ?p =>
      match eval vm_compute in (p_value_counts p) with
      | Some ?table =>
          exists p, table; split; [reflexivity|]; split; [reflexivity|];
          apply (analyze_column_table_bounded
                   [("region",
                     int_series Object [Some 4%Z; None; Some 4%Z; Some 9%Z])]
                   "region"
                   (int_series Object [Some 4%Z; None; Some 4%Z; Some 9%Z])
                   p table);
          reflexivity
      end
  end.
Defined.

Lemma analyze_column_table_lookup_witness :
  let col := int_series Object [Some 4%Z; None; Some 4%Z; Some 9%Z] in
  exists p table,
    analyze_column [("region", col)] "region" = Ok p
    /\ p_value_counts p = Some table
    /\ forall v n, In (v, n) (value_counts (s_values col)) ->
                   table_get table (str v) = Some n.
Proof.
  match eval vm_compute in
        (analyze_column
           [("region", int_series Object [Some 4%Z; None; Some 4%Z; Some 9%Z])]
           "region") with
  | Ok ?p =>
      match eval vm_compute in (p_value_counts p) with
      | Some ?table =>
          exists p, table; split; [reflexivity|]; split; [reflexivity|];
          apply (analyze_column_table_lookup
                   [("region",
                     int_series Object [Some 4%Z; None; Some 4%Z; Some 9%Z])]
                   "region"
                   (int_series Object [Some 4%Z; None; Some 4%Z; Some 9%Z])
                   p table);
          try reflexivity
      end
  end.
  vm_compute. repeat constructor; simpl; intuition discriminate.
Defined.

(** * The endpoints *)

Lemma recommend_length_bounds (columns : list column) (ts : bool) :
  forallb readable columns = true ->
  exists l,
    recommend_charts_from_data columns ts = Ok l /\ 1 <= length l <= 20.
Proof.
  intros Hr. destruct columns as [|c columns].
  { exists [error_entry]. split; [reflexivity|simpl; lia]. }
  destruct (recommend_readable (c :: columns) ts Hr) as (nn & cn & dn & dc & ->);
    [discriminate|].
  pose proof (pipeline_checked nn cn dn dc ts) as Hc.
  destruct (pipeline nn cn dn dc ts) as [l|e]; [|discriminate].
  exists l. split; [reflexivity|]. unfold pipeline_check in Hc.
  apply andb_true_iff in Hc as [Hc _]. apply andb_true_iff in Hc as [Hc H1].
  apply andb_true_iff in Hc as [_ H20]. apply Nat.leb_le in H1, H20. lia.
Qed.

Lemma recommend_raises_type_or_name (columns : list column) (ts : bool) :
  forallb readable columns = false ->
  recommend_charts_from_data columns ts = Raise (KeyError "type")
  \/ recommend_charts_from_data columns ts = Raise (KeyError "name").
Proof.
  intros Hr. destruct (forallb has_type columns) eqn:Ht.
  - right. assert (Hne : columns <> []) by (intros ->; discriminate).
    rewrite (recommend_on_names _ _ Ht Hne).
    destruct (unreadable_record _ Ht Hr) as (c & Hin & Hb & Hn).
    assert (Hmiss : forall t, type_is t c = true ->
                              names_res (names_of_type t columns)
                              = Raise (KeyError "name")).
    { intros t Hty. apply names_res_missing. rewrite <- Hn.
      unfold names_of_type. apply in_map, filter_In. now split. }
    unfold in_bucket in Hb.
    destruct (names_res_cases (names_of_type "numeric" columns))
      as [[nn Hnn]|Hnn]; rewrite Hnn; [|reflexivity].
    destruct (names_res_cases (names_of_type "categorical" columns))
      as [[cn Hcn]|Hcn]; rewrite Hcn; [|reflexivity].
    destruct (names_res_cases (names_of_type "date" columns))
      as [[dn Hdn]|Hdn]; rewrite Hdn; [|reflexivity].
    exfalso.
    apply orb_true_iff in Hb as [Hb|Hb]; [apply orb_true_iff in Hb as [Hb|Hb]|];
      apply Hmiss in Hb; congruence.
  - left. unfold recommend_charts_from_data.
    now rewrite (cols_of_type_untyped "numeric" columns Ht).
Qed.

(** X22. [/suggest-plots]: with readable records (or no ["columns"] key at all)
    the endpoint returns the recommendations and their number, which is
    between 1 and 20; otherwise it raises an HTTP 500 whose detail is the
    text of a KeyError for ["type"] or for ["name"], and nothing else. *)
Theorem suggest_plots_outcome (exn_str : exn -> string) (data : plot_request) :
  let columns := get_or (rq_columns data) [] in
  (forallb readable columns = true ->
   exists l,
     suggest_plots exn_str data
     = inl {| recommended := l; total_count := length l |}
     /\ 1 <= length l <= 20)
  /\ (forallb readable columns = false ->
      suggest_plots exn_str data
      = inr (HTTPException 500 (exn_str (KeyError "type")))
      \/ suggest_plots exn_str data
         = inr (HTTPException 500 (exn_str (KeyError "name")))).
Proof.
  intros columns. unfold suggest_plots. fold columns. split; intros Hr.
  - destruct (recommend_length_bounds columns
                (get_or (rq_has_time_series data) false) Hr) as (l & -> & Hl).
    now exists l.
  - destruct (recommend_raises_type_or_name columns
                (get_or (rq_has_time_series data) false) Hr) as [-> | ->];
      [now left | now right].
Qed.

Section UploadFacts.

Context `{Pandas}.

Variables read_csv read_excel : string -> res dataframe.
Variable raised_str : raised -> string.

Lemma profiles_named (df : dataframe) (labels : list string)
  (columns : list column_profile) :
  map_res (analyze_column df) labels = Ok columns ->
  map p_name columns = labels.
Proof.
  revert columns. induction labels as [|label labels IH]; simpl; intros columns.
  - now intros [= <-].
  - destruct (analyze_column df label) as [p|e] eqn:Hp; [|discriminate].
    cbv beta iota delta [bind].
    destruct (map_res (analyze_column df) labels) as [ps|e]; [|discriminate].
    intros [= <-]. simpl. rewrite (IH ps eq_refl).
    now rewrite (analyze_column_name _ _ _ Hp).
Qed.

Lemma analyze_column_type_in (df : dataframe) (col_name : string)
  (p : column_profile) :
  analyze_column df col_name = Ok p ->
  In (p_type p) ["numeric"; "date"; "boolean"; "categorical"].
Proof.
  unfold analyze_column. destruct (df_get df col_name) as [col|e]; [|discriminate].
  cbv beta iota delta [bind].
  destruct (is_numeric_dtype (s_dtype col));
    [|destruct (is_datetime64_any_dtype (s_dtype col));
      [|destruct (is_bool_dtype (s_dtype col))]];
    repeat match goal with
           | |- context [unless_all_missing ?v ?f] =>
               destruct (unless_all_missing v f); [|discriminate]
           | |- context [zero_if_all_missing ?v ?f] =>
               destruct (zero_if_all_missing v f); [|discriminate]
           end;
    intros [= <-]; simpl; tauto.
Qed.

Lemma profiles_typed (df : dataframe) (labels : list string)
  (columns : list column_profile) :
  map_res (analyze_column df) labels = Ok columns ->
  forall p, In p columns ->
            In (p_type p) ["numeric"; "date"; "boolean"; "categorical"].
Proof.
  revert columns. induction labels as [|label labels IH]; simpl; intros columns.
  - intros [= <-] p [].
  - destruct (analyze_column df label) as [p0|e] eqn:Hp; [|discriminate].
    cbv beta iota delta [bind].
    destruct (map_res (analyze_column df) labels) as [ps|e]; [|discriminate].
    intros [= <-] p [<-|Hin]; [exact (analyze_column_type_in _ _ _ Hp)|].
    now apply (IH ps).
Qed.

(** X23. A successful upload has profiled every column: the response holds one
    [ColumnInfo] per column of the frame, in column order and under the
    column's label, each of one of the four types, and n_cols is their
    number. *)
Theorem upload_data_profiles_every_column (file : upload_file) :
  let analysis := upload_data read_csv read_excel raised_str file in
  da_error analysis = false ->
  exists df columns,
    read_table read_csv read_excel file = Done df
    /\ da_columns analysis = Some columns
    /\ map ci_name columns = map fst df
    /\ da_n_cols analysis = Some (length columns)
    /\ da_message analysis = None
    /\ forall ci, In ci columns ->
         In (ci_type ci) ["numeric"; "date"; "boolean"; "categorical"].
Proof.
  intros analysis. subst analysis. unfold upload_data, upload_body.
  destruct (read_table read_csv read_excel file) as [df|e]; [|discriminate].
  destruct (map_res (analyze_column df) (map fst df)) as [columns|e] eqn:Hc;
    [|discriminate].
  intros _. exists df, (map column_info_of columns).
  split; [reflexivity|]. split; [reflexivity|].
  split; [rewrite map_map; exact (profiles_named _ _ _ Hc)|].
  split.
  { simpl. f_equal. rewrite length_map.
    apply profiles_named in Hc. apply (f_equal (@length _)) in Hc.
    now rewrite !length_map in Hc. }
  split; [reflexivity|].
  intros ci Hin. apply in_map_iff in Hin as (p & <- & Hin).
  exact (profiles_typed _ _ _ Hc p Hin).
Qed.

(** X24. A failed upload reports nothing but the message: whether the file
    type is unsupported, the parser raised, or the profile of one column
    raised, the response has the error flag, the text of the exception,
    and no columns, counts, flags or sample rows. *)
Theorem upload_data_no_partial_result (file : upload_file) :
  let analysis := upload_data read_csv read_excel raised_str file in
  da_error analysis = true ->
  (exists e,
      da_message analysis = Some (raised_str e)
      /\ (read_table read_csv read_excel file = Failed e
          \/ exists df e',
               read_table read_csv read_excel file = Done df
               /\ map_res (analyze_column df) (map fst df) = Raise e'
               /\ e = RaisedPy e'))
  /\ da_columns analysis = None
  /\ da_n_rows analysis = None
  /\ da_n_cols analysis = None
  /\ da_has_time_series analysis = None
  /\ da_has_geographic analysis = None
  /\ da_sample_data analysis = None
  /\ da_filename analysis = None.
Proof.
  intros analysis. subst analysis. unfold upload_data, upload_body.
  destruct (read_table read_csv read_excel file) as [df|e].
  - destruct (map_res (analyze_column df) (map fst df)) as [columns|e] eqn:Hc;
      [discriminate|].
    intros _. split; [|repeat split].
    exists (RaisedPy e). split; [reflexivity|]. right. now exists df, e.
  - intros _. split; [|repeat split].
    exists e. split; [reflexivity|now left].
Qed.

(** X25. A file whose name ends with none of .csv, .xlsx and .xls is refused
    with the HTTP 400 exception of the endpoint, which the endpoint itself
    catches: neither parser decides the answer. *)
Theorem upload_data_unsupported_file (file : upload_file) :
  ends_with ".csv" (filename file) = false ->
  ends_with ".xlsx" (filename file) = false ->
  ends_with ".xls" (filename file) = false ->
  let analysis := upload_data read_csv read_excel raised_str file in
  da_error analysis = true
  /\ da_message analysis
     = Some (raised_str
               (RaisedHttp (HTTPException 400 "Unsupported file format"))).
Proof.
  intros Hcsv Hxlsx Hxls. unfold upload_data, upload_body, read_table.
  rewrite Hcsv, Hxlsx, Hxls. now split.
Qed.

Lemma as_column_readable (columns : list column_info) :
  forallb readable (map as_column columns) = true.
Proof.
  apply forallb_forall. intros c Hin.
  apply in_map_iff in Hin as (ci & <- & _).
  unfold readable, has_type, has_name, as_column. simpl.
  now rewrite orb_true_r.
Qed.

(** X26. The profiles of a successful upload are always accepted by
    [/suggest-plots]: posting its columns and its time-series flag back
    never gives an HTTP 500, the number of recommendations is between 1
    and 20, and when one of the columns is of type date the flag is set
    and the line chart comes first. *)
Theorem upload_then_suggest_plots (exn_str : exn -> string)
  (file : upload_file) (columns : list column_info) (ts : bool) :
  let analysis := upload_data read_csv read_excel raised_str file in
  da_columns analysis = Some columns ->
  da_has_time_series analysis = Some ts ->
  exists l,
    suggest_plots exn_str
      {| rq_columns := Some (map as_column columns);
         rq_has_time_series := Some ts |}
    = inl {| recommended := l; total_count := length l |}
    /\ 1 <= length l <= 20
    /\ ((exists ci, In ci columns /\ ci_type ci = "date") ->
        ts = true /\ exists r rest, l = r :: rest /\ r_type r = "line").
Proof.
  intros analysis Hcols Hts. unfold suggest_plots. simpl get_or.
  pose proof (as_column_readable columns) as Hr.
  destruct (recommend_length_bounds _ ts Hr) as (l & Hl & Hlen).
  rewrite Hl. exists l. split; [reflexivity|]. split; [exact Hlen|].
  intros (ci & Hin & Hdate).
  assert (Hflag : ts = true).
  { subst analysis. revert Hcols Hts. unfold upload_data, upload_body.
    destruct (read_table read_csv read_excel file) as [df|e]; [|discriminate].
    destruct (map_res (analyze_column df) (map fst df)) as [ps|e];
      [|discriminate].
    simpl. intros [= <-] [= <-].
    apply in_map_iff in Hin as (p & <- & Hin).
    unfold detect_time_series. apply existsb_exists. exists p.
    split; [exact Hin|]. simpl in Hdate. now rewrite Hdate. }
  split; [exact Hflag|].
  assert (Hne : map as_column columns <> []).
  { destruct columns; [destruct Hin | discriminate]. }
  destruct (recommend_info _ ts Hr Hne) as (l' & Hl' & Hc).
  rewrite Hl in Hl'. apply Ok_inj in Hl'. subst l'.
  unfold info_check in Hc. apply andb_true_iff in Hc as [_ Hc].
  apply eqb_prop in Hc. rewrite Hflag in Hc. simpl in Hc.
  unfold first_is in Hc. destruct l as [|r rest]; [discriminate|].
  exists r, rest. split; [reflexivity | now apply String.eqb_eq].
Qed.

End UploadFacts.

Lemma upload_data_profiles_every_column_witness :
  let file := {| filename := "sales.csv"; contents := "region,price,sold_on" |} in
  let analysis :=
    upload_data sample_read_csv sample_read_excel sample_raised_str file in
  da_error analysis = false
  /\ exists df columns,
       read_table sample_read_csv sample_read_excel file = Done df
       /\ da_columns analysis = Some columns
       /\ map ci_name columns = map fst df
       /\ da_n_cols analysis = Some (length columns)
       /\ da_message analysis = None
       /\ forall ci, In ci columns ->
            In (ci_type ci) ["numeric"; "date"; "boolean"; "categorical"].
Proof.
  split; [reflexivity|].
  apply (upload_data_profiles_every_column
           sample_read_csv sample_read_excel sample_raised_str
           {| filename := "sales.csv"; contents := "region,price,sold_on" |}).
  reflexivity.
Defined.

Lemma upload_data_no_partial_result_witness :
  let file := {| filename := "sales.csv"; contents := EmptyString |} in
  let analysis :=
    upload_data sample_read_csv sample_read_excel sample_raised_str file in
  da_message analysis = Some "No columns to parse from file"
  /\ (exists e,
         da_message analysis = Some (sample_raised_str e)
         /\ (read_table sample_read_csv sample_read_excel file = Failed e
             \/ exists df e',
                  read_table sample_read_csv sample_read_excel file = Done df
                  /\ map_res (analyze_column df) (map fst df) = Raise e'
                  /\ e = RaisedPy e'))
  /\ da_columns analysis = None
  /\ da_n_rows analysis = None
  /\ da_n_cols analysis = None
  /\ da_has_time_series analysis = None
  /\ da_has_geographic analysis = None
  /\ da_sample_data analysis = None
  /\ da_filename analysis = None.
Proof.
  split; [reflexivity|].
  apply (upload_data_no_partial_result
           sample_read_csv sample_read_excel sample_raised_str
           {| filename := "sales.csv"; contents := EmptyString |}).
  reflexivity.
Defined.

Lemma upload_data_unsupported_file_witness :
  let file := {| filename := "notes.csv.txt"; contents := "a,b" |} in
  let analysis :=
    upload_data sample_read_csv sample_read_excel sample_raised_str file in
  da_error analysis = true
  /\ da_message analysis
     = Some (sample_raised_str
               (RaisedHttp (HTTPException 400 "Unsupported file format"))).
Proof.
  apply (upload_data_unsupported_file
           sample_read_csv sample_read_excel sample_raised_str
           {| filename := "notes.csv.txt"; contents := "a,b" |});
    reflexivity.
Defined.

Lemma upload_then_suggest_plots_witness :
  let file := {| filename := "sales.csv"; contents := "region,price,sold_on" |} in
  let analysis :=
    upload_data sample_read_csv sample_read_excel sample_raised_str file in
  exists columns l,
    da_columns analysis = Some columns
    /\ suggest_plots sample_exn_str
         {| rq_columns := Some (map as_column columns);
            rq_has_time_series := Some true |}
       = inl {| recommended := l; total_count := length l |}
    /\ 1 <= length l <= 20
    /\ ((exists ci, In ci columns /\ ci_type ci = "date") ->
        true = true /\ exists r rest, l = r :: rest /\ r_type r = "line").
Proof.
  match eval vm_compute in
        (da_columns
           (upload_data sample_read_csv sample_read_excel sample_raised_str
              {| filename := "sales.csv"; contents := "region,price,sold_on" |}))
  with
  | Some ?columns =>
      exists columns;
      destruct (upload_then_suggest_plots
                  sample_read_csv sample_read_excel sample_raised_str
                  sample_exn_str
                  {| filename := "sales.csv"; contents := "region,price,sold_on" |}
                  columns true eq_refl eq_refl) as (l & H1 & H2 & H3);
      exists l; split; [reflexivity|]; split; [exact H1|]; split; [exact H2|exact H3]
  end.
Defined.

(** * The endpoint [/generate-r-code] *)

Lemma replace_fence_skip (t : string) :
  replace "```" EmptyString (String "`" (String "`" (String "`" t))) = replace "```" EmptyString t.
Proof. destruct t; reflexivity. Qed.

Lemma replace_fence_keep (c : ascii) (s : string) :
  String.prefix "```" (String c s) = false ->
  replace "```" EmptyString (String c s) = String c (replace "```" EmptyString s).
Proof.
  intros Hp. unfold replace.
  change (replace_from "```" EmptyString 0 (String c s))
    with (if String.prefix "```" (String c s)
          then (EmptyString ++ replace_from "```" EmptyString (String.length "```" - 1) s)%string
          else String c (replace_from "```" EmptyString 0 s)).
  now rewrite Hp.
Qed.

Lemma prefix_cons_inv (x : ascii) (p s : string) :
  String.prefix (String x p) s = true ->
  exists s', s = String x s' /\ String.prefix p s' = true.
Proof.
  destruct s as [|c s]; simpl.
  - destruct (string_dec (String x p) EmptyString); discriminate.
  - destruct (ascii_dec x c) as [->|]; [|discriminate].
    intros Hp. now exists s.
Qed.

Lemma prefix_cons (x c : ascii) (p s : string) :
  String.prefix (String x p) (String c s)
  = if ascii_dec x c then String.prefix p s else false.
Proof. reflexivity. Qed.

Lemma prefix_fence_inv (s : string) :
  String.prefix "```" s = true ->
  exists t, s = String "`" (String "`" (String "`" t)).
Proof.
  intros Hp.
  apply prefix_cons_inv in Hp as (s1 & -> & Hp).
  apply prefix_cons_inv in Hp as (s2 & -> & Hp).
  apply prefix_cons_inv in Hp as (s3 & -> & _).
  now exists s3.
Qed.

Lemma contains_cons (sub : string) (c : ascii) (s : string) :
  contains sub (String c s)
  = if String.prefix sub (String c s) then true else contains sub s.
Proof. reflexivity. Qed.

Lemma replace_fence_facts (n : nat) (s : string) :
  String.length s <= n ->
  contains "```" (replace "```" EmptyString s) = false
  /\ (String.prefix "``" (replace "```" EmptyString s) = true ->
      String.prefix "``" s = true)
  /\ (String.prefix "`" (replace "```" EmptyString s) = true ->
      String.prefix "`" s = true).
Proof.
  assert (Hnil : contains "```" (replace "```" EmptyString EmptyString) = false
                 /\ (String.prefix "``" (replace "```" EmptyString EmptyString) = true ->
                     String.prefix "``" EmptyString = true)
                 /\ (String.prefix "`" (replace "```" EmptyString EmptyString) = true ->
                     String.prefix "`" EmptyString = true)).
  { split; [reflexivity|].
    split; intros Hp; vm_compute in Hp; discriminate Hp. }
  revert s. induction n as [|n IH]; intros s Hlen.
  { destruct s; [exact Hnil|simpl in Hlen; lia]. }
  destruct s as [|c s]; [exact Hnil|].
  destruct (String.prefix "```" (String c s)) eqn:Hp.
  - apply prefix_fence_inv in Hp as [t Ht]. injection Ht as -> ->.
    rewrite replace_fence_skip.
    destruct (IH t ltac:(simpl in Hlen; lia)) as (Hc & _ & _).
    split; [exact Hc|]. split; reflexivity.
  - rewrite (replace_fence_keep _ _ Hp).
    destruct (IH s ltac:(simpl in Hlen; lia)) as (Hc & H2 & H1).
    rewrite contains_cons, Hc. rewrite !prefix_cons in *.
    destruct (ascii_dec "`" c) as [<-|Hne].
    + split; [|split; [exact H1 | now destruct s]].
      destruct (String.prefix "``" (replace "```" EmptyString s)) eqn:Hq; [|reflexivity].
      now rewrite (H2 eq_refl) in Hp.
    + split; [reflexivity|]. split; discriminate.
Qed.

Lemma replace_fence_free (s : string) :
  contains "```" (replace "```" EmptyString s) = false.
Proof. exact (proj1 (replace_fence_facts (String.length s) s (le_n _))). Qed.

Lemma prefix_nil (s : string) : String.prefix EmptyString s = true.
Proof. now destruct s. Qed.

Lemma prefix_of_nil (p : string) : String.prefix p EmptyString = true -> p = EmptyString.
Proof. now destruct p. Qed.

Lemma prefix_app (p x post : string) :
  String.prefix p x = true -> String.prefix p (x ++ post) = true.
Proof.
  revert p. induction x as [|c x IH]; intros p Hp.
  - apply prefix_of_nil in Hp. subst p. apply prefix_nil.
  - destruct p as [|a p]; [reflexivity|].
    simpl String.append. rewrite prefix_cons in *.
    destruct (ascii_dec a c); [now apply IH|discriminate].
Qed.

Lemma contains_app_r (sub x post : string) :
  contains sub x = true -> contains sub (x ++ post) = true.
Proof.
  induction x as [|c x IH]; intros Hc.
  - destruct sub; [|discriminate]. simpl String.append.
    destruct post; reflexivity.
  - simpl String.append. rewrite contains_cons in *.
    destruct (String.prefix sub (String c x)) eqn:Hp.
    + change (String c (x ++ post)) with (String c x ++ post)%string.
      now rewrite (prefix_app _ _ post Hp).
    + rewrite (IH Hc). now destruct (String.prefix sub (String c (x ++ post))).
Qed.

Lemma contains_app_l (sub pre x : string) :
  contains sub x = true -> contains sub (pre ++ x) = true.
Proof.
  intros Hc. induction pre as [|c pre IH]; [exact Hc|].
  simpl String.append. rewrite contains_cons, IH.
  now destruct (String.prefix sub (String c (pre ++ x))).
Qed.

Lemma lstrip_from_suffix (ws : list string) (skip : nat) (s : string) :
  exists pre, s = (pre ++ lstrip_from ws skip s)%string.
Proof.
  revert skip. induction s as [|c s IH]; intros skip; [now exists EmptyString|].
  cbn [lstrip_from]. destruct skip as [|k].
  - destruct (find (fun w => String.prefix w (String c s)) ws) as [w|].
    + destruct (IH (String.length w - 1)) as [pre Hpre].
      exists (String c pre). cbn [String.append]. f_equal. exact Hpre.
    + now exists EmptyString.
  - destruct (IH k) as [pre Hpre]. exists (String c pre).
    cbn [String.append]. f_equal. exact Hpre.
Qed.

Lemma append_nil_r (s : string) : (s ++ EmptyString)%string = s.
Proof. induction s as [|c s IH]; simpl; [reflexivity | now rewrite IH]. Qed.

Lemma append_assoc (a b c : string) :
  ((a ++ b) ++ c)%string = (a ++ (b ++ c))%string.
Proof. induction a as [|x a IH]; simpl; [reflexivity | now rewrite IH]. Qed.

Lemma rev_string_app (a b : string) :
  rev_string (a ++ b) = (rev_string b ++ rev_string a)%string.
Proof.
  induction a as [|x a IH]; simpl.
  - now rewrite append_nil_r.
  - now rewrite IH, append_assoc.
Qed.

Lemma rev_string_involutive (s : string) : rev_string (rev_string s) = s.
Proof.
  induction s as [|c s IH]; simpl; [reflexivity|].
  now rewrite rev_string_app, IH.
Qed.

(** [strip] keeps a contiguous part of the text. *)
Lemma strip_part (s : string) :
  exists pre post, s = (pre ++ strip s ++ post)%string.
Proof.
  unfold strip.
  destruct (lstrip_from_suffix whitespace 0 s) as [pre Hpre].
  set (s1 := lstrip_from whitespace 0 s) in *.
  destruct (lstrip_from_suffix (map rev_string whitespace) 0 (rev_string s1))
    as [pre' Hpre'].
  set (s2 := lstrip_from (map rev_string whitespace) 0 (rev_string s1)) in *.
  exists pre, (rev_string pre').
  rewrite <- rev_string_app, <- Hpre', rev_string_involutive. exact Hpre.
Qed.

Lemma clean_r_code_fence_free (text : string) :
  contains "```" (clean_r_code text) = false.
Proof.
  unfold clean_r_code.
  set (s := replace "```" EmptyString (replace "```r" EmptyString text)).
  destruct (contains "```" (strip s)) eqn:Hc; [|reflexivity].
  destruct (strip_part s) as (pre & post & Hs).
  assert (Hfull : contains "```" s = true).
  { rewrite Hs. apply contains_app_l, contains_app_r, Hc. }
  subst s. now rewrite replace_fence_free in Hfull.
Qed.

Lemma split_on_nonempty (sep : ascii) (s : string) : split_on sep s <> [].
Proof.
  destruct s as [|c s]; simpl; [discriminate|].
  destruct (Ascii.eqb c sep); [discriminate|].
  destruct (split_on sep s); discriminate.
Qed.

(** [sep.join(s.split(sep)) == s] *)
Lemma split_on_join (sep : ascii) (s : string) :
  String.concat (String sep EmptyString) (split_on sep s) = s.
Proof.
  induction s as [|c s IH]; [reflexivity|].
  cbn [split_on]. pose proof (split_on_nonempty sep s) as Hne.
  destruct (Ascii.eqb_spec c sep) as [->|Hc].
  - destruct (split_on sep s) as [|seg segs]; [congruence|].
    simpl in *. congruence.
  - destruct (split_on sep s) as [|seg segs]; [congruence|].
    destruct segs as [|seg' segs]; simpl in *; congruence.
Qed.

(** No segment of a split holds the separator. *)
Lemma split_on_no_sep (sep : ascii) (s : string) :
  Forall (fun seg => contains (String sep EmptyString) seg = false) (split_on sep s).
Proof.
  induction s as [|c s IH]; [now repeat constructor|].
  cbn [split_on]. pose proof (split_on_nonempty sep s) as Hne.
  destruct (Ascii.eqb_spec c sep) as [->|Hc].
  - now constructor.
  - destruct (split_on sep s) as [|seg segs]; [congruence|].
    inversion IH as [|? ? Hseg Hsegs]; subst. constructor; [|exact Hsegs].
    rewrite contains_cons, Hseg, prefix_cons.
    destruct (ascii_dec sep c); [congruence|reflexivity].
Qed.

(** A text that holds the separator splits into two segments at least. *)
Lemma split_on_two (sep : ascii) (s : string) :
  contains (String sep EmptyString) s = true -> 2 <= length (split_on sep s).
Proof.
  induction s as [|c s IH]; [discriminate|].
  rewrite contains_cons, prefix_cons. cbn [split_on].
  pose proof (split_on_nonempty sep s) as Hne.
  destruct (Ascii.eqb_spec c sep) as [->|Hc].
  - intros _. destruct (split_on sep s); [congruence | simpl; lia].
  - destruct (ascii_dec sep c); [congruence|]. intros H. specialize (IH H).
    destruct (split_on sep s) as [|seg segs]; [congruence | exact IH].
Qed.

Lemma concat_rest (sep : string) (seg : string) (segs : list string) :
  exists rest, String.concat sep (seg :: segs) = (seg ++ rest)%string
               /\ (rest = EmptyString \/ String.prefix sep rest = true).
Proof.
  destruct segs as [|seg' segs].
  - exists EmptyString. cbn [String.concat]. now rewrite append_nil_r; auto.
  - exists (sep ++ String.concat sep (seg' :: segs))%string. split.
    + reflexivity.
    + right. apply prefix_app. clear. induction sep as [|c sep IH].
      * reflexivity.
      * rewrite prefix_cons. now destruct (ascii_dec c c).
Qed.

(** The image data of a data URL: the text between the first comma and the
    next one. *)
Lemma image_data_comma (image : string) :
  contains "," image = true ->
  exists head data rest,
    image = (head ++ "," ++ data ++ rest)%string
    /\ contains "," head = false
    /\ contains "," data = false
    /\ (rest = EmptyString \/ String.prefix "," rest = true)
    /\ image_data image = Ok data.
Proof.
  intros Hc. unfold image_data. rewrite Hc.
  pose proof (split_on_two "," image Hc) as Hlen.
  pose proof (split_on_no_sep "," image) as Hsep.
  pose proof (split_on_join "," image) as Hjoin.
  destruct (split_on "," image) as [|head [|data segs]];
    [simpl in Hlen; lia | simpl in Hlen; lia |].
  pose proof (Forall_inv Hsep) as Hhead.
  pose proof (Forall_inv (Forall_inv_tail Hsep)) as Hdata.
  cbv beta in Hhead, Hdata.
  destruct (concat_rest "," data segs) as (rest & Hcat & Hrest').
  exists head, data, rest. repeat split; try assumption.
  - rewrite <- Hcat. symmetry. exact Hjoin.
Qed.

Lemma image_data_returns (image : string) :
  exists data, image_data image = Ok data.
Proof.
  destruct (contains "," image) eqn:Hc.
  - destruct (image_data_comma image Hc) as (_ & data & _ & _ & _ & _ & _ & H).
    now exists data.
  - exists image. unfold image_data. now rewrite Hc.
Qed.

Lemma r_code_contents_returns (request : r_code_request) :
  exists contents,
    r_code_contents request = Ok contents
    /\ hd_error contents = Some (TextPart (r_code_prompt request)).
Proof.
  unfold r_code_contents.
  destruct (String.eqb (rc_image request) EmptyString); [now eexists|].
  destruct (image_data_returns (rc_image request)) as [data ->].
  now eexists.
Qed.

(** X27. The code [/generate-r-code] returns never holds a markdown fence,
    whatever the model answered and whether or not the call succeeded. *)
Theorem generate_r_code_no_fence
    (generate_content : list part -> res string) (exn_str : exn -> string)
    (request : r_code_request) :
  contains "```"
    (rr_code (generate_r_code generate_content exn_str request)) = false.
Proof.
  unfold generate_r_code.
  destruct (r_code_contents request) as [contents|e]; [|reflexivity].
  rewrite bind_Ok.
  destruct (generate_content contents) as [text|e]; [|reflexivity].
  rewrite bind_Ok. cbn [rr_code]. apply clean_r_code_fence_free.
Qed.

(** X28. With a data URL as image, [/generate-r-code] sends the model the
    prompt and one PNG part whose data is the text between the first comma of
    the image and the next one (or the end), so the data holds no comma. *)
Theorem generate_r_code_sends_data_after_comma (request : r_code_request) :
  contains "," (rc_image request) = true ->
  exists head data rest,
    rc_image request = (head ++ "," ++ data ++ rest)%string
    /\ contains "," head = false
    /\ contains "," data = false
    /\ (rest = EmptyString \/ String.prefix "," rest = true)
    /\ r_code_contents request
       = Ok [TextPart (r_code_prompt request); ImagePart "image/png" data].
Proof.
  intros Hc.
  destruct (image_data_comma _ Hc) as (head & data & rest & Hi & Hh & Hd & Hr & He).
  exists head, data, rest. repeat split; try assumption.
  unfold r_code_contents.
  destruct (String.eqb_spec (rc_image request) EmptyString) as [E|_].
  - rewrite E in Hc. discriminate.
  - now rewrite He.
Qed.

Lemma generate_r_code_sends_data_after_comma_witness :
  let request :=
    mk_r_code_request "data:image/png;base64,iVBORw0KGgo=" ["a"; "b"] None in
  contains "," (rc_image request) = true
  /\ exists head data rest,
       rc_image request = (head ++ "," ++ data ++ rest)%string
       /\ contains "," head = false
       /\ contains "," data = false
       /\ (rest = EmptyString \/ String.prefix "," rest = true)
       /\ r_code_contents request
          = Ok [TextPart (r_code_prompt request); ImagePart "image/png" data].
Proof.
  split; [reflexivity|].
  apply (generate_r_code_sends_data_after_comma
           (mk_r_code_request "data:image/png;base64,iVBORw0KGgo=" ["a"; "b"]
              None)).
  reflexivity.
Defined.

(** X29. [/generate-r-code] never fails while it builds the request: the
    index [1] of the split image is always in range. The model is called
    once, with the prompt first; the answer is "success" with the cleaned
    text when the model answers, and "error" with empty code and the
    exception's text when the model call raises. *)
Theorem generate_r_code_outcome
    (generate_content : list part -> res string) (exn_str : exn -> string)
    (request : r_code_request) :
  exists contents,
    r_code_contents request = Ok contents
    /\ hd_error contents = Some (TextPart (r_code_prompt request))
    /\ generate_r_code generate_content exn_str request
       = match generate_content contents with
         | Ok text => mk_r_code_result (clean_r_code text) "success" None
         | Raise e => mk_r_code_result EmptyString "error" (Some (exn_str e))
         end.
Proof.
  destruct (r_code_contents_returns request) as (contents & Hc & Hhd).
  exists contents. repeat split; try assumption.
  unfold generate_r_code. rewrite Hc, bind_Ok.
  now destruct (generate_content contents).
Qed.
